(** * microps: IPv4 ingress and the TCP connection engine

    A shallow embedding of [src/ip.c] and [src/tcp.c].  Unsigned C integers
    are values of [Z] with the wrap-around of their width written out, byte
    buffers are lists of such values, the PCB table is a list indexed by
    slot, and everything the C code does to the outside world (segments
    handed to [ip_output], wake-ups posted to a scheduling context) is
    collected in an event log. *)

From Stdlib Require Import ZArith Lia Bool Ascii String.
From stdpp Require Import base tactics option list list_numbers.

Local Open Scope Z_scope.

(** ** Fixed-width arithmetic *)

Definition wrap8 (z : Z) : Z := z mod 2 ^ 8.
Definition wrap16 (z : Z) : Z := z mod 2 ^ 16.
Definition wrap32 (z : Z) : Z := z mod 2 ^ 32.

(** [size_t] is taken to be 64 bits wide (LP64). *)
Definition wrap_size (z : Z) : Z := z mod 2 ^ 64.

Definition is_u8 (z : Z) : Prop := 0 <= z < 2 ^ 8.
Definition is_u16 (z : Z) : Prop := 0 <= z < 2 ^ 16.
Definition is_u32 (z : Z) : Prop := 0 <= z < 2 ^ 32.

(** The byte at an index of a byte buffer. *)
Definition byte_at (data : list Z) (i : nat) : Z := default 0 (data !! i).

(** ** TCP flags (tcp.c, lines 15-23) *)

Definition TCP_FLG_FIN : Z := 0x01.
Definition TCP_FLG_SYN : Z := 0x02.
Definition TCP_FLG_RST : Z := 0x04.
Definition TCP_FLG_PSH : Z := 0x08.
Definition TCP_FLG_ACK : Z := 0x10.
Definition TCP_FLG_URG : Z := 0x20.

Definition TCP_FLG_IS (x y : Z) : bool := Z.land x 0x3f =? y.
Definition TCP_FLG_ISSET (x y : Z) : bool :=
  negb (Z.land (Z.land x 0x3f) y =? 0).

(** ** Addresses and endpoints *)

Definition IP_ADDR_ANY : Z := 0x00000000.
Definition IP_ADDR_BROADCAST : Z := 0xffffffff.

(** [struct ip_endpoint]: a 32-bit address and a 16-bit port, both kept as
    the raw (network-order) words found in the headers. *)
Record ip_endpoint := mk_endpoint { addr : Z; port : Z }.

Definition endpoint_zero : ip_endpoint := mk_endpoint 0 0.

(** ** Protocol control blocks (tcp.c, lines 25-100) *)

Definition TCP_PCB_SIZE : nat := 16.

Inductive pcb_state :=
| TCP_PCB_STATE_FREE
| TCP_PCB_STATE_CLOSED
| TCP_PCB_STATE_LISTEN
| TCP_PCB_STATE_SYN_SENT
| TCP_PCB_STATE_SYN_RECEIVED
| TCP_PCB_STATE_ESTABLISHED
| TCP_PCB_STATE_FIN_WAIT1
| TCP_PCB_STATE_FIN_WAIT2
| TCP_PCB_STATE_CLOSING
| TCP_PCB_STATE_TIME_WAIT
| TCP_PCB_STATE_CLOSE_WAIT
| TCP_PCB_STATE_LAST_ACK.

Definition pcb_state_eqb (a b : pcb_state) : bool :=
  match a, b with
  | TCP_PCB_STATE_FREE, TCP_PCB_STATE_FREE
  | TCP_PCB_STATE_CLOSED, TCP_PCB_STATE_CLOSED
  | TCP_PCB_STATE_LISTEN, TCP_PCB_STATE_LISTEN
  | TCP_PCB_STATE_SYN_SENT, TCP_PCB_STATE_SYN_SENT
  | TCP_PCB_STATE_SYN_RECEIVED, TCP_PCB_STATE_SYN_RECEIVED
  | TCP_PCB_STATE_ESTABLISHED, TCP_PCB_STATE_ESTABLISHED
  | TCP_PCB_STATE_FIN_WAIT1, TCP_PCB_STATE_FIN_WAIT1
  | TCP_PCB_STATE_FIN_WAIT2, TCP_PCB_STATE_FIN_WAIT2
  | TCP_PCB_STATE_CLOSING, TCP_PCB_STATE_CLOSING
  | TCP_PCB_STATE_TIME_WAIT, TCP_PCB_STATE_TIME_WAIT
  | TCP_PCB_STATE_CLOSE_WAIT, TCP_PCB_STATE_CLOSE_WAIT
  | TCP_PCB_STATE_LAST_ACK, TCP_PCB_STATE_LAST_ACK => true
  | _, _ => false
  end.

(** [sizeof(pcb->buf)] *)
Definition BUF_SIZE : Z := 65535.

(** [struct tcp_segment_info] *)
Record tcp_segment_info := mk_seg {
  seg_seq : Z;  (* uint32_t *)
  seg_ack : Z;  (* uint32_t *)
  seg_len : Z;  (* uint16_t *)
  seg_wnd : Z;  (* uint16_t *)
  seg_up : Z    (* uint16_t *)
}.

(** [struct tcp_pcb].  The nested [snd] and [rcv] structs are flattened:
    [snd.nxt] is [snd_nxt], [rcv.wnd] is [rcv_wnd], and so on.  The
    scheduling context [ctx] is opaque to tcp.c (it is only ever passed by
    address to the [sched_*] functions) and is not a field here.

    [unread] is a ghost counter, not a C field: the number of payload
    bytes appended to [buf] by segment arrival and not yet consumed by
    [tcp_receive].  No code path reads it. *)
Record tcp_pcb := mk_pcb {
  state : pcb_state;
  local : ip_endpoint;
  foreign : ip_endpoint;
  snd_nxt : Z;  (* uint32_t *)
  snd_una : Z;  (* uint32_t *)
  snd_wnd : Z;  (* uint16_t *)
  snd_up : Z;   (* uint16_t *)
  snd_wl1 : Z;  (* uint32_t *)
  snd_wl2 : Z;  (* uint32_t *)
  iss : Z;      (* uint32_t *)
  rcv_nxt : Z;  (* uint32_t *)
  rcv_wnd : Z;  (* uint16_t *)
  rcv_up : Z;   (* uint16_t *)
  irs : Z;      (* uint32_t *)
  mtu : Z;      (* uint16_t *)
  mss : Z;      (* uint16_t *)
  buf : Z -> Z; (* uint8_t buf[65535], by index *)
  unread : Z    (* ghost *)
}.

(** The all-zero slot, as in the static array at start-up and after the
    [memset] of [tcp_pcb_release]. *)
Definition pcb_zero : tcp_pcb :=
  mk_pcb TCP_PCB_STATE_FREE endpoint_zero endpoint_zero
         0 0 0 0 0 0 0 0 0 0 0 0 0 (fun _ => 0) 0.

Definition pcbs_init : list tcp_pcb := replicate TCP_PCB_SIZE pcb_zero.

(** Field assignments. *)
Definition set_state (v : pcb_state) (p : tcp_pcb) : tcp_pcb :=
  mk_pcb v (local p) (foreign p) (snd_nxt p) (snd_una p) (snd_wnd p)
         (snd_up p) (snd_wl1 p) (snd_wl2 p) (iss p) (rcv_nxt p) (rcv_wnd p)
         (rcv_up p) (irs p) (mtu p) (mss p) (buf p) (unread p).
Definition set_local (v : ip_endpoint) (p : tcp_pcb) : tcp_pcb :=
  mk_pcb (state p) v (foreign p) (snd_nxt p) (snd_una p) (snd_wnd p)
         (snd_up p) (snd_wl1 p) (snd_wl2 p) (iss p) (rcv_nxt p) (rcv_wnd p)
         (rcv_up p) (irs p) (mtu p) (mss p) (buf p) (unread p).
Definition set_foreign (v : ip_endpoint) (p : tcp_pcb) : tcp_pcb :=
  mk_pcb (state p) (local p) v (snd_nxt p) (snd_una p) (snd_wnd p)
         (snd_up p) (snd_wl1 p) (snd_wl2 p) (iss p) (rcv_nxt p) (rcv_wnd p)
         (rcv_up p) (irs p) (mtu p) (mss p) (buf p) (unread p).
Definition set_snd_nxt (v : Z) (p : tcp_pcb) : tcp_pcb :=
  mk_pcb (state p) (local p) (foreign p) v (snd_una p) (snd_wnd p)
         (snd_up p) (snd_wl1 p) (snd_wl2 p) (iss p) (rcv_nxt p) (rcv_wnd p)
         (rcv_up p) (irs p) (mtu p) (mss p) (buf p) (unread p).
Definition set_snd_una (v : Z) (p : tcp_pcb) : tcp_pcb :=
  mk_pcb (state p) (local p) (foreign p) (snd_nxt p) v (snd_wnd p)
         (snd_up p) (snd_wl1 p) (snd_wl2 p) (iss p) (rcv_nxt p) (rcv_wnd p)
         (rcv_up p) (irs p) (mtu p) (mss p) (buf p) (unread p).
Definition set_snd_wnd (v : Z) (p : tcp_pcb) : tcp_pcb :=
  mk_pcb (state p) (local p) (foreign p) (snd_nxt p) (snd_una p) v
         (snd_up p) (snd_wl1 p) (snd_wl2 p) (iss p) (rcv_nxt p) (rcv_wnd p)
         (rcv_up p) (irs p) (mtu p) (mss p) (buf p) (unread p).
Definition set_snd_wl1 (v : Z) (p : tcp_pcb) : tcp_pcb :=
  mk_pcb (state p) (local p) (foreign p) (snd_nxt p) (snd_una p) (snd_wnd p)
         (snd_up p) v (snd_wl2 p) (iss p) (rcv_nxt p) (rcv_wnd p)
         (rcv_up p) (irs p) (mtu p) (mss p) (buf p) (unread p).
Definition set_snd_wl2 (v : Z) (p : tcp_pcb) : tcp_pcb :=
  mk_pcb (state p) (local p) (foreign p) (snd_nxt p) (snd_una p) (snd_wnd p)
         (snd_up p) (snd_wl1 p) v (iss p) (rcv_nxt p) (rcv_wnd p)
         (rcv_up p) (irs p) (mtu p) (mss p) (buf p) (unread p).
Definition set_iss (v : Z) (p : tcp_pcb) : tcp_pcb :=
  mk_pcb (state p) (local p) (foreign p) (snd_nxt p) (snd_una p) (snd_wnd p)
         (snd_up p) (snd_wl1 p) (snd_wl2 p) v (rcv_nxt p) (rcv_wnd p)
         (rcv_up p) (irs p) (mtu p) (mss p) (buf p) (unread p).
Definition set_rcv_nxt (v : Z) (p : tcp_pcb) : tcp_pcb :=
  mk_pcb (state p) (local p) (foreign p) (snd_nxt p) (snd_una p) (snd_wnd p)
         (snd_up p) (snd_wl1 p) (snd_wl2 p) (iss p) v (rcv_wnd p)
         (rcv_up p) (irs p) (mtu p) (mss p) (buf p) (unread p).
Definition set_rcv_wnd (v : Z) (p : tcp_pcb) : tcp_pcb :=
  mk_pcb (state p) (local p) (foreign p) (snd_nxt p) (snd_una p) (snd_wnd p)
         (snd_up p) (snd_wl1 p) (snd_wl2 p) (iss p) (rcv_nxt p) v
         (rcv_up p) (irs p) (mtu p) (mss p) (buf p) (unread p).
Definition set_irs (v : Z) (p : tcp_pcb) : tcp_pcb :=
  mk_pcb (state p) (local p) (foreign p) (snd_nxt p) (snd_una p) (snd_wnd p)
         (snd_up p) (snd_wl1 p) (snd_wl2 p) (iss p) (rcv_nxt p) (rcv_wnd p)
         (rcv_up p) v (mtu p) (mss p) (buf p) (unread p).
Definition set_buf (v : Z -> Z) (p : tcp_pcb) : tcp_pcb :=
  mk_pcb (state p) (local p) (foreign p) (snd_nxt p) (snd_una p) (snd_wnd p)
         (snd_up p) (snd_wl1 p) (snd_wl2 p) (iss p) (rcv_nxt p) (rcv_wnd p)
         (rcv_up p) (irs p) (mtu p) (mss p) v (unread p).
Definition set_unread (v : Z) (p : tcp_pcb) : tcp_pcb :=
  mk_pcb (state p) (local p) (foreign p) (snd_nxt p) (snd_una p) (snd_wnd p)
         (snd_up p) (snd_wl1 p) (snd_wl2 p) (iss p) (rcv_nxt p) (rcv_wnd p)
         (rcv_up p) (irs p) (mtu p) (mss p) (buf p) v.

(** ** Effects *)

(** What [tcp_output_segment] hands to [ip_output]: the header fields it
    was called with, the payload, and the two endpoints. *)
Record out_segment := mk_out {
  o_seq : Z;
  o_ack : Z;
  o_flg : Z;
  o_wnd : Z;
  o_data : list Z;
  o_local : ip_endpoint;
  o_foreign : ip_endpoint
}.

Inductive event :=
| Emit (s : out_segment)   (* a segment submitted to ip_output *)
| Wakeup (slot : nat)      (* sched_wakeup(&pcbs[slot].ctx) *)
| Interrupt (slot : nat).  (* sched_interrupt(&pcbs[slot].ctx) *)

(** ** PCB selection (tcp.c, lines 181-211) *)

(** A pointer into [pcbs] is a slot index together with the slot's
    contents at the time it was taken. *)
Definition pcb_ref : Type := nat * tcp_pcb.

Definition local_matches (pcb : tcp_pcb) (loc : ip_endpoint) : bool :=
  ((addr (local pcb) =? IP_ADDR_ANY) || (addr (local pcb) =? addr loc))
  && (port (local pcb) =? port loc).

Definition foreign_matches (pcb : tcp_pcb) (f : ip_endpoint) : bool :=
  (addr (foreign pcb) =? addr f) && (port (foreign pcb) =? port f).

Definition is_wildcard_listen (pcb : tcp_pcb) : bool :=
  pcb_state_eqb (state pcb) TCP_PCB_STATE_LISTEN
  && (addr (foreign pcb) =? IP_ADDR_ANY) && (port (foreign pcb) =? 0).

Fixpoint tcp_pcb_select_from (i : nat) (listen_pcb : option pcb_ref)
    (loc : ip_endpoint) (fgn : option ip_endpoint) (ps : list tcp_pcb)
    : option pcb_ref :=
  match ps with
  | [] => listen_pcb
  | pcb :: rest =>
    if local_matches pcb loc then
      match fgn with
      | None => Some (i, pcb)
      | Some f =>
        if foreign_matches pcb f then Some (i, pcb)
        else if is_wildcard_listen pcb
             then tcp_pcb_select_from (S i) (Some (i, pcb)) loc fgn rest
             else tcp_pcb_select_from (S i) listen_pcb loc fgn rest
      end
    else tcp_pcb_select_from (S i) listen_pcb loc fgn rest
  end.

Definition tcp_pcb_select (loc : ip_endpoint) (fgn : option ip_endpoint)
    (pcbs : list tcp_pcb) : option pcb_ref :=
  tcp_pcb_select_from 0 None loc fgn pcbs.

(** [tcp_pcb_get] (tcp.c, lines 213-229) *)
Definition tcp_pcb_get (id : Z) (pcbs : list tcp_pcb) : option pcb_ref :=
  if (id <? 0) || (id >=? Z.of_nat TCP_PCB_SIZE) then None
  else match pcbs !! Z.to_nat id with
       | Some pcb =>
         if pcb_state_eqb (state pcb) TCP_PCB_STATE_FREE then None
         else Some (Z.to_nat id, pcb)
       | None => None
       end.

(** ** Segment emission (tcp.c, lines 237-301) *)

(** [tcp_output_segment] builds the segment in [buf], which has room for
    IP_PAYLOAD_SIZE_MAX = 65515 bytes, and keeps its length in 16 bits.
    The definition gives the segment handed to [ip_output] when header
    and text fit there, that is for [len] up to 65495; a longer text
    makes the C code write beyond [buf], which is not modelled.  Segment
    arrival and [tcp_close] pass no text, and [tcp_send] passes at most
    mtu - 40 bytes. *)
Definition tcp_output_segment (seq ack flg wnd : Z) (data : list Z) (len : Z)
    (loc fgn : ip_endpoint) : event :=
  Emit (mk_out seq ack flg wnd (take (Z.to_nat len) data) loc fgn).

Definition tcp_output (pcb : tcp_pcb) (flg : Z) (data : list Z) (len : Z)
    : event :=
  let seq := if TCP_FLG_ISSET flg TCP_FLG_SYN then iss pcb else snd_nxt pcb in
  tcp_output_segment seq (rcv_nxt pcb) flg (rcv_wnd pcb) data len
                     (local pcb) (foreign pcb).

(** ** Segment arrival (tcp.c, lines 303-564) *)

(** The reply to a segment for which there is no PCB, or a CLOSED one
    (lines 311-326). *)
Definition no_pcb_reply (seg : tcp_segment_info) (flags : Z)
    (loc fgn : ip_endpoint) : list event :=
  if TCP_FLG_ISSET flags TCP_FLG_RST then []
  else if negb (TCP_FLG_ISSET flags TCP_FLG_ACK) then
    [tcp_output_segment 0 (wrap32 (seg_seq seg + seg_len seg))
                        (Z.lor TCP_FLG_RST TCP_FLG_ACK) 0 [] 0 loc fgn]
  else
    [tcp_output_segment (seg_ack seg) 0 TCP_FLG_RST 0 [] 0 loc fgn].

(** LISTEN (lines 330-384).  [rnd] is the value returned by the call to
    [random()]. *)
Definition arrives_listen (rnd : Z) (seg : tcp_segment_info) (flags : Z)
    (loc fgn : ip_endpoint) (pcb : tcp_pcb) : tcp_pcb * list event :=
  if TCP_FLG_ISSET flags TCP_FLG_RST then (pcb, [])
  else if TCP_FLG_ISSET flags TCP_FLG_ACK then
    (pcb, [tcp_output_segment (seg_ack seg) 0 TCP_FLG_RST 0 [] 0 loc fgn])
  else if TCP_FLG_ISSET flags TCP_FLG_SYN then
    let pcb := set_local loc pcb in
    let pcb := set_foreign fgn pcb in
    let pcb := set_rcv_wnd (wrap16 BUF_SIZE) pcb in
    let pcb := set_rcv_nxt (wrap32 (seg_seq seg + 1)) pcb in
    let pcb := set_irs (seg_seq seg) pcb in
    let pcb := set_iss (wrap32 rnd) pcb in
    let ev := tcp_output pcb (Z.lor TCP_FLG_SYN TCP_FLG_ACK) [] 0 in
    let pcb := set_snd_nxt (wrap32 (iss pcb + 1)) pcb in
    let pcb := set_snd_una (iss pcb) pcb in
    let pcb := set_state TCP_PCB_STATE_SYN_RECEIVED pcb in
    (pcb, [ev])
  else (pcb, []).

(** The comparisons of the sequence-number check (lines 429-453), on the
    raw [uint32_t] values; the sums are [uint32_t] sums. *)
Definition in_rcv_window (pcb : tcp_pcb) (x : Z) : bool :=
  (rcv_nxt pcb <=? x) && (x <? wrap32 (rcv_nxt pcb + rcv_wnd pcb)).

Definition seg_last (seg : tcp_segment_info) : Z :=
  wrap32 (wrap32 (seg_seq seg + seg_len seg) - 1).

Definition seq_acceptable (pcb : tcp_pcb) (seg : tcp_segment_info) : bool :=
  if seg_len seg =? 0 then
    if rcv_wnd pcb =? 0 then seg_seq seg =? rcv_nxt pcb
    else in_rcv_window pcb (seg_seq seg)
  else
    if rcv_wnd pcb =? 0 then false
    else in_rcv_window pcb (seg_seq seg) || in_rcv_window pcb (seg_last seg).

(** The comparisons of the ACK processing (lines 498-529). *)
Definition ack_valid_syn_received (pcb : tcp_pcb) (seg : tcp_segment_info)
    : bool :=
  (snd_una pcb <=? seg_ack seg) && (seg_ack seg <=? snd_nxt pcb).

Definition ack_is_new (pcb : tcp_pcb) (seg : tcp_segment_info) : bool :=
  (snd_una pcb <? seg_ack seg) && (seg_ack seg <=? snd_nxt pcb).

Definition ack_is_duplicate (pcb : tcp_pcb) (seg : tcp_segment_info) : bool :=
  seg_ack seg <? snd_una pcb.

Definition ack_is_unsent (pcb : tcp_pcb) (seg : tcp_segment_info) : bool :=
  seg_ack seg >? snd_nxt pcb.

Definition window_update_due (pcb : tcp_pcb) (seg : tcp_segment_info) : bool :=
  (snd_wl1 pcb <? seg_seq seg)
  || ((snd_wl1 pcb =? seg_seq seg) && (snd_wl2 pcb <=? seg_ack seg)).

(** Whether processing goes on after a step or the function returns. *)
Inductive flow := Continue | Return.

(** ESTABLISHED ACK processing (lines 511-534). *)
Definition ack_established (seg : tcp_segment_info) (pcb : tcp_pcb)
    : flow * tcp_pcb * list event :=
  if ack_is_new pcb seg then
    let pcb := set_snd_una (seg_ack seg) pcb in
    if window_update_due pcb seg then
      let pcb := set_snd_wnd (seg_wnd seg) pcb in
      let pcb := set_snd_wl1 (seg_seq seg) pcb in
      let pcb := set_snd_wl2 (seg_ack seg) pcb in
      (Continue, pcb, [])
    else (Continue, pcb, [])
  else if ack_is_duplicate pcb seg then (Continue, pcb, [])
  else if ack_is_unsent pcb seg then
    (Return, pcb, [tcp_output pcb TCP_FLG_ACK [] 0])
  else (Continue, pcb, []).

(** The [switch] of the fifth step (lines 494-535); SYN_RECEIVED falls
    through into ESTABLISHED once the ACK is found valid. *)
Definition ack_processing (i : nat) (seg : tcp_segment_info)
    (loc fgn : ip_endpoint) (pcb : tcp_pcb) : flow * tcp_pcb * list event :=
  match state pcb with
  | TCP_PCB_STATE_SYN_RECEIVED =>
    if ack_valid_syn_received pcb seg then
      let pcb := set_state TCP_PCB_STATE_ESTABLISHED pcb in
      let '(fl, pcb, evs) := ack_established seg pcb in
      (fl, pcb, Wakeup i :: evs)
    else
      (Return, pcb,
       [tcp_output_segment (seg_ack seg) 0 TCP_FLG_RST 0 [] 0 loc fgn])
  | TCP_PCB_STATE_ESTABLISHED => ack_established seg pcb
  | _ => (Continue, pcb, [])
  end.

(** [memcpy(buf + off, data, len)] into the array of [BUF_SIZE] bytes.
    The copy is defined only when the [len] source bytes exist and the
    destination range lies inside the array; otherwise the C code reads or
    writes out of bounds, and the model has no result. *)
Definition memcpy_into (b : Z -> Z) (off : Z) (data : list Z) (len : Z)
    : option (Z -> Z) :=
  if (len <=? Z.of_nat (length data)) && (off + len <=? BUF_SIZE)
  then Some (fun i => if (off <=? i) && (i <? off + len)
                      then byte_at data (Z.to_nat (i - off))
                      else b i)
  else None.

(** The seventh step, segment text (lines 544-557). *)
Definition text_processing (i : nat) (seg : tcp_segment_info)
    (data : list Z) (len : Z) (pcb : tcp_pcb)
    : option (tcp_pcb * list event) :=
  match state pcb with
  | TCP_PCB_STATE_ESTABLISHED =>
    if negb (len =? 0) then
      match memcpy_into (buf pcb) (BUF_SIZE - rcv_wnd pcb) data len with
      | None => None
      | Some b =>
        let pcb := set_buf b pcb in
        let pcb := set_unread (unread pcb + len) pcb in
        let pcb := set_rcv_nxt (wrap32 (seg_seq seg + seg_len seg)) pcb in
        let pcb := set_rcv_wnd (wrap16 (rcv_wnd pcb - len)) pcb in
        Some (pcb, [tcp_output pcb TCP_FLG_ACK [] 0; Wakeup i])
      end
    else Some (pcb, [])
  | _ => Some (pcb, [])
  end.

(** Everything after the LISTEN / SYN_SENT [switch] (lines 410-563). *)
Definition arrives_otherwise (i : nat) (seg : tcp_segment_info) (flags : Z)
    (data : list Z) (len : Z) (loc fgn : ip_endpoint) (pcb : tcp_pcb)
    : option (tcp_pcb * list event) :=
  let acceptable :=
    match state pcb with
    | TCP_PCB_STATE_SYN_RECEIVED | TCP_PCB_STATE_ESTABLISHED =>
      seq_acceptable pcb seg
    | _ => true
    end in
  if negb acceptable then
    if negb (TCP_FLG_ISSET flags TCP_FLG_RST)
    then Some (pcb, [tcp_output pcb TCP_FLG_ACK [] 0])
    else Some (pcb, [])
  else if negb (TCP_FLG_ISSET flags TCP_FLG_ACK) then Some (pcb, [])
  else
    match ack_processing i seg loc fgn pcb with
    | (Return, pcb, evs) => Some (pcb, evs)
    | (Continue, pcb, evs) =>
      match text_processing i seg data len pcb with
      | None => None
      | Some (pcb, evs') => Some (pcb, evs ++ evs')
      end
    end.

(** [tcp_segment_arrives].  The result is the PCB table after the call and
    the events in the order they happened; there is none when the text
    copy runs out of bounds. *)
Definition tcp_segment_arrives (rnd : Z) (seg : tcp_segment_info) (flags : Z)
    (data : list Z) (len : Z) (loc fgn : ip_endpoint) (pcbs : list tcp_pcb)
    : option (list tcp_pcb * list event) :=
  match tcp_pcb_select loc (Some fgn) pcbs with
  | None => Some (pcbs, no_pcb_reply seg flags loc fgn)
  | Some (i, pcb) =>
    match state pcb with
    | TCP_PCB_STATE_CLOSED => Some (pcbs, no_pcb_reply seg flags loc fgn)
    | TCP_PCB_STATE_LISTEN =>
      let '(pcb', evs) := arrives_listen rnd seg flags loc fgn pcb in
      Some (<[i := pcb']> pcbs, evs)
    | TCP_PCB_STATE_SYN_SENT => Some (pcbs, [])
    | _ =>
      match arrives_otherwise i seg flags data len loc fgn pcb with
      | None => None
      | Some (pcb', evs) => Some (<[i := pcb']> pcbs, evs)
      end
    end
  end.

(** ** Allocation and release (tcp.c, lines 146-179) *)

Fixpoint tcp_pcb_alloc_from (i : nat) (ps : list tcp_pcb)
    : option (nat * list tcp_pcb) :=
  match ps with
  | [] => None
  | pcb :: rest =>
    if pcb_state_eqb (state pcb) TCP_PCB_STATE_FREE
    then Some (i, set_state TCP_PCB_STATE_CLOSED pcb :: rest)
    else match tcp_pcb_alloc_from (S i) rest with
         | Some (j, rest') => Some (j, pcb :: rest')
         | None => None
         end
  end.

Definition tcp_pcb_alloc (pcbs : list tcp_pcb) : option (nat * list tcp_pcb) :=
  tcp_pcb_alloc_from 0 pcbs.

(** [busy] is the answer of [sched_ctx_destroy]: [true] when it returns -1
    because a waiter is still asleep on the context. *)
Definition tcp_pcb_release (busy : bool) (i : nat) (pcbs : list tcp_pcb)
    : list tcp_pcb * list event :=
  if busy then (pcbs, [Wakeup i])
  else (<[i := pcb_zero]> pcbs, []).

(** ** User commands *)

(** The part of [tcp_open_rfc793] for a passive open that runs before the
    first sleep (lines 676-704): allocate, record the endpoints, LISTEN. *)
Definition tcp_open_listen (loc : ip_endpoint) (fgn : option ip_endpoint)
    (pcbs : list tcp_pcb) : option (nat * list tcp_pcb) :=
  match tcp_pcb_alloc pcbs with
  | None => None
  | Some (i, pcbs) =>
    match pcbs !! i with
    | None => None
    | Some pcb =>
      let pcb := set_local loc pcb in
      let pcb := match fgn with
                 | Some f => set_foreign f pcb
                 | None => pcb
                 end in
      let pcb := set_state TCP_PCB_STATE_LISTEN pcb in
      Some (i, <[i := pcb]> pcbs)
    end
  end.

(** Modelled from the spec: [sched_sleep] (platform code, not in src/).
    It releases the TCP mutex, blocks until a wakeup or an interrupt is
    posted, and takes the mutex again.  A sleep is therefore described by
    its return value and by what the other threads did to the PCB table
    while the mutex was free. *)
Inductive sleep_return :=
| SleepWoken         (* sched_sleep returns 0 *)
| SleepInterrupted.  (* sched_sleep returns -1 *)

Definition sleep : Type := sleep_return * (list tcp_pcb → list tcp_pcb).

Inductive receive_result :=
| ReceiveOk (n : Z) (out : list Z)  (* returns n; out is what was copied *)
| ReceiveFail                       (* returns -1 *)
| ReceiveInterrupted                (* returns -1 with errno = EINTR *)
| ReceiveAsleep.                    (* no further sleep outcome: still blocked *)

(** [tcp_receive] from the label RETRY on (tcp.c, lines 850-879), for the
    PCB in slot [i]. *)
Fixpoint tcp_receive_retry (i : nat) (size : Z) (sleeps : list sleep)
    (pcbs : list tcp_pcb) : receive_result * list tcp_pcb :=
  match pcbs !! i with
  | None => (ReceiveFail, pcbs)
  | Some pcb =>
    match state pcb with
    | TCP_PCB_STATE_ESTABLISHED =>
      let remain := BUF_SIZE - rcv_wnd pcb in
      if remain =? 0 then
        match sleeps with
        | [] => (ReceiveAsleep, pcbs)
        | (SleepInterrupted, env) :: _ => (ReceiveInterrupted, env pcbs)
        | (SleepWoken, env) :: rest => tcp_receive_retry i size rest (env pcbs)
        end
      else
        let len := Z.min size remain in
        let out := buf pcb <$> seqZ 0 len in
        let moved := fun i => if (0 <=? i) && (i <? remain - len)
                              then buf pcb (i + len)
                              else buf pcb i in
        let pcb := set_buf moved pcb in
        let pcb := set_unread (unread pcb - len) pcb in
        let pcb := set_rcv_wnd (wrap16 (rcv_wnd pcb + len)) pcb in
        (ReceiveOk len out, <[i := pcb]> pcbs)
    | _ => (ReceiveFail, pcbs)
    end
  end.

Definition tcp_receive (id : Z) (size : Z) (sleeps : list sleep)
    (pcbs : list tcp_pcb) : receive_result * list tcp_pcb :=
  match tcp_pcb_get id pcbs with
  | None => (ReceiveFail, pcbs)
  | Some (i, _) => tcp_receive_retry i size sleeps pcbs
  end.

(** [tcp_close] (lines 744-760). *)
Definition tcp_close (busy : bool) (id : Z) (pcbs : list tcp_pcb)
    : Z * list tcp_pcb * list event :=
  match tcp_pcb_get id pcbs with
  | None => (-1, pcbs, [])
  | Some (i, pcb) =>
    let ev := tcp_output pcb TCP_FLG_RST [] 0 in
    let '(pcbs, evs) := tcp_pcb_release busy i pcbs in
    (0, pcbs, ev :: evs)
  end.

(** The exits of the user commands that give a PCB up (lines 716-717,
    732-733, 817-818): the state is forced to CLOSED, then the slot is
    released. *)
Definition tcp_abort (busy : bool) (i : nat) (pcbs : list tcp_pcb)
    : list tcp_pcb * list event :=
  match pcbs !! i with
  | None => (pcbs, [])
  | Some pcb =>
    tcp_pcb_release busy i (<[i := set_state TCP_PCB_STATE_CLOSED pcb]> pcbs)
  end.

(** One round of the sending loop of [tcp_send] (lines 797-823) on an
    ESTABLISHED PCB with room in the peer's window: a PSH|ACK segment of
    [slen] bytes goes out and [snd.nxt] advances. *)
Definition tcp_send_round (i : nat) (mss_ : Z) (data : list Z)
    (pcbs : list tcp_pcb) : option (Z * list tcp_pcb * list event) :=
  match pcbs !! i with
  | None => None
  | Some pcb =>
    match state pcb with
    | TCP_PCB_STATE_ESTABLISHED =>
      let cap := wrap32 (snd_wnd pcb - wrap32 (snd_nxt pcb - snd_una pcb)) in
      if cap =? 0 then None
      else
        let slen := Z.min (Z.min mss_ (Z.of_nat (length data))) cap in
        let ev := tcp_output pcb (Z.lor TCP_FLG_ACK TCP_FLG_PSH) data slen in
        Some (slen, <[i := set_snd_nxt (wrap32 (snd_nxt pcb + slen)) pcb]> pcbs,
              [ev])
    | _ => None
    end
  end.

(** ** Byte order and checksum *)

(** The host's byte order is a parameter of everything that looks at the
    bytes of a multi-byte object: [be = true] on a big-endian host. *)

(** A [uint16_t] / [uint32_t] read from memory at the given bytes. *)
Definition load16 (be : bool) (b0 b1 : Z) : Z :=
  if be then b0 * 256 + b1 else b1 * 256 + b0.

Definition load32 (be : bool) (b0 b1 b2 b3 : Z) : Z :=
  if be then ((b0 * 256 + b1) * 256 + b2) * 256 + b3
  else ((b3 * 256 + b2) * 256 + b1) * 256 + b0.

(** The bytes of a [uint32_t] object, in memory order. *)
Definition bytes_of_u32 (be : bool) (n : Z) : list Z :=
  let b0 := n mod 256 in
  let b1 := (n / 256) mod 256 in
  let b2 := (n / 65536) mod 256 in
  let b3 := (n / 16777216) mod 256 in
  if be then [b3; b2; b1; b0] else [b0; b1; b2; b3].

Definition u32_of_bytes (be : bool) (l : list Z) : Z :=
  match l with
  | [b0; b1; b2; b3] => load32 be b0 b1 b2 b3
  | _ => 0
  end.

Definition byteswap16 (x : Z) : Z :=
  Z.lor (Z.shiftl (Z.land x 0xff) 8) (Z.land (Z.shiftr x 8) 0xff).

Definition byteswap32 (x : Z) : Z :=
  Z.lor (Z.lor (Z.shiftl (Z.land x 0xff) 24)
               (Z.shiftl (Z.land (Z.shiftr x 8) 0xff) 16))
        (Z.lor (Z.shiftl (Z.land (Z.shiftr x 16) 0xff) 8)
               (Z.land (Z.shiftr x 24) 0xff)).

(** Modelled from the spec: the byte-order conversions of util.c, which is
    not in src/.  They swap the bytes on a little-endian host and do
    nothing on a big-endian one. *)
Definition ntoh16 (be : bool) (x : Z) : Z := if be then x else byteswap16 x.
Definition hton16 (be : bool) (x : Z) : Z := ntoh16 be x.
Definition ntoh32 (be : bool) (x : Z) : Z := if be then x else byteswap32 x.
Definition hton32 (be : bool) (x : Z) : Z := ntoh32 be x.

(** The 16-bit words of a byte range as the host reads them; an odd last
    byte is paired with a zero byte. *)
Fixpoint words16 (be : bool) (l : list Z) : list Z :=
  match l with
  | b0 :: b1 :: rest => load16 be b0 b1 :: words16 be rest
  | [b0] => [load16 be b0 0]
  | [] => []
  end.

Fixpoint fold_carries (fuel : nat) (sum : Z) : Z :=
  match fuel with
  | O => sum
  | S fuel =>
    if Z.shiftr sum 16 =? 0 then sum
    else fold_carries fuel (Z.land sum 0xffff + Z.shiftr sum 16)
  end.

(** Modelled from the spec: [cksum16] of util.c, which is not in src/.
    The one's-complement sum of the 16-bit words of the first [count]
    bytes, started from the partial sum [init], complemented. *)
Definition cksum16 (be : bool) (data : list Z) (count : Z) (init : Z) : Z :=
  let sum := fold_left Z.add (words16 be (take (Z.to_nat count) data)) init in
  0xffff - fold_carries 32 sum.

(** ** TCP ingress (tcp.c, lines 566-634) *)

(** Modelled from the spec: ip.h is not in src/.  TCP is IP protocol 6. *)
Definition IP_PROTOCOL_TCP : Z := 6.

(** [sizeof(struct tcp_hdr)] *)
Definition TCP_HDR_SIZE : Z := 20.

(** The arguments [tcp_input] calls [tcp_segment_arrives] with. *)
Record arrival := mk_arrival {
  a_seg : tcp_segment_info;
  a_flags : Z;
  a_hlen : Z;          (* uint16_t hlen *)
  a_data : list Z;     (* the bytes at (uint8_t * )hdr + hlen *)
  a_len : Z;           (* size_t len - hlen *)
  a_local : ip_endpoint;
  a_foreign : ip_endpoint
}.

Definition pseudo_hdr_bytes (be : bool) (src dst len : Z) : list Z :=
  bytes_of_u32 be src ++ bytes_of_u32 be dst
  ++ [0; IP_PROTOCOL_TCP]
  ++ (let l := hton16 be (wrap16 len) in
      if be then [l / 256; l mod 256] else [l mod 256; l / 256]).

(** [tcp_input] up to the call of [tcp_segment_arrives]; [None] when the
    segment is dropped. *)
Definition tcp_input_args (be : bool) (data : list Z) (src dst : Z)
    : option arrival :=
  let len := Z.of_nat (length data) in
  if len <? TCP_HDR_SIZE then None
  else
    let psum := wrap16 (Z.lnot (cksum16 be (pseudo_hdr_bytes be src dst len)
                                        12 0)) in
    if negb (cksum16 be data len psum =? 0) then None
    else if (src =? IP_ADDR_BROADCAST) || (dst =? IP_ADDR_BROADCAST) then None
    else
      let b := byte_at data in
      let hdr_src := load16 be (b 0%nat) (b 1%nat) in
      let hdr_dst := load16 be (b 2%nat) (b 3%nat) in
      let hdr_seq := load32 be (b 4%nat) (b 5%nat) (b 6%nat) (b 7%nat) in
      let hdr_ack := load32 be (b 8%nat) (b 9%nat) (b 10%nat) (b 11%nat) in
      let hdr_off := b 12%nat in
      let hdr_flg := b 13%nat in
      let hdr_wnd := load16 be (b 14%nat) (b 15%nat) in
      let hdr_up := load16 be (b 18%nat) (b 19%nat) in
      let hlen := wrap16 (Z.shiftl (Z.shiftr hdr_off 4) 2) in
      let seg_len := wrap16 (len - hlen) in
      let seg_len := if TCP_FLG_ISSET hdr_flg TCP_FLG_SYN
                     then wrap16 (seg_len + 1) else seg_len in
      let seg_len := if TCP_FLG_ISSET hdr_flg TCP_FLG_FIN
                     then wrap16 (seg_len + 1) else seg_len in
      Some (mk_arrival
              (mk_seg (ntoh32 be hdr_seq) (ntoh32 be hdr_ack) seg_len
                      (ntoh16 be hdr_wnd) (ntoh16 be hdr_up))
              hdr_flg hlen (drop (Z.to_nat hlen) data)
              (wrap_size (len - hlen))
              (mk_endpoint dst hdr_dst) (mk_endpoint src hdr_src)).

Definition tcp_input (be : bool) (rnd : Z) (data : list Z) (src dst : Z)
    (pcbs : list tcp_pcb) : option (list tcp_pcb * list event) :=
  match tcp_input_args be data src dst with
  | None => Some (pcbs, [])
  | Some a =>
    tcp_segment_arrives rnd (a_seg a) (a_flags a) (a_data a) (a_len a)
                        (a_local a) (a_foreign a) pcbs
  end.

(** [event_handler] (lines 636-650): an interrupt is posted to every PCB
    that is not FREE; the table is left as it is. *)
Fixpoint event_handler_from (i : nat) (ps : list tcp_pcb) : list event :=
  match ps with
  | [] => []
  | pcb :: rest =>
    if negb (pcb_state_eqb (state pcb) TCP_PCB_STATE_FREE)
    then Interrupt i :: event_handler_from (S i) rest
    else event_handler_from (S i) rest
  end.

Definition event_handler (pcbs : list tcp_pcb) : list tcp_pcb * list event :=
  (pcbs, event_handler_from 0 pcbs).

(** ** IP addresses as text (ip.c, lines 33-69) *)

Definition char_code (c : ascii) : Z := Z.of_N (N_of_ascii c).

(** The character a [char * ] points at: the terminating NUL at the end. *)
Definition peek (s : string) : Z :=
  match s with
  | String c _ => char_code c
  | EmptyString => 0
  end.

Definition advance (s : string) : string :=
  match s with
  | String _ r => r
  | EmptyString => EmptyString
  end.

Definition isdigit (c : Z) : bool := (48 <=? c) && (c <=? 57).
Definition isspace (c : Z) : bool := (c =? 32) || ((9 <=? c) && (c <=? 13)).

(** [strtol(nptr, &endptr, 10)] of the C library: leading white space, an
    optional sign, then decimal digits; the value is clamped to the range
    of [long]; with no digits the result is 0 and [endptr = nptr]. *)
Definition LONG_MAX : Z := 2 ^ 63 - 1.
Definition LONG_MIN : Z := - 2 ^ 63.

Definition clamp_long (v : Z) : Z := Z.max LONG_MIN (Z.min LONG_MAX v).

Fixpoint skip_space (s : string) : string :=
  match s with
  | String c r => if isspace (char_code c) then skip_space r else s
  | EmptyString => s
  end.

Fixpoint strtol_digits (acc : Z) (s : string) : Z * string :=
  match s with
  | String c r =>
    if isdigit (char_code c)
    then strtol_digits (acc * 10 + (char_code c - 48)) r
    else (acc, s)
  | EmptyString => (acc, s)
  end.

Definition strtol (nptr : string) : Z * string :=
  let t := skip_space nptr in
  let '(neg, u) :=
    if peek t =? 45 then (true, advance t)
    else if peek t =? 43 then (false, advance t)
    else (false, t) in
  if isdigit (peek u) then
    let '(v, endptr) := strtol_digits 0 u in
    (clamp_long (if neg then - v else v), endptr)
  else (0, nptr).

(** The loop of [ip_addr_pton] from index [idx] on, with [k] rounds left;
    [n] is the object representation of [*n], byte by byte. *)
Fixpoint ip_addr_pton_from (k : nat) (idx : Z) (sp : string) (n : list Z)
    : Z * list Z :=
  match k with
  | O => (0, n)
  | S k =>
    let '(ret, ep) := strtol sp in
    if (ret <? 0) || (ret >? 255) then (-1, n)
    else if String.eqb ep sp then (-1, n)
    else if ((idx =? 3) && negb (peek ep =? 0))
            || (negb (idx =? 3) && negb (peek ep =? 46)) then (-1, n)
    else ip_addr_pton_from k (idx + 1) (advance ep)
                           (<[Z.to_nat idx := wrap8 ret]> n)
  end.

(** [ip_addr_pton(p, &n)]: the return value and the contents of [n]
    afterwards, [n0] being its contents before. *)
Definition ip_addr_pton (be : bool) (p : string) (n0 : Z) : Z * Z :=
  let '(ret, bytes) := ip_addr_pton_from 4 0 p (bytes_of_u32 be n0) in
  (ret, u32_of_bytes be bytes).




Fixpoint string_take (k : nat) (s : string) : string :=
  match k, s with
  | S k, String c r => String c (string_take k r)
  | _, _ => EmptyString
  end.



(** ** IP interfaces and ingress (ip.c, lines 101-226) *)

Record ip_iface := mk_iface {
  unicast : Z;
  netmask : Z;
  broadcast : Z
}.

(** [ip_iface_alloc].  The return values of the two conversions are not
    looked at; the fresh memory is taken to be zero, which only matters
    when a conversion fails half-way. *)
Definition ip_iface_alloc (be : bool) (unicast_ netmask_ : string) : ip_iface :=
  let u := (ip_addr_pton be unicast_ 0).2 in
  let m := (ip_addr_pton be netmask_ 0).2 in
  mk_iface u m (Z.lor (Z.land u m) (wrap32 (Z.lnot m))).

(** Modelled from the spec: ip.h is not in src/.  The minimum IPv4 header
    is 20 bytes and the version number is 4. *)
Definition IP_HDR_SIZE_MIN : Z := 20.
Definition IP_VERSION_IPV4 : Z := 4.

Inductive ip_verdict :=
| IpTooShort        (* "too short" *)
| IpNotIPv4         (* "not IPv4" *)
| IpShortHeader     (* shorter than the designated header length *)
| IpShortTotal      (* shorter than the designated total length *)
| IpBadChecksum
| IpFragment
| IpNoIface
| IpNotForUs        (* destination matches none of the accepted addresses *)
| IpAccepted.       (* reaches the end of ip_input *)

(** The header length as [ip_input] computes it (line 181): [*] binds
    tighter than [&], so the mask is [0x0f * 4]. *)
Definition ip_input_hlen (be : bool) (vhl : Z) : Z :=
  Z.land (ntoh16 be vhl) (0x0f * 4).

(** The header length as [ip_dump] computes it (lines 82-83). *)
Definition ip_dump_hlen (vhl : Z) : Z :=
  wrap8 (Z.shiftl (Z.land vhl 0x0f) 2).

(** The destination test of [ip_input] (lines 215-222). *)
Definition ip_input_dst_ok (iface : ip_iface) (dst : Z) : bool :=
  negb (negb (unicast iface =? dst)
        && negb (dst =? 0xffffffff)
        && negb (dst =? Z.lor (unicast iface) 0xff000000)).

(** [ip_input]; [iface] is what [net_device_get_iface] finds on the
    receiving device. *)
Definition ip_input (be : bool) (data : list Z) (iface : option ip_iface)
    : ip_verdict :=
  let len := Z.of_nat (length data) in
  let b := byte_at data in
  if len <? IP_HDR_SIZE_MIN then IpTooShort
  else if negb (Z.shiftr (b 0%nat) 4 =? IP_VERSION_IPV4) then IpNotIPv4
  else
    let hlen := ip_input_hlen be (b 0%nat) in
    let total := ntoh16 be (load16 be (b 2%nat) (b 3%nat)) in
    if len <? hlen then IpShortHeader
    else if len <? total then IpShortTotal
    else if negb (cksum16 be data len 0 =? 0) then IpBadChecksum
    else
      let offset := ntoh16 be (load16 be (b 6%nat) (b 7%nat)) in
      if negb (Z.land offset 0x2000 =? 0) || negb (Z.land offset 0x1fff =? 0)
      then IpFragment
      else match iface with
           | None => IpNoIface
           | Some iface =>
             let dst := load32 be (b 16%nat) (b 17%nat) (b 18%nat) (b 19%nat) in
             if ip_input_dst_ok iface dst then IpAccepted else IpNotForUs
           end.

(** ** Sequence-space order

    The order the specification asks for: comparison of 32-bit sequence
    numbers modulo 2^32, by the sign of the wrapped difference.  Two
    values exactly 2^31 apart are not ordered. *)

Definition seq_lt (a b : Z) : bool :=
  let d := wrap32 (b - a) in (0 <? d) && (d <? 2 ^ 31).
Definition seq_le (a b : Z) : bool := wrap32 (b - a) <? 2 ^ 31.
Definition seq_gt (a b : Z) : bool := seq_lt b a.
Definition seq_ge (a b : Z) : bool := seq_le b a.

(** The tests of segment arrival, read in sequence-space order. *)
Definition in_rcv_window_modular (pcb : tcp_pcb) (x : Z) : bool :=
  seq_le (rcv_nxt pcb) x && seq_lt x (wrap32 (rcv_nxt pcb + rcv_wnd pcb)).

Definition seq_acceptable_modular (pcb : tcp_pcb) (seg : tcp_segment_info)
    : bool :=
  if seg_len seg =? 0 then
    if rcv_wnd pcb =? 0 then seg_seq seg =? rcv_nxt pcb
    else in_rcv_window_modular pcb (seg_seq seg)
  else
    if rcv_wnd pcb =? 0 then false
    else in_rcv_window_modular pcb (seg_seq seg)
         || in_rcv_window_modular pcb (seg_last seg).

Definition ack_valid_syn_received_modular (pcb : tcp_pcb)
    (seg : tcp_segment_info) : bool :=
  seq_le (snd_una pcb) (seg_ack seg) && seq_le (seg_ack seg) (snd_nxt pcb).

Definition ack_is_new_modular (pcb : tcp_pcb) (seg : tcp_segment_info) : bool :=
  seq_lt (snd_una pcb) (seg_ack seg) && seq_le (seg_ack seg) (snd_nxt pcb).

Definition ack_is_duplicate_modular (pcb : tcp_pcb) (seg : tcp_segment_info)
    : bool :=
  seq_lt (seg_ack seg) (snd_una pcb).

Definition ack_is_unsent_modular (pcb : tcp_pcb) (seg : tcp_segment_info)
    : bool :=
  seq_gt (seg_ack seg) (snd_nxt pcb).

Definition window_update_due_modular (pcb : tcp_pcb) (seg : tcp_segment_info)
    : bool :=
  seq_lt (snd_wl1 pcb) (seg_seq seg)
  || ((snd_wl1 pcb =? seg_seq seg) && seq_le (snd_wl2 pcb) (seg_ack seg)).

(** The 32-bit fields of a PCB and of a segment hold 32-bit values. *)
Definition pcb_fields_u32 (pcb : tcp_pcb) : Prop :=
  is_u32 (snd_nxt pcb) /\ is_u32 (snd_una pcb) /\ is_u32 (snd_wl1 pcb)
  /\ is_u32 (snd_wl2 pcb) /\ is_u32 (rcv_nxt pcb) /\ is_u16 (rcv_wnd pcb).

Definition seg_fields_u32 (seg : tcp_segment_info) : Prop :=
  is_u32 (seg_seq seg) /\ is_u32 (seg_ack seg) /\ is_u16 (seg_len seg).

(** ** Dotted quads

    The canonical text of an address: four decimal octets in [0, 255]
    without leading zeros, separated by single dots, and nothing else. *)








(** ** Executions

    The TCP mutex makes every stretch of code between two sleeps atomic.
    A step of an execution is one such stretch: the locked prefix of a
    passive open, the processing of one arriving segment, a [tcp_receive]
    that finds data (or goes to sleep), one round of [tcp_send], a close,
    or the abandon of a PCB by a failing user command.  Arguments of
    unsigned type are non-negative.  A segment whose text copy would run
    out of bounds has no step. *)
Inductive step : list tcp_pcb -> list tcp_pcb -> Prop :=
| step_open loc fgn pcbs i pcbs' :
    tcp_open_listen loc fgn pcbs = Some (i, pcbs') ->
    step pcbs pcbs'
| step_arrive rnd seg flags data len loc fgn pcbs pcbs' evs :
    0 <= len ->
    tcp_segment_arrives rnd seg flags data len loc fgn pcbs
    = Some (pcbs', evs) ->
    step pcbs pcbs'
| step_receive id size pcbs r pcbs' :
    0 <= size ->
    tcp_receive id size [] pcbs = (r, pcbs') ->
    step pcbs pcbs'
| step_send i mss_ data pcbs n pcbs' evs :
    tcp_send_round i mss_ data pcbs = Some (n, pcbs', evs) ->
    step pcbs pcbs'
| step_close busy id pcbs r pcbs' evs :
    tcp_close busy id pcbs = (r, pcbs', evs) ->
    step pcbs pcbs'
| step_abort busy i pcbs pcbs' evs :
    tcp_abort busy i pcbs = (pcbs', evs) ->
    step pcbs pcbs'.

Inductive reachable : list tcp_pcb -> Prop :=
| reachable_init : reachable pcbs_init
| reachable_step pcbs pcbs' :
    reachable pcbs -> step pcbs pcbs' -> reachable pcbs'.

(** What holds of the receive window of a PCB, state by state. *)
Definition pcb_inv (pcb : tcp_pcb) : Prop :=
  match state pcb with
  | TCP_PCB_STATE_FREE | TCP_PCB_STATE_LISTEN =>
    rcv_wnd pcb = 0 /\ unread pcb = 0
  | TCP_PCB_STATE_SYN_RECEIVED | TCP_PCB_STATE_ESTABLISHED =>
    rcv_wnd pcb + unread pcb = BUF_SIZE /\ 0 <= unread pcb /\ 0 <= rcv_wnd pcb
  | _ => True
  end.

(** ** Scenario data

    One interface 10.0.0.2/24 on a little-endian host, a peer at
    10.0.0.5:40000, a listener on port 7. *)

Definition host_addr : Z := u32_of_bytes false [10; 0; 0; 2].
Definition peer_addr : Z := u32_of_bytes false [10; 0; 0; 5].
Definition listen_endpoint : ip_endpoint := mk_endpoint IP_ADDR_ANY (hton16 false 7).
Definition host_endpoint : ip_endpoint := mk_endpoint host_addr (hton16 false 7).
Definition peer_endpoint : ip_endpoint := mk_endpoint peer_addr (hton16 false 40000).

(** The table after a passive open on port 7. *)
Definition listen_table : list tcp_pcb :=
  match tcp_open_listen listen_endpoint None pcbs_init with
  | Some (_, pcbs) => pcbs
  | None => pcbs_init
  end.

(** The table after the handshake SYN seq=1000 / ACK seq=1001, with
    iss = 5555. *)
Definition after (r : option (list tcp_pcb * list event)) : list tcp_pcb :=
  match r with
  | Some (pcbs, _) => pcbs
  | None => []
  end.

Definition events_of (r : option (list tcp_pcb * list event)) : list event :=
  match r with
  | Some (_, evs) => evs
  | None => []
  end.

Definition syn_received_table : list tcp_pcb :=
  after (tcp_segment_arrives 5555 (mk_seg 1000 0 1 4096 0) TCP_FLG_SYN [] 0
           host_endpoint peer_endpoint listen_table).

Definition established_table : list tcp_pcb :=
  after (tcp_segment_arrives 0 (mk_seg 1001 5556 0 4096 0) TCP_FLG_ACK [] 0
           host_endpoint peer_endpoint syn_received_table).

Definition listen_pcb : tcp_pcb :=
  set_state TCP_PCB_STATE_LISTEN
    (set_local listen_endpoint (set_state TCP_PCB_STATE_CLOSED pcb_zero)).

Definition established_pcb : tcp_pcb :=
  {| state := TCP_PCB_STATE_ESTABLISHED;
     local := host_endpoint;
     foreign := peer_endpoint;
     snd_nxt := 5556; snd_una := 5556; snd_wnd := 4096; snd_up := 0;
     snd_wl1 := 1001; snd_wl2 := 5556;
     iss := 5555;
     rcv_nxt := 1001; rcv_wnd := 65535; rcv_up := 0;
     irs := 1000;
     mtu := 0; mss := 0;
     buf := buf pcb_zero;
     unread := 0 |}.

(** A peer whose initial sequence number is 2^32 - 2: the table after its
    SYN, and the PCB it leaves in slot 0. *)
Definition wrap_table : list tcp_pcb :=
  after (tcp_segment_arrives 5555 (mk_seg 4294967294 0 1 4096 0) TCP_FLG_SYN
           [] 0 host_endpoint peer_endpoint listen_table).

Definition wrap_pcb : tcp_pcb :=
  {| state := TCP_PCB_STATE_SYN_RECEIVED;
     local := host_endpoint;
     foreign := peer_endpoint;
     snd_nxt := 5556; snd_una := 5555; snd_wnd := 0; snd_up := 0;
     snd_wl1 := 0; snd_wl2 := 0;
     iss := 5555;
     rcv_nxt := 4294967295; rcv_wnd := 65535; rcv_up := 0;
     irs := 4294967294;
     mtu := 0; mss := 0;
     buf := buf pcb_zero;
     unread := 0 |}.

(** The table after the five payload bytes "hello" arrived on the
    established connection. *)
Definition hello : list Z := [104; 101; 108; 108; 111].

Definition hello_table : list tcp_pcb :=
  after (tcp_segment_arrives 0 (mk_seg 1001 5556 5 4096 0)
           (Z.lor TCP_FLG_PSH TCP_FLG_ACK) hello 5
           host_endpoint peer_endpoint established_table).

Definition hello_pcb : tcp_pcb := default pcb_zero (hello_table !! 0%nat).

(** The table right after [tcp_pcb_alloc] on the initial table. *)
Definition alloc_table : list tcp_pcb :=
  match tcp_pcb_alloc pcbs_init with
  | Some (_, pcbs) => pcbs
  | None => pcbs_init
  end.

Definition closed_pcb : tcp_pcb := set_state TCP_PCB_STATE_CLOSED pcb_zero.

(** A 20-byte IPv4 datagram from 10.0.0.5 to 10.0.0.2 whose header-length
    nibble is 15, that is, which declares a 60-byte header. *)
Definition datagram_hl15 : list Z :=
  [0x4f; 0; 0; 20;  0; 0; 0; 0;  64; 6; 0x5c; 0xde;
   10; 0; 0; 5;  10; 0; 0; 2].

(** The interface 10.0.0.2 with netmask 255.255.0.0, and two well-formed
    20-byte datagrams from 10.0.0.5: one to the directed broadcast
    address 10.0.255.255 of that interface, one to 10.0.0.255. *)
Definition iface_slash16 (be : bool) : ip_iface :=
  ip_iface_alloc be "10.0.0.2" "255.255.0.0".

Definition iface_slash24 (be : bool) : ip_iface :=
  ip_iface_alloc be "10.0.0.2" "255.255.255.0".

Definition datagram_to_10_0_255_255 : list Z :=
  [0x45; 0; 0; 20;  0; 0; 0; 0;  64; 6; 0x66; 0xe0;
   10; 0; 0; 5;  10; 0; 255; 255].

Definition datagram_to_10_0_0_255 : list Z :=
  [0x45; 0; 0; 20;  0; 0; 0; 0;  64; 6; 0x65; 0xe1;
   10; 0; 0; 5;  10; 0; 0; 255].

(** A 20-byte TCP segment from 10.0.0.5:40000 to 10.0.0.2:7, ACK seq=1001
    ack=5556 wnd=4096, with a correct checksum, whose data offset is 15:
    it declares a 60-byte header. *)
Definition segment_off15 : list Z :=
  [0x9c; 0x40; 0; 7;  0; 0; 0x03; 0xe9;  0; 0; 0x15; 0xb4;
   0xf0; 0x10; 0x10; 0;  0x35; 0xe9; 0; 0].

Definition established_table_on (be : bool) : list tcp_pcb :=
  [{| state := TCP_PCB_STATE_ESTABLISHED;
      local := mk_endpoint (u32_of_bytes be [10; 0; 0; 2]) (load16 be 0 7);
      foreign := mk_endpoint (u32_of_bytes be [10; 0; 0; 5])
                             (load16 be 0x9c 0x40);
      snd_nxt := 5556; snd_una := 5556; snd_wnd := 4096; snd_up := 0;
      snd_wl1 := 1001; snd_wl2 := 5556;
      iss := 5555;
      rcv_nxt := 1001; rcv_wnd := 65535; rcv_up := 0;
      irs := 1000;
      mtu := 0; mss := 0;
      buf := buf pcb_zero;
      unread := 0 |}].

(** ** The receive queue *)

(** The bytes of [buf] that are waiting to be read: the first
    [sizeof(buf) - rcv.wnd] of them. *)
Definition pending (pcb : tcp_pcb) : list Z :=
  buf pcb <$> seqZ 0 (BUF_SIZE - rcv_wnd pcb).

(** ** TCP egress on the wire (tcp.c, lines 237-284) *)

(** The bytes of a [uint16_t] object, in memory order. *)
Definition bytes_of_u16 (be : bool) (n : Z) : list Z :=
  let b0 := n mod 256 in
  let b1 := (n / 256) mod 256 in
  if be then [b1; b0] else [b0; b1].

(** The [struct tcp_hdr] that [tcp_output_segment] writes at the start of
    [buf], with [sum] in the checksum field (lines 250-258). *)
Definition tcp_hdr_bytes (be : bool) (seq ack flg wnd sum : Z)
    (loc fgn : ip_endpoint) : list Z :=
  bytes_of_u16 be (port loc) ++ bytes_of_u16 be (port fgn)
  ++ bytes_of_u32 be (hton32 be seq) ++ bytes_of_u32 be (hton32 be ack)
  ++ [wrap8 (Z.shiftl (Z.shiftr TCP_HDR_SIZE 2) 4); flg]
  ++ bytes_of_u16 be (hton16 be wnd)
  ++ bytes_of_u16 be sum
  ++ bytes_of_u16 be 0.

(** The bytes [tcp_output_segment] hands to [ip_output]: the first
    [total] bytes of [buf], the header with the checksum installed
    followed by the payload.  [payload_max] is [IP_PAYLOAD_SIZE_MAX], the
    size of [buf] (ip.h is not in src/); there is no result when the
    [memcpy] of the payload would run past the end of [buf] or of [data].
    [total] is a [uint16_t] and never exceeds [sizeof( *hdr) + len], so
    the zero bytes of [buf] behind the payload are never sent. *)
Definition tcp_output_segment_bytes (be : bool) (payload_max : Z)
    (seq ack flg wnd : Z) (data : list Z) (len : Z) (loc fgn : ip_endpoint)
    : option (list Z) :=
  if (TCP_HDR_SIZE + len <=? payload_max) && (len <=? Z.of_nat (length data))
  then
    let payload := take (Z.to_nat len) data in
    let total := wrap16 (len + TCP_HDR_SIZE) in
    let psum :=
      wrap16 (Z.lnot (cksum16 be (pseudo_hdr_bytes be (addr loc) (addr fgn)
                                                   total) 12 0)) in
    let sum :=
      cksum16 be (tcp_hdr_bytes be seq ack flg wnd 0 loc fgn ++ payload)
              total psum in
    Some (take (Z.to_nat total)
               (tcp_hdr_bytes be seq ack flg wnd sum loc fgn ++ payload))
  else None.

(** ** [tcp_open_rfc793], whole (tcp.c, lines 670-742) *)

Inductive open_result :=
| OpenOk (id : Z)      (* returns the id of the PCB *)
| OpenFail             (* returns -1 *)
| OpenInterrupted      (* returns -1 with errno = EINTR *)
| OpenAsleep.          (* no further sleep outcome: still blocked *)

(** The wait for the connection (lines 706-735), from a call of
    [sched_sleep] in the [while] loop on; [state0] is the local variable
    [state].  At the label AGAIN [state] is set to the state of the PCB, so
    that the loop condition holds and the first thing to happen is a
    sleep.  The slot [i] is a pointer into the static array and is always
    there. *)
Fixpoint tcp_open_wait (busy : bool) (i : nat) (state0 : pcb_state)
    (sleeps : list sleep) (pcbs : list tcp_pcb)
    : open_result * list tcp_pcb * list event :=
  match sleeps with
  | [] => (OpenAsleep, pcbs, [])
  | (SleepInterrupted, env) :: _ =>
    let '(pcbs, evs) := tcp_abort busy i (env pcbs) in
    (OpenInterrupted, pcbs, evs)
  | (SleepWoken, env) :: rest =>
    let pcbs := env pcbs in
    match pcbs !! i with
    | None => (OpenFail, pcbs, [])
    | Some pcb =>
      if pcb_state_eqb (state pcb) state0
      then tcp_open_wait busy i state0 rest pcbs
      else
        match state pcb with
        | TCP_PCB_STATE_ESTABLISHED => (OpenOk (Z.of_nat i), pcbs, [])
        | TCP_PCB_STATE_SYN_RECEIVED =>
          tcp_open_wait busy i TCP_PCB_STATE_SYN_RECEIVED rest pcbs
        | _ =>
          let '(pcbs, evs) := tcp_abort busy i pcbs in
          (OpenFail, pcbs, evs)
        end
    end
  end.

(** [tcp_open_rfc793(local, foreign, active)]; [fgn = None] stands for a
    null [foreign]. *)
Definition tcp_open_rfc793 (busy : bool) (loc : ip_endpoint)
    (fgn : option ip_endpoint) (active : bool) (sleeps : list sleep)
    (pcbs : list tcp_pcb) : open_result * list tcp_pcb * list event :=
  if active then
    match tcp_pcb_alloc pcbs with
    | None => (OpenFail, pcbs, [])
    | Some (i, pcbs) =>
      let '(pcbs, evs) := tcp_pcb_release busy i pcbs in
      (OpenFail, pcbs, evs)
    end
  else
    match tcp_open_listen loc fgn pcbs with
    | None => (OpenFail, pcbs, [])
    | Some (i, pcbs) => tcp_open_wait busy i TCP_PCB_STATE_LISTEN sleeps pcbs
    end.

(** Tables that differ by the arrival of any number of segments, each of
    them one whose text, if it has any, is copied inside the receive
    buffer: [tcp_segment_arrives] returns.  A text longer than rcv.wnd
    of the PCB it is for makes the C code write beyond [buf]; such an
    arrival is not among these. *)
Inductive arrivals : list tcp_pcb -> list tcp_pcb -> Prop :=
| arrivals_none pcbs : arrivals pcbs pcbs
| arrivals_more rnd seg flags data len loc fgn pcbs pcbs' evs pcbs'' :
    tcp_segment_arrives rnd seg flags data len loc fgn pcbs
    = Some (pcbs', evs) ->
    arrivals pcbs' pcbs'' ->
    arrivals pcbs pcbs''.

(** ** [tcp_send], whole (tcp.c, lines 762-834) *)

Inductive send_result :=
| SendOk (sent : Z)     (* returns sent *)
| SendFail              (* returns -1 *)
| SendInterrupted       (* returns -1 with errno = EINTR *)
| SendAsleep            (* no further sleep outcome: still blocked *)
| SendRunning.          (* still in the loop when the fuel is used up *)

(** The payload a logged event carries to [ip_output]. *)
Definition payload_of (e : event) : list Z :=
  match e with
  | Emit o => o_data o
  | _ => []
  end.

(** [tcp_send] after the PCB was found, for the PCB in slot [i], with
    [sent] bytes handed over so far.  [mss_] tells where the control is:
    [None] at the label RETRY, [Some mss] at the test of the [while] loop
    with the local variable [mss] set.  Each turn takes one unit of
    [fuel].

    What [tcp_send] calls outside src/ comes in as parameters: [route a]
    is the [mtu] of the device behind the interface [ip_route_get_iface(a)]
    returns, [None] when it returns NULL; [txs] are the outcomes of the
    calls of [ip_output] in order, [false] for -1, and those behind the
    end of the list succeed; [busy] is the answer of [sched_ctx_destroy].
    [len] is taken to fit [ssize_t]. *)
Fixpoint tcp_send_from (fuel : nat) (busy : bool) (i : nat)
    (route : Z -> option Z) (data : list Z) (len : Z) (mss_ : option Z)
    (sent : Z) (sleeps : list sleep) (txs : list bool) (pcbs : list tcp_pcb)
    : send_result * list tcp_pcb * list event :=
  match fuel with
  | O => (SendRunning, pcbs, [])
  | S fuel =>
    match pcbs !! i with
    | None => (SendFail, pcbs, [])
    | Some pcb =>
      match mss_ with
      | None =>
        match state pcb with
        | TCP_PCB_STATE_ESTABLISHED =>
          match route (addr (foreign pcb)) with
          | None => (SendFail, pcbs, [])
          | Some mtu =>
            let mss := wrap_size (mtu - (IP_HDR_SIZE_MIN + TCP_HDR_SIZE)) in
            tcp_send_from fuel busy i route data len (Some mss) sent sleeps
                          txs pcbs
          end
        | _ => (SendFail, pcbs, [])
        end
      | Some mss =>
        if sent <? len then
          let cap :=
            wrap32 (snd_wnd pcb - wrap32 (snd_nxt pcb - snd_una pcb)) in
          if cap =? 0 then
            match sleeps with
            | [] => (SendAsleep, pcbs, [])
            | (SleepInterrupted, env) :: _ =>
              if sent =? 0 then (SendInterrupted, env pcbs, [])
              else (SendOk sent, env pcbs, [])
            | (SleepWoken, env) :: rest =>
              tcp_send_from fuel busy i route data len None sent rest txs
                            (env pcbs)
            end
          else
            let slen := Z.min (Z.min mss (len - sent)) cap in
            let ev := tcp_output pcb (Z.lor TCP_FLG_ACK TCP_FLG_PSH)
                                 (drop (Z.to_nat sent) data) slen in
            match txs with
            | false :: _ =>
              let '(pcbs, evs) := tcp_abort busy i pcbs in
              (SendFail, pcbs, ev :: evs)
            | _ =>
              let pcbs :=
                <[i := set_snd_nxt (wrap32 (snd_nxt pcb + slen)) pcb]> pcbs in
              let '(r, pcbs, evs) :=
                tcp_send_from fuel busy i route data len (Some mss)
                              (sent + slen) sleeps (tail txs) pcbs in
              (r, pcbs, ev :: evs)
            end
        else (SendOk sent, pcbs, [])
      end
    end
  end.

(** [tcp_send(id, data, len)]. *)
Definition tcp_send (fuel : nat) (busy : bool) (route : Z -> option Z)
    (id : Z) (data : list Z) (len : Z) (sleeps : list sleep)
    (txs : list bool) (pcbs : list tcp_pcb)
    : send_result * list tcp_pcb * list event :=
  match tcp_pcb_get id pcbs with
  | None => (SendFail, pcbs, [])
  | Some (i, _) =>
    tcp_send_from fuel busy i route data len None 0 sleeps txs pcbs
  end.

(** A 20-byte datagram from 10.0.0.5 to 10.0.0.2 with a correct
    checksum. *)
Definition datagram_plain : list Z :=
  [0x45; 0; 0; 20;  0; 0; 0; 0;  64; 6; 0x66; 0xde;
   10; 0; 0; 5;  10; 0; 0; 2].

(** ** Flags as text (tcp.c, lines 102-116) *)

(** [tcp_flg_ntoa]: the contents of the static buffer [str], eight
    characters and the terminator. *)
Definition tcp_flg_ntoa (flg : Z) : string :=
  let c (bit : Z) (ch : ascii) : ascii :=
    if TCP_FLG_ISSET flg bit then ch else "-"%char in
  string_take 8
    (String "-" (String "-"
       (String (c TCP_FLG_URG "U"%char)
          (String (c TCP_FLG_ACK "A"%char)
             (String (c TCP_FLG_PSH "P"%char)
                (String (c TCP_FLG_RST "R"%char)
                   (String (c TCP_FLG_SYN "S"%char)
                      (String (c TCP_FLG_FIN "F"%char) EmptyString)))))))).

(** ** The interface list (ip.c, lines 31 and 121-158) *)

(** The list is intrusive: [ip_iface_register] links the object it is
    given through the object's own [next] field.  An interface object is
    named by its place in the store [cells]; a pointer is [Some] of such
    a place and NULL is [None].  [ifaces] is the head of the list. *)
Record iface_cell := mk_iface_cell {
  cell_iface : ip_iface;
  cell_next : option nat
}.

Record iface_store := mk_iface_store {
  cells : list iface_cell;
  ifaces : option nat
}.

(** [ip_iface_register].  [added] says whether [net_device_add_iface],
    which is not part of these files, took the interface.  The result is
    [None] when [p] is not an object of the store, where the C code
    writes through a wild pointer. *)
Definition ip_iface_register (added : bool) (p : nat) (m : iface_store)
    : option (Z * iface_store) :=
  if added then
    match cells m !! p with
    | Some c =>
      Some (0, {| cells := <[p := {| cell_iface := cell_iface c;
                                      cell_next := ifaces m |}]> (cells m);
                  ifaces := Some p |})
    | None => None
    end
  else Some (-1, m).

(** What a walk over the list comes to: a pointer or NULL returned, a
    walk that is still going on when the fuel is used up, or a step
    through a pointer that names no object. *)
Inductive select_result :=
| Selected (r : option nat)
| Unfinished
| Wild.

Fixpoint ip_iface_walk (fuel : nat) (a : Z) (cs : list iface_cell)
    (iface : option nat) : select_result :=
  match fuel with
  | O => Unfinished
  | S fuel =>
    match iface with
    | None => Selected None
    | Some p =>
      match cs !! p with
      | None => Wild
      | Some c =>
        if unicast (cell_iface c) =? a then Selected (Some p)
        else ip_iface_walk fuel a cs (cell_next c)
      end
    end
  end.

(** [ip_iface_select]: the loop of lines 149-155, one turn for each
    unit of fuel. *)
Definition ip_iface_select (fuel : nat) (a : Z) (m : iface_store)
    : select_result :=
  ip_iface_walk fuel a (cells m) (ifaces m).

(** The store after a series of calls of [ip_iface_register], each with
    the answer of [net_device_add_iface] and the object registered. *)
Fixpoint ifaces_after (regs : list (bool * nat)) (m : iface_store)
    : option iface_store :=
  match regs with
  | [] => Some m
  | r :: rest =>
    match ip_iface_register r.1 r.2 m with
    | Some (_, m') => ifaces_after rest m'
    | None => None
    end
  end.

(** The objects that a series of registrations links, in order. *)
Definition linked (regs : list (bool * nat)) : list nat :=
  omap (fun r : bool * nat => if r.1 then Some r.2 else None) regs.

(** The unicast address of the object at [p]. *)
Definition unicast_at (cs : list iface_cell) (p : nat) : option Z :=
  (fun c => unicast (cell_iface c)) <$> cs !! p.

(** The list read from [iface] on is the objects [l], in order, and
    ends there. *)
Fixpoint chain (cs : list iface_cell) (iface : option nat) (l : list nat)
    : Prop :=
  match l with
  | [] => iface = None
  | p :: l' =>
    iface = Some p
    /\ exists c, cs !! p = Some c /\ chain cs (cell_next c) l'
  end.

(** A store with three objects, none of them registered. *)
Definition three_cells (be : bool) : list iface_cell :=
  [mk_iface_cell (ip_iface_alloc be "10.0.0.2" "255.255.0.0") None;
   mk_iface_cell (ip_iface_alloc be "192.168.0.1" "255.255.255.0") None;
   mk_iface_cell (ip_iface_alloc be "10.0.0.2" "255.255.255.0") None].

(** ** Tactics *)


(** * Proofs *)

(** ** PCB selection *)

Lemma tcp_pcb_select_from_lookup i acc loc fgn ps j pcb :
  tcp_pcb_select_from i acc loc fgn ps = Some (j, pcb) ->
  acc = Some (j, pcb) \/ (i <= j)%nat /\ ps !! (j - i)%nat = Some pcb.
Proof.
  revert i acc. induction ps as [|p rest IH]; intros i acc H; simpl in H.
  - by left.
  - assert (Hrec : forall acc',
      tcp_pcb_select_from (S i) acc' loc fgn rest = Some (j, pcb) ->
      acc' = Some (j, pcb) \/ (i <= j)%nat /\ (p :: rest) !! (j - i)%nat = Some pcb).
    { intros acc' H'. destruct (IH _ _ H') as [->|[Hle Hl]]; [by left|right].
      split; [lia|]. replace (j - i)%nat with (S (j - S i)) by lia. done. }
    assert (Hhere : (i <= i)%nat /\ (p :: rest) !! (i - i)%nat = Some p).
    { split; [lia|]. by rewrite Nat.sub_diag. }
    destruct (local_matches p loc).
    + destruct fgn as [f|].
      * destruct (foreign_matches p f).
        { inversion H; subst. by right. }
        destruct (is_wildcard_listen p).
        { destruct (Hrec _ H) as [Heq|?]; [|by right].
          inversion Heq; subst. by right. }
        destruct (Hrec _ H); auto.
      * inversion H; subst. by right.
    + destruct (Hrec _ H); auto.
Qed.

Lemma tcp_pcb_select_lookup loc fgn pcbs j pcb :
  tcp_pcb_select loc fgn pcbs = Some (j, pcb) -> pcbs !! j = Some pcb.
Proof.
  intros H. apply tcp_pcb_select_from_lookup in H as [H|[_ H]]; [done|].
  by rewrite Nat.sub_0_r in H.
Qed.

Lemma tcp_pcb_select_insert_id loc fgn pcbs j pcb :
  tcp_pcb_select loc fgn pcbs = Some (j, pcb) -> <[j := pcb]> pcbs = pcbs.
Proof. intros H. apply list_insert_id. by eapply tcp_pcb_select_lookup. Qed.

(** ** Segment arrival *)

(** C4.  A segment for which selection finds no PCB, or a CLOSED one,
    changes no PCB; it is dropped in silence when it carries RST, answered
    by exactly one RST|ACK with seq = 0 and ack = seg.seq + seg.len when it
    carries no ACK, and by exactly one RST with seq = seg.ack otherwise. *)
Theorem arrives_no_pcb_or_closed rnd seg flags data len loc fgn pcbs :
  (tcp_pcb_select loc (Some fgn) pcbs = None
   \/ exists i pcb, tcp_pcb_select loc (Some fgn) pcbs = Some (i, pcb)
                    /\ state pcb = TCP_PCB_STATE_CLOSED) ->
  exists evs,
    tcp_segment_arrives rnd seg flags data len loc fgn pcbs = Some (pcbs, evs)
    /\ (TCP_FLG_ISSET flags TCP_FLG_RST = true -> evs = [])
    /\ (TCP_FLG_ISSET flags TCP_FLG_RST = false ->
        TCP_FLG_ISSET flags TCP_FLG_ACK = false ->
        evs = [Emit (mk_out 0 (wrap32 (seg_seq seg + seg_len seg))
                            (Z.lor TCP_FLG_RST TCP_FLG_ACK) 0 [] loc fgn)])
    /\ (TCP_FLG_ISSET flags TCP_FLG_RST = false ->
        TCP_FLG_ISSET flags TCP_FLG_ACK = true ->
        evs = [Emit (mk_out (seg_ack seg) 0 TCP_FLG_RST 0 [] loc fgn)]).
Proof.
  intros Hsel. exists (no_pcb_reply seg flags loc fgn). split.
  - unfold tcp_segment_arrives.
    destruct Hsel as [->|(i & pcb & -> & ->)]; reflexivity.
  - unfold no_pcb_reply, tcp_output_segment.
    destruct (TCP_FLG_ISSET flags TCP_FLG_RST),
             (TCP_FLG_ISSET flags TCP_FLG_ACK); simpl;
      repeat split; intros; congruence.
Qed.

(** Scenario: with an empty PCB table, SYN seq=9 is answered by RST|ACK
    seq=0 ack=10. *)
Lemma arrives_no_pcb_or_closed_witness :
  let loc := mk_endpoint 33554442 80 in
  let fgn := mk_endpoint 83886090 40000 in
  (tcp_pcb_select loc (Some fgn) [] = None
   \/ exists i pcb, tcp_pcb_select loc (Some fgn) [] = Some (i, pcb)
                    /\ state pcb = TCP_PCB_STATE_CLOSED)
  /\ exists evs,
    tcp_segment_arrives 0 (mk_seg 9 0 1 0 0) TCP_FLG_SYN [] 0 loc fgn []
    = Some ([], evs)
    /\ (TCP_FLG_ISSET TCP_FLG_SYN TCP_FLG_RST = true -> evs = [])
    /\ (TCP_FLG_ISSET TCP_FLG_SYN TCP_FLG_RST = false ->
        TCP_FLG_ISSET TCP_FLG_SYN TCP_FLG_ACK = false ->
        evs = [Emit (mk_out 0 (wrap32 (9 + 1)) (Z.lor TCP_FLG_RST TCP_FLG_ACK)
                            0 [] loc fgn)])
    /\ (TCP_FLG_ISSET TCP_FLG_SYN TCP_FLG_RST = false ->
        TCP_FLG_ISSET TCP_FLG_SYN TCP_FLG_ACK = true ->
        evs = [Emit (mk_out 0 0 TCP_FLG_RST 0 [] loc fgn)]).
Proof.
  intros loc fgn.
  assert (H : tcp_pcb_select loc (Some fgn) [] = None
   \/ exists i pcb, tcp_pcb_select loc (Some fgn) [] = Some (i, pcb)
                    /\ state pcb = TCP_PCB_STATE_CLOSED) by (left; reflexivity).
  split; [exact H|].
  exact (arrives_no_pcb_or_closed 0 (mk_seg 9 0 1 0 0) TCP_FLG_SYN [] 0
           loc fgn [] H).
Defined.

(** C1.  A segment arriving at a PCB in LISTEN: RST is dropped and ACK is
    answered by a RST with seq = seg.ack, the PCB staying as it is; SYN
    fixes the two endpoints, sets rcv.wnd = 65535, rcv.nxt = seg.seq + 1,
    irs = seg.seq and iss to the random draw, emits one SYN|ACK with
    seq = iss and ack = seg.seq + 1, then sets snd.nxt = iss + 1,
    snd.una = iss and the state SYN_RECEIVED; anything else is dropped. *)
Theorem arrives_listen_cases rnd seg flags data len loc fgn pcbs i pcb :
  tcp_pcb_select loc (Some fgn) pcbs = Some (i, pcb) ->
  state pcb = TCP_PCB_STATE_LISTEN ->
  let result := tcp_segment_arrives rnd seg flags data len loc fgn pcbs in
  let iss_ := wrap32 rnd in
  (TCP_FLG_ISSET flags TCP_FLG_RST = true -> result = Some (pcbs, []))
  /\ (TCP_FLG_ISSET flags TCP_FLG_RST = false ->
      TCP_FLG_ISSET flags TCP_FLG_ACK = true ->
      result = Some (pcbs, [Emit (mk_out (seg_ack seg) 0 TCP_FLG_RST 0 []
                                         loc fgn)]))
  /\ (TCP_FLG_ISSET flags TCP_FLG_RST = false ->
      TCP_FLG_ISSET flags TCP_FLG_ACK = false ->
      TCP_FLG_ISSET flags TCP_FLG_SYN = true ->
      result =
      Some (<[i := {| state := TCP_PCB_STATE_SYN_RECEIVED;
                      local := loc;
                      foreign := fgn;
                      snd_nxt := wrap32 (iss_ + 1);
                      snd_una := iss_;
                      snd_wnd := snd_wnd pcb;
                      snd_up := snd_up pcb;
                      snd_wl1 := snd_wl1 pcb;
                      snd_wl2 := snd_wl2 pcb;
                      iss := iss_;
                      rcv_nxt := wrap32 (seg_seq seg + 1);
                      rcv_wnd := 65535;
                      rcv_up := rcv_up pcb;
                      irs := seg_seq seg;
                      mtu := mtu pcb;
                      mss := mss pcb;
                      buf := buf pcb;
                      unread := unread pcb |}]> pcbs,
            [Emit {| o_seq := iss_;
                     o_ack := wrap32 (seg_seq seg + 1);
                     o_flg := Z.lor TCP_FLG_SYN TCP_FLG_ACK;
                     o_wnd := 65535;
                     o_data := [];
                     o_local := loc;
                     o_foreign := fgn |}]))
  /\ (TCP_FLG_ISSET flags TCP_FLG_RST = false ->
      TCP_FLG_ISSET flags TCP_FLG_ACK = false ->
      TCP_FLG_ISSET flags TCP_FLG_SYN = false ->
      result = Some (pcbs, [])).
Proof.
  intros Hsel Hst result iss_. subst result iss_.
  unfold tcp_segment_arrives, arrives_listen. rewrite Hsel, Hst.
  pose proof (tcp_pcb_select_insert_id _ _ _ _ _ Hsel) as Hid.
  destruct (TCP_FLG_ISSET flags TCP_FLG_RST),
           (TCP_FLG_ISSET flags TCP_FLG_ACK),
           (TCP_FLG_ISSET flags TCP_FLG_SYN);
    repeat split; intros; try congruence; rewrite ?Hid; reflexivity.
Qed.

(** The sequence-number check, case by case. *)
Lemma wrap32_sub_1 (a : Z) : wrap32 (wrap32 a - 1) = wrap32 (a - 1).
Proof. unfold wrap32. by rewrite Zminus_mod_idemp_l. Qed.

Lemma in_rcv_window_true pcb x :
  in_rcv_window pcb x = true <->
  rcv_nxt pcb <= x < wrap32 (rcv_nxt pcb + rcv_wnd pcb).
Proof. unfold in_rcv_window. rewrite andb_true_iff, Z.leb_le, Z.ltb_lt. tauto. Qed.

Lemma seq_acceptable_true pcb seg :
  0 <= seg_len seg -> 0 <= rcv_wnd pcb ->
  seq_acceptable pcb seg = true <->
  (seg_len seg = 0 /\ rcv_wnd pcb = 0 /\ seg_seq seg = rcv_nxt pcb)
  \/ (seg_len seg = 0 /\ 0 < rcv_wnd pcb
      /\ rcv_nxt pcb <= seg_seq seg < wrap32 (rcv_nxt pcb + rcv_wnd pcb))
  \/ (0 < seg_len seg /\ 0 < rcv_wnd pcb
      /\ (rcv_nxt pcb <= seg_seq seg < wrap32 (rcv_nxt pcb + rcv_wnd pcb)
          \/ rcv_nxt pcb <= wrap32 (seg_seq seg + seg_len seg - 1)
              < wrap32 (rcv_nxt pcb + rcv_wnd pcb))).
Proof.
  intros Hl Hw. unfold seq_acceptable, seg_last. rewrite wrap32_sub_1.
  destruct (Z.eqb_spec (seg_len seg) 0) as [El|El],
           (Z.eqb_spec (rcv_wnd pcb) 0) as [Ew|Ew];
    rewrite ?orb_true_iff, ?in_rcv_window_true, ?Z.eqb_eq; split;
    try (intros H; discriminate H); intros H; lia.
Qed.

(** C2, as the code has it.  In SYN_RECEIVED and ESTABLISHED the sequence check
    is the four-case test on seg.len and rcv.wnd, with the bounds as the
    code computes them: rcv.nxt + rcv.wnd and seg.seq + seg.len - 1 are
    32-bit sums and the comparisons are on the raw values.  When neither
    rcv.nxt + rcv.wnd nor seg.seq + seg.len goes beyond 2^32 these are the
    intervals [rcv.nxt, rcv.nxt + rcv.wnd) of the claim.  A segment the
    test turns down is answered, unless it has RST, by exactly one bare
    ACK carrying ack = rcv.nxt and window = rcv.wnd, and leaves the PCB
    table, receive buffers included, as it was. *)
Theorem seq_check_four_cases rnd seg flags data len loc fgn pcbs i pcb :
  tcp_pcb_select loc (Some fgn) pcbs = Some (i, pcb) ->
  state pcb = TCP_PCB_STATE_SYN_RECEIVED
  \/ state pcb = TCP_PCB_STATE_ESTABLISHED ->
  0 <= seg_len seg -> 0 <= rcv_wnd pcb ->
  let result := tcp_segment_arrives rnd seg flags data len loc fgn pcbs in
  let in_window x :=
    rcv_nxt pcb <= x < wrap32 (rcv_nxt pcb + rcv_wnd pcb) in
  let acceptable :=
    (seg_len seg = 0 /\ rcv_wnd pcb = 0 /\ seg_seq seg = rcv_nxt pcb)
    \/ (seg_len seg = 0 /\ 0 < rcv_wnd pcb /\ in_window (seg_seq seg))
    \/ (0 < seg_len seg /\ 0 < rcv_wnd pcb
        /\ (in_window (seg_seq seg)
            \/ in_window (wrap32 (seg_seq seg + seg_len seg - 1)))) in
  (seq_acceptable pcb seg = true <-> acceptable)
  /\ (~ acceptable -> TCP_FLG_ISSET flags TCP_FLG_RST = false ->
      result = Some (pcbs, [Emit {| o_seq := snd_nxt pcb;
                                    o_ack := rcv_nxt pcb;
                                    o_flg := TCP_FLG_ACK;
                                    o_wnd := rcv_wnd pcb;
                                    o_data := [];
                                    o_local := local pcb;
                                    o_foreign := foreign pcb |}]))
  /\ (~ acceptable -> TCP_FLG_ISSET flags TCP_FLG_RST = true ->
      result = Some (pcbs, []))
  /\ (acceptable -> TCP_FLG_ISSET flags TCP_FLG_ACK = false ->
      result = Some (pcbs, []))
  /\ (0 <= rcv_nxt pcb -> rcv_nxt pcb + rcv_wnd pcb < 2 ^ 32 ->
      0 <= seg_seq seg -> seg_seq seg + seg_len seg <= 2 ^ 32 ->
      let in_interval x := rcv_nxt pcb <= x < rcv_nxt pcb + rcv_wnd pcb in
      acceptable <->
      (seg_len seg = 0 /\ rcv_wnd pcb = 0 /\ seg_seq seg = rcv_nxt pcb)
      \/ (seg_len seg = 0 /\ 0 < rcv_wnd pcb /\ in_interval (seg_seq seg))
      \/ (0 < seg_len seg /\ 0 < rcv_wnd pcb
          /\ (in_interval (seg_seq seg)
              \/ in_interval (seg_seq seg + seg_len seg - 1)))).
Proof.
  intros Hsel Hst Hl Hw result in_window acceptable.
  assert (Hplain :
    0 <= rcv_nxt pcb -> rcv_nxt pcb + rcv_wnd pcb < 2 ^ 32 ->
    0 <= seg_seq seg -> seg_seq seg + seg_len seg <= 2 ^ 32 ->
    let in_interval x := rcv_nxt pcb <= x < rcv_nxt pcb + rcv_wnd pcb in
    acceptable <->
    (seg_len seg = 0 /\ rcv_wnd pcb = 0 /\ seg_seq seg = rcv_nxt pcb)
    \/ (seg_len seg = 0 /\ 0 < rcv_wnd pcb /\ in_interval (seg_seq seg))
    \/ (0 < seg_len seg /\ 0 < rcv_wnd pcb
        /\ (in_interval (seg_seq seg)
            \/ in_interval (seg_seq seg + seg_len seg - 1)))).
  { intros Hn Hsum Hs Hlast in_interval.
    subst acceptable in_window in_interval. cbv beta.
    assert (Hw32 : wrap32 (rcv_nxt pcb + rcv_wnd pcb)
                   = rcv_nxt pcb + rcv_wnd pcb)
      by (apply Z.mod_small; lia).
    rewrite Hw32.
    destruct (Z.eq_dec (seg_len seg) 0) as [E|E]; [lia|].
    assert (Ht : wrap32 (seg_seq seg + seg_len seg - 1)
                 = seg_seq seg + seg_len seg - 1)
      by (apply Z.mod_small; lia).
    rewrite Ht. lia. }
  pose proof (seq_acceptable_true pcb seg Hl Hw) as Hacc.
  fold (in_window (seg_seq seg)) in Hacc.
  fold (in_window (wrap32 (seg_seq seg + seg_len seg - 1))) in Hacc.
  fold acceptable in Hacc.
  pose proof (tcp_pcb_select_insert_id _ _ _ _ _ Hsel) as Hid.
  assert (Hres : result =
    match arrives_otherwise i seg flags data len loc fgn pcb with
    | Some (pcb', evs) => Some (<[i := pcb']> pcbs, evs)
    | None => None
    end).
  { subst result. unfold tcp_segment_arrives. rewrite Hsel.
    by destruct Hst as [-> | ->]. }
  assert (Hchk : forall b, seq_acceptable pcb seg = b ->
    match state pcb with
    | TCP_PCB_STATE_SYN_RECEIVED | TCP_PCB_STATE_ESTABLISHED =>
      seq_acceptable pcb seg
    | _ => true
    end = b).
  { intros b <-. by destruct Hst as [-> | ->]. }
  split; [exact Hacc|].
  repeat split.
  - intros Hn Hrst. rewrite Hres. unfold arrives_otherwise.
    rewrite (Hchk false), Hrst; [|by destruct (seq_acceptable pcb seg); [tauto|]].
    simpl. by rewrite Hid.
  - intros Hn Hrst. rewrite Hres. unfold arrives_otherwise.
    rewrite (Hchk false), Hrst; [|by destruct (seq_acceptable pcb seg); [tauto|]].
    simpl. by rewrite Hid.
  - intros Ha Hack. rewrite Hres. unfold arrives_otherwise.
    rewrite (Hchk true), Hack; [|tauto].
    simpl. by rewrite Hid.
  - apply Hplain; assumption.
  - apply Hplain; assumption.
Qed.

Lemma listen_table_select :
  tcp_pcb_select host_endpoint (Some peer_endpoint) listen_table
  = Some (0%nat, listen_pcb).
Proof. vm_compute. reflexivity. Qed.

Lemma established_table_select :
  tcp_pcb_select host_endpoint (Some peer_endpoint) established_table
  = Some (0%nat, established_pcb).
Proof. vm_compute. reflexivity. Qed.

(** Scenario: the listener on port 7 receives SYN seq=1000 from
    10.0.0.5:40000 and answers SYN|ACK seq=iss ack=1001. *)
Lemma arrives_listen_cases_witness :
  (tcp_pcb_select host_endpoint (Some peer_endpoint) listen_table
   = Some (0%nat, listen_pcb)
   /\ state listen_pcb = TCP_PCB_STATE_LISTEN)
  /\ exists pcbs',
      tcp_segment_arrives 5555 (mk_seg 1000 0 1 4096 0) TCP_FLG_SYN [] 0
        host_endpoint peer_endpoint listen_table
      = Some (pcbs', [Emit {| o_seq := 5555; o_ack := 1001;
                              o_flg := Z.lor TCP_FLG_SYN TCP_FLG_ACK;
                              o_wnd := 65535; o_data := [];
                              o_local := host_endpoint;
                              o_foreign := peer_endpoint |}]).
Proof.
  split; [split; [exact listen_table_select | reflexivity]|].
  destruct (arrives_listen_cases 5555 (mk_seg 1000 0 1 4096 0) TCP_FLG_SYN
              [] 0 host_endpoint peer_endpoint listen_table 0%nat listen_pcb
              listen_table_select eq_refl) as (_ & _ & H & _).
  eexists. rewrite H by reflexivity. reflexivity.
Defined.

(** Scenario: in ESTABLISHED with rcv.nxt=1001 and rcv.wnd=65535, the
    segment ACK seq=500 of length 0 is answered by a bare ACK with
    ack=1001 and changes nothing. *)
Lemma seq_check_four_cases_witness :
  (tcp_pcb_select host_endpoint (Some peer_endpoint) established_table
   = Some (0%nat, established_pcb)
   /\ (state established_pcb = TCP_PCB_STATE_SYN_RECEIVED
       \/ state established_pcb = TCP_PCB_STATE_ESTABLISHED)
   /\ 0 <= seg_len (mk_seg 500 5556 0 4096 0)
   /\ 0 <= rcv_wnd established_pcb)
  /\ tcp_segment_arrives 0 (mk_seg 500 5556 0 4096 0) TCP_FLG_ACK [] 0
       host_endpoint peer_endpoint established_table
     = Some (established_table,
             [Emit {| o_seq := 5556; o_ack := 1001; o_flg := TCP_FLG_ACK;
                      o_wnd := 65535; o_data := [];
                      o_local := host_endpoint;
                      o_foreign := peer_endpoint |}]).
Proof.
  assert (H1 : state established_pcb = TCP_PCB_STATE_SYN_RECEIVED
               \/ state established_pcb = TCP_PCB_STATE_ESTABLISHED)
    by (right; reflexivity).
  assert (H2 : 0 <= seg_len (mk_seg 500 5556 0 4096 0)) by (simpl; lia).
  assert (H3 : 0 <= rcv_wnd established_pcb) by (simpl; lia).
  split; [split; [exact established_table_select | tauto]|].
  destruct (seq_check_four_cases 0 (mk_seg 500 5556 0 4096 0) TCP_FLG_ACK
              [] 0 host_endpoint peer_endpoint established_table 0%nat
              established_pcb established_table_select H1 H2 H3)
    as (_ & H & _).
  apply H; [|reflexivity].
  vm_compute. intros [(_ & Hw & _)|[(_ & _ & Hn & _)|(Hl & _)]];
    first [discriminate Hw | apply Hn; reflexivity | discriminate Hl].
Defined.

(** C2, counterexample.  With rcv.nxt = 2^32 - 1 and rcv.wnd = 65535 a
    segment of five bytes with seq = 2^32 - 1 has its head in
    [rcv.nxt, rcv.nxt + rcv.wnd), whether the interval is read on the
    integers or modulo 2^32, and is acceptable by the fourth case of the
    claim.  The code compares with the 32-bit sum 65534, finds neither
    the head nor the tail in the window, answers with a bare ACK and
    drops the text. *)
Lemma seq_check_rejects_head_in_window :
  let seg := mk_seg 4294967295 5556 5 4096 0 in
  tcp_pcb_select host_endpoint (Some peer_endpoint) wrap_table
  = Some (0%nat, wrap_pcb)
  /\ state wrap_pcb = TCP_PCB_STATE_SYN_RECEIVED
  /\ (0 < seg_len seg /\ 0 < rcv_wnd wrap_pcb
      /\ rcv_nxt wrap_pcb <= seg_seq seg
         < rcv_nxt wrap_pcb + rcv_wnd wrap_pcb)
  /\ seq_acceptable_modular wrap_pcb seg = true
  /\ seq_acceptable wrap_pcb seg = false
  /\ tcp_segment_arrives 0 seg (Z.lor TCP_FLG_PSH TCP_FLG_ACK) hello 5
       host_endpoint peer_endpoint wrap_table
     = Some (wrap_table,
             [Emit {| o_seq := 5556; o_ack := 4294967295;
                      o_flg := TCP_FLG_ACK; o_wnd := 65535; o_data := [];
                      o_local := host_endpoint;
                      o_foreign := peer_endpoint |}]).
Proof.
  intros seg. split; [vm_compute; reflexivity|].
  split; [reflexivity|].
  split; [simpl; lia|].
  split; [vm_compute; reflexivity|].
  split; vm_compute; reflexivity.
Qed.

(** ** Raw order and sequence-space order *)

Lemma wrap32_diff (a b : Z) :
  is_u32 a -> is_u32 b ->
  wrap32 (b - a) = if a <=? b then b - a else b - a + 2 ^ 32.
Proof.
  unfold is_u32, wrap32. intros Ha Hb.
  destruct (Z.leb_spec a b).
  - apply Z.mod_small. lia.
  - symmetry. apply (Z.mod_unique _ _ (-1)); lia.
Qed.

Lemma seq_le_true (a b : Z) :
  is_u32 a -> is_u32 b ->
  seq_le a b = true <->
  (a <= b /\ b - a < 2 ^ 31) \/ (b < a /\ 2 ^ 31 < a - b).
Proof.
  intros Ha Hb. unfold seq_le. rewrite (wrap32_diff a b Ha Hb), Z.ltb_lt.
  unfold is_u32 in *. destruct (Z.leb_spec a b); lia.
Qed.

Lemma seq_lt_true (a b : Z) :
  is_u32 a -> is_u32 b ->
  seq_lt a b = true <->
  (a < b /\ b - a < 2 ^ 31) \/ (b < a /\ 2 ^ 31 < a - b).
Proof.
  intros Ha Hb. unfold seq_lt.
  rewrite (wrap32_diff a b Ha Hb), andb_true_iff, !Z.ltb_lt.
  unfold is_u32 in *. destruct (Z.leb_spec a b); lia.
Qed.

Lemma wrap32_is_u32 (a : Z) : is_u32 (wrap32 a).
Proof. unfold is_u32, wrap32. apply Z.mod_pos_bound. lia. Qed.

Lemma in_rcv_window_agrees pcb x :
  is_u32 (rcv_nxt pcb) -> is_u16 (rcv_wnd pcb) -> is_u32 x ->
  rcv_nxt pcb + rcv_wnd pcb < 2 ^ 32 ->
  in_rcv_window pcb x = in_rcv_window_modular pcb x.
Proof.
  intros Hn Hw Hx Hnw. apply eq_true_iff_eq.
  unfold in_rcv_window_modular.
  assert (Hs : wrap32 (rcv_nxt pcb + rcv_wnd pcb) = rcv_nxt pcb + rcv_wnd pcb).
  { apply Z.mod_small. unfold is_u32, is_u16 in *. lia. }
  rewrite in_rcv_window_true, andb_true_iff, Hs.
  rewrite seq_le_true, seq_lt_true by
    (try assumption; unfold is_u32, is_u16 in *; lia).
  unfold is_u32, is_u16 in *. lia.
Qed.

(** C3, as the code has it.  The comparisons of segment arrival are raw
    unsigned comparisons of the 32-bit values, over 32-bit sums.  They
    give the answer of the sequence-space order whenever the values
    compared do not straddle the 2^32 wrap-around: a receive window that
    does not wrap, a send interval [snd.una, snd.nxt] that does not wrap,
    and otherwise two values less than 2^31 apart. *)
Theorem raw_comparisons_agree_without_wrap pcb seg :
  pcb_fields_u32 pcb -> seg_fields_u32 seg ->
  (rcv_nxt pcb + rcv_wnd pcb < 2 ^ 32 ->
   seq_acceptable pcb seg = seq_acceptable_modular pcb seg)
  /\ (snd_una pcb <= snd_nxt pcb < snd_una pcb + 2 ^ 31 ->
      ack_valid_syn_received pcb seg = ack_valid_syn_received_modular pcb seg
      /\ ack_is_new pcb seg = ack_is_new_modular pcb seg)
  /\ (Z.abs (seg_ack seg - snd_una pcb) < 2 ^ 31 ->
      ack_is_duplicate pcb seg = ack_is_duplicate_modular pcb seg)
  /\ (Z.abs (seg_ack seg - snd_nxt pcb) < 2 ^ 31 ->
      ack_is_unsent pcb seg = ack_is_unsent_modular pcb seg)
  /\ (Z.abs (seg_seq seg - snd_wl1 pcb) < 2 ^ 31 ->
      Z.abs (seg_ack seg - snd_wl2 pcb) < 2 ^ 31 ->
      window_update_due pcb seg = window_update_due_modular pcb seg).
Proof.
  intros (Hnxt & Huna & Hwl1 & Hwl2 & Hrn & Hrw) (Hseq & Hack & Hlen).
  split; [|split; [intros Hs; split|split; [|split]]].
  - intros Hnw. unfold seq_acceptable, seq_acceptable_modular.
    rewrite !in_rcv_window_agrees; auto. apply wrap32_is_u32.
  - apply eq_true_iff_eq.
    unfold ack_valid_syn_received, ack_valid_syn_received_modular.
    rewrite !andb_true_iff, !Z.leb_le, !seq_le_true by assumption.
    unfold is_u32 in *. lia.
  - apply eq_true_iff_eq.
    unfold ack_is_new, ack_is_new_modular.
    rewrite !andb_true_iff, Z.leb_le, Z.ltb_lt, seq_le_true, seq_lt_true
      by assumption.
    unfold is_u32 in *. lia.
  - intros Hs. apply eq_true_iff_eq.
    unfold ack_is_duplicate, ack_is_duplicate_modular.
    rewrite Z.ltb_lt, seq_lt_true by assumption.
    unfold is_u32 in *. lia.
  - intros Hs. apply eq_true_iff_eq.
    unfold ack_is_unsent, ack_is_unsent_modular, seq_gt.
    rewrite Z.gtb_ltb, Z.ltb_lt, seq_lt_true by assumption.
    unfold is_u32 in *. lia.
  - intros Hs1 Hs2. apply eq_true_iff_eq.
    unfold window_update_due, window_update_due_modular.
    rewrite !orb_true_iff, !andb_true_iff, Z.leb_le, Z.ltb_lt, Z.eqb_eq,
      seq_le_true, seq_lt_true by assumption.
    unfold is_u32 in *. lia.
Qed.

Lemma raw_comparisons_agree_without_wrap_witness :
  let seg := mk_seg 1001 5556 0 4096 0 in
  (pcb_fields_u32 established_pcb /\ seg_fields_u32 seg)
  /\ seq_acceptable established_pcb seg
     = seq_acceptable_modular established_pcb seg
  /\ ack_valid_syn_received established_pcb seg
     = ack_valid_syn_received_modular established_pcb seg
  /\ ack_is_new established_pcb seg = ack_is_new_modular established_pcb seg
  /\ ack_is_duplicate established_pcb seg
     = ack_is_duplicate_modular established_pcb seg
  /\ ack_is_unsent established_pcb seg
     = ack_is_unsent_modular established_pcb seg
  /\ window_update_due established_pcb seg
     = window_update_due_modular established_pcb seg.
Proof.
  intros seg.
  assert (H1 : pcb_fields_u32 established_pcb)
    by (unfold pcb_fields_u32, is_u32, is_u16; simpl; lia).
  assert (H2 : seg_fields_u32 seg)
    by (unfold seg_fields_u32, is_u32, is_u16; simpl; lia).
  split; [tauto|].
  destruct (raw_comparisons_agree_without_wrap established_pcb seg H1 H2)
    as (A & B & C & D & E).
  split; [apply A; simpl; lia|].
  split; [apply B; simpl; lia|].
  split; [apply B; simpl; lia|].
  split; [apply C; simpl; lia|].
  split; [apply D; simpl; lia|].
  apply E; simpl; lia.
Defined.

(** C3, counterexample.  A peer opens with initial sequence number
    2^32 - 2, so that rcv.nxt = 2^32 - 1 and the receive window
    [rcv.nxt, rcv.nxt + 65535) spans the wrap-around.  Its next segment,
    seq = 2^32 - 1, is the first of the window in sequence-space order,
    but the raw comparison against the wrapped sum 65534 finds it
    unacceptable: the segment is answered by a bare ACK and the handshake
    does not complete. *)
Lemma raw_comparison_fails_across_wrap :
  let seg := mk_seg 4294967295 5556 0 4096 0 in
  tcp_pcb_select host_endpoint (Some peer_endpoint) wrap_table
  = Some (0%nat, wrap_pcb)
  /\ pcb_fields_u32 wrap_pcb /\ seg_fields_u32 seg
  /\ seq_acceptable_modular wrap_pcb seg = true
  /\ seq_acceptable wrap_pcb seg = false
  /\ tcp_segment_arrives 0 seg TCP_FLG_ACK [] 0 host_endpoint peer_endpoint
       wrap_table
     = Some (wrap_table,
             [Emit {| o_seq := 5556; o_ack := 4294967295;
                      o_flg := TCP_FLG_ACK; o_wnd := 65535; o_data := [];
                      o_local := host_endpoint;
                      o_foreign := peer_endpoint |}]).
Proof.
  intros seg. split; [vm_compute; reflexivity|].
  split; [unfold pcb_fields_u32, is_u32, is_u16; simpl; lia|].
  split; [unfold seg_fields_u32, is_u32, is_u16; simpl; lia|].
  split; [vm_compute; reflexivity|].
  split; vm_compute; reflexivity.
Qed.

(** ** The user commands *)

Lemma tcp_pcb_get_lookup id pcbs i pcb :
  tcp_pcb_get id pcbs = Some (i, pcb) ->
  pcbs !! i = Some pcb /\ state pcb <> TCP_PCB_STATE_FREE.
Proof.
  unfold tcp_pcb_get. destruct ((id <? 0) || (id >=? Z.of_nat TCP_PCB_SIZE));
    [discriminate|].
  destruct (pcbs !! Z.to_nat id) as [q|] eqn:Hl; [|discriminate].
  destruct (pcb_state_eqb (state q) TCP_PCB_STATE_FREE) eqn:Hf; [discriminate|].
  intros [= <- <-]. split; [done|]. intros Hs. rewrite Hs in Hf. discriminate.
Qed.

Lemma tcp_receive_retry_unfold i size sleeps pcbs pcb :
  pcbs !! i = Some pcb ->
  state pcb = TCP_PCB_STATE_ESTABLISHED ->
  tcp_receive_retry i size sleeps pcbs =
  let remain := BUF_SIZE - rcv_wnd pcb in
  if remain =? 0 then
    match sleeps with
    | [] => (ReceiveAsleep, pcbs)
    | (SleepInterrupted, env) :: _ => (ReceiveInterrupted, env pcbs)
    | (SleepWoken, env) :: rest => tcp_receive_retry i size rest (env pcbs)
    end
  else
    let len := Z.min size remain in
    (ReceiveOk len (buf pcb <$> seqZ 0 len),
     <[i := set_rcv_wnd (wrap16 (rcv_wnd pcb + len))
              (set_unread (unread pcb - len)
                 (set_buf (fun k => if (0 <=? k) && (k <? remain - len)
                                    then buf pcb (k + len) else buf pcb k)
                          pcb))]> pcbs).
Proof.
  intros Hl Hs. destruct sleeps as [|[[] env] rest]; simpl;
    rewrite Hl, Hs; reflexivity.
Qed.

(** C5.  [tcp_receive] on a valid handle of an ESTABLISHED PCB.  With
    remain = sizeof(buf) - rcv.wnd > 0 it returns n = min(size, remain),
    hands out the first n bytes of buf, moves the bytes that were at
    [n, remain) to the front, adds n to rcv.wnd and touches nothing
    else.  With remain = 0 it sleeps: woken, it retries on the table as it
    then is; interrupted, it fails with INTERRUPTED and makes no change to
    the table of its own, so that after the interrupt of [event_handler]
    the table is what it was. *)
Theorem tcp_receive_established id size sleeps pcbs i pcb :
  tcp_pcb_get id pcbs = Some (i, pcb) ->
  state pcb = TCP_PCB_STATE_ESTABLISHED ->
  is_u16 (rcv_wnd pcb) ->
  0 <= size ->
  let remain := BUF_SIZE - rcv_wnd pcb in
  let n := Z.min size remain in
  (0 < remain ->
   exists b',
     tcp_receive id size sleeps pcbs
     = (ReceiveOk n (buf pcb <$> seqZ 0 n),
        <[i := set_rcv_wnd (rcv_wnd pcb + n)
                 (set_unread (unread pcb - n) (set_buf b' pcb))]> pcbs)
     /\ length (buf pcb <$> seqZ 0 n) = Z.to_nat n
     /\ (forall k, 0 <= k < n ->
         (buf pcb <$> seqZ 0 n) !! Z.to_nat k = Some (buf pcb k))
     /\ (forall k, 0 <= k < remain - n -> b' k = buf pcb (k + n))
     /\ (forall k, remain - n <= k -> b' k = buf pcb k))
  /\ (remain = 0 ->
      (sleeps = [] -> tcp_receive id size sleeps pcbs = (ReceiveAsleep, pcbs))
      /\ (forall env rest, sleeps = (SleepWoken, env) :: rest ->
          tcp_receive id size sleeps pcbs
          = tcp_receive_retry i size rest (env pcbs))
      /\ (forall env rest, sleeps = (SleepInterrupted, env) :: rest ->
          tcp_receive id size sleeps pcbs = (ReceiveInterrupted, env pcbs))
      /\ (forall rest,
          sleeps = (SleepInterrupted, fun t => (event_handler t).1) :: rest ->
          tcp_receive id size sleeps pcbs = (ReceiveInterrupted, pcbs))).
Proof.
  intros Hget Hst Hw Hsize remain n.
  destruct (tcp_pcb_get_lookup _ _ _ _ Hget) as [Hl _].
  unfold tcp_receive. rewrite Hget.
  rewrite (tcp_receive_retry_unfold i size sleeps pcbs pcb Hl Hst).
  fold remain. cbv zeta. fold n. unfold is_u16, BUF_SIZE in *.
  split.
  - intros Hr. destruct (Z.eqb_spec remain 0) as [E|_]; [lia|].
    eexists. split; [|split; [|split; [|split]]].
    + f_equal. f_equal. f_equal. unfold wrap16. apply Z.mod_small.
      subst n remain. lia.
    + rewrite length_fmap, length_seqZ. reflexivity.
    + intros k Hk. rewrite list_lookup_fmap, lookup_seqZ_lt by lia.
      simpl. f_equal. f_equal. lia.
    + intros k Hk. cbv beta.
      destruct (Z.leb_spec 0 k), (Z.ltb_spec k (remain - n)); simpl; lia || done.
    + intros k Hk. cbv beta.
      destruct (Z.leb_spec 0 k), (Z.ltb_spec k (remain - n)); simpl; lia || done.
  - intros Hr. rewrite Hr. simpl.
    split; [by intros ->|]. split; [by intros env rest ->|].
    split; [by intros env rest ->|]. by intros rest ->.
Qed.

Lemma hello_table_get : tcp_pcb_get 0 hello_table = Some (0%nat, hello_pcb).
Proof. vm_compute. reflexivity. Qed.

(** Scenario: after the payload "hello" arrived, [tcp_receive] with room
    for five bytes returns these five bytes. *)
Lemma tcp_receive_established_witness :
  (tcp_pcb_get 0 hello_table = Some (0%nat, hello_pcb)
   /\ state hello_pcb = TCP_PCB_STATE_ESTABLISHED
   /\ is_u16 (rcv_wnd hello_pcb)
   /\ 0 <= 5)
  /\ (tcp_receive 0 5 [] hello_table).1 = ReceiveOk 5 hello.
Proof.
  assert (H1 : state hello_pcb = TCP_PCB_STATE_ESTABLISHED) by reflexivity.
  assert (H2 : is_u16 (rcv_wnd hello_pcb)) by (vm_compute; split; congruence).
  assert (H3 : 0 <= 5) by lia.
  split; [split; [exact hello_table_get | tauto]|].
  destruct (tcp_receive_established 0 5 [] hello_table 0%nat hello_pcb
              hello_table_get H1 H2 H3) as [H _].
  destruct H as (b' & -> & _); [vm_compute; reflexivity|].
  vm_compute. reflexivity.
Defined.

(** Scenario: "hello" arrives on the established connection; the answer
    is an ACK with ack=1006 and window 65530, and the sleepers are woken. *)
Example hello_is_acknowledged :
  events_of (tcp_segment_arrives 0 (mk_seg 1001 5556 5 4096 0)
               (Z.lor TCP_FLG_PSH TCP_FLG_ACK) hello 5
               host_endpoint peer_endpoint established_table)
  = [Emit {| o_seq := 5556; o_ack := 1006; o_flg := TCP_FLG_ACK;
             o_wnd := 65530; o_data := [];
             o_local := host_endpoint; o_foreign := peer_endpoint |};
     Wakeup 0].
Proof. vm_compute. reflexivity. Qed.

(** Scenario: after the five bytes are read the window is 65535 again. *)
Example hello_is_read :
  rcv_wnd <$> (tcp_receive 0 5 [] hello_table).2 !! 0%nat = Some 65535.
Proof. vm_compute. reflexivity. Qed.

(** Scenario: a [tcp_receive] blocked on an empty buffer is interrupted by
    the external event; it fails with INTERRUPTED and the table is as it
    was. *)
Example receive_is_interrupted :
  tcp_receive 0 5 [(SleepInterrupted, fun t => (event_handler t).1)]
              established_table
  = (ReceiveInterrupted, established_table).
Proof. vm_compute. reflexivity. Qed.

(** ** The receive-window invariant *)

Lemma pcb_inv_same p p' :
  state p' = state p -> rcv_wnd p' = rcv_wnd p -> unread p' = unread p ->
  pcb_inv p -> pcb_inv p'.
Proof. unfold pcb_inv. intros -> -> ->. done. Qed.

Lemma pcb_inv_zero : pcb_inv pcb_zero.
Proof. split; reflexivity. Qed.

Lemma pcb_inv_closed p : pcb_inv (set_state TCP_PCB_STATE_CLOSED p).
Proof. exact I. Qed.

Lemma pcb_inv_established p :
  state p = TCP_PCB_STATE_SYN_RECEIVED ->
  pcb_inv p -> pcb_inv (set_state TCP_PCB_STATE_ESTABLISHED p).
Proof. unfold pcb_inv. intros ->. done. Qed.

Lemma tcp_pcb_alloc_from_spec k ps j ps' :
  tcp_pcb_alloc_from k ps = Some (j, ps') ->
  exists idx pcb,
    j = (k + idx)%nat /\ ps !! idx = Some pcb
    /\ state pcb = TCP_PCB_STATE_FREE
    /\ ps' = <[idx := set_state TCP_PCB_STATE_CLOSED pcb]> ps.
Proof.
  revert k j ps'. induction ps as [|p rest IH]; intros k j ps' H; simpl in H.
  - discriminate.
  - destruct (pcb_state_eqb (state p) TCP_PCB_STATE_FREE) eqn:Hf.
    + injection H as <- <-. exists 0%nat, p. split; [lia|]. split; [done|].
      split; [|done]. by destruct (state p).
    + destruct (tcp_pcb_alloc_from (S k) rest) as [[j' rest']|] eqn:Hr;
        [|discriminate].
      injection H as <- <-.
      destruct (IH _ _ _ Hr) as (idx & pcb & -> & Hl & Hs & ->).
      exists (S idx), pcb. split; [lia|]. done.
Qed.

Lemma tcp_open_listen_inv loc fgn pcbs i pcbs' :
  tcp_open_listen loc fgn pcbs = Some (i, pcbs') ->
  Forall pcb_inv pcbs -> Forall pcb_inv pcbs'.
Proof.
  unfold tcp_open_listen, tcp_pcb_alloc. intros H Hinv.
  destruct (tcp_pcb_alloc_from 0 pcbs) as [[j ps1]|] eqn:Ha; [|discriminate].
  destruct (tcp_pcb_alloc_from_spec _ _ _ _ Ha)
    as (idx & pcb & -> & Hl & Hs & ->).
  simpl in H. rewrite list_lookup_insert_eq in H
    by (by eapply lookup_lt_Some).
  injection H as <- <-.
  pose proof (Forall_lookup_1 _ _ _ _ Hinv Hl) as Hp.
  unfold pcb_inv in Hp. rewrite Hs in Hp.
  apply Forall_insert; [apply Forall_insert; [done|exact I]|].
  unfold pcb_inv. simpl. by destruct fgn.
Qed.

Lemma arrives_listen_inv rnd seg flags loc fgn pcb :
  state pcb = TCP_PCB_STATE_LISTEN -> pcb_inv pcb ->
  pcb_inv (arrives_listen rnd seg flags loc fgn pcb).1.
Proof.
  intros Hs Hp. unfold arrives_listen.
  destruct (TCP_FLG_ISSET flags TCP_FLG_RST); [done|].
  destruct (TCP_FLG_ISSET flags TCP_FLG_ACK); [done|].
  destruct (TCP_FLG_ISSET flags TCP_FLG_SYN); [|done].
  unfold pcb_inv in *. rewrite Hs in Hp. simpl. destruct Hp as [_ ->].
  unfold BUF_SIZE. vm_compute. repeat split; congruence.
Qed.

Lemma ack_established_same seg pcb fl pcb' evs :
  ack_established seg pcb = (fl, pcb', evs) ->
  state pcb' = state pcb /\ rcv_wnd pcb' = rcv_wnd pcb
  /\ unread pcb' = unread pcb.
Proof.
  unfold ack_established.
  destruct (ack_is_new pcb seg).
  { destruct (window_update_due _ seg); intros [= <- <- <-]; done. }
  destruct (ack_is_duplicate pcb seg); [by intros [= <- <- <-]|].
  destruct (ack_is_unsent pcb seg); by intros [= <- <- <-].
Qed.

Lemma ack_processing_inv i seg loc fgn pcb fl pcb' evs :
  ack_processing i seg loc fgn pcb = (fl, pcb', evs) ->
  pcb_inv pcb -> pcb_inv pcb'.
Proof.
  unfold ack_processing. intros H Hp.
  destruct (state pcb) eqn:Hs; try (injection H as <- <- <-; done).
  - destruct (ack_valid_syn_received pcb seg);
      [|injection H as <- <- <-; done].
    destruct (ack_established seg (set_state TCP_PCB_STATE_ESTABLISHED pcb))
      as [[fl1 pcb1] evs1] eqn:Ha.
    injection H as <- <- <-.
    destruct (ack_established_same _ _ _ _ _ Ha) as (E1 & E2 & E3).
    eapply pcb_inv_same; [exact E1|exact E2|exact E3|].
    by apply pcb_inv_established.
  - destruct (ack_established_same _ _ _ _ _ H) as (E1 & E2 & E3).
    by eapply pcb_inv_same.
Qed.

Lemma text_processing_inv i seg data len pcb pcb' evs :
  0 <= len ->
  text_processing i seg data len pcb = Some (pcb', evs) ->
  pcb_inv pcb -> pcb_inv pcb'.
Proof.
  unfold text_processing. intros Hlen H Hp.
  destruct (state pcb) eqn:Hs; try (injection H as <- <-; done).
  destruct (Z.eqb_spec len 0) as [E|E]; simpl in H;
    [injection H as <- <-; done|].
  unfold memcpy_into in H.
  destruct ((len <=? Z.of_nat (length data))
            && (BUF_SIZE - rcv_wnd pcb + len <=? BUF_SIZE)) eqn:Hb;
    [|discriminate].
  injection H as <- <-.
  apply andb_true_iff in Hb as [_ Hb]. apply Z.leb_le in Hb.
  unfold pcb_inv in *. rewrite Hs in Hp. simpl. rewrite Hs.
  destruct Hp as (Hsum & Hu & Hw).
  assert (Hwrap : wrap16 (rcv_wnd pcb - len) = rcv_wnd pcb - len).
  { apply Z.mod_small. unfold BUF_SIZE in *. lia. }
  rewrite Hwrap. lia.
Qed.

Lemma arrives_otherwise_inv i seg flags data len loc fgn pcb pcb' evs :
  0 <= len ->
  arrives_otherwise i seg flags data len loc fgn pcb = Some (pcb', evs) ->
  pcb_inv pcb -> pcb_inv pcb'.
Proof.
  unfold arrives_otherwise. intros Hlen H Hp.
  destruct (negb _).
  { destruct (negb _); injection H as <- <-; done. }
  destruct (negb _); [injection H as <- <-; done|].
  destruct (ack_processing i seg loc fgn pcb) as [[fl pcb1] evs1] eqn:Ha.
  pose proof (ack_processing_inv _ _ _ _ _ _ _ _ Ha Hp) as Hp1.
  destruct fl; [|injection H as <- <-; done].
  destruct (text_processing i seg data len pcb1) as [[pcb2 evs2]|] eqn:Ht;
    [|discriminate].
  injection H as <- <-. by eapply text_processing_inv.
Qed.

Lemma tcp_segment_arrives_inv rnd seg flags data len loc fgn pcbs pcbs' evs :
  0 <= len ->
  tcp_segment_arrives rnd seg flags data len loc fgn pcbs = Some (pcbs', evs) ->
  Forall pcb_inv pcbs -> Forall pcb_inv pcbs'.
Proof.
  unfold tcp_segment_arrives. intros Hlen H Hinv.
  destruct (tcp_pcb_select loc (Some fgn) pcbs) as [[i pcb]|] eqn:Hsel;
    [|injection H as <- <-; done].
  pose proof (Forall_lookup_1 _ _ _ _ Hinv
                (tcp_pcb_select_lookup _ _ _ _ _ Hsel)) as Hp.
  assert (Hother :
    match arrives_otherwise i seg flags data len loc fgn pcb with
    | Some (pcb', evs) => Some (<[i := pcb']> pcbs, evs)
    | None => None
    end = Some (pcbs', evs) -> Forall pcb_inv pcbs').
  { destruct (arrives_otherwise i seg flags data len loc fgn pcb)
      as [[pcb1 evs1]|] eqn:Ho; [|discriminate].
    intros [= <- <-]. apply Forall_insert; [done|].
    by eapply arrives_otherwise_inv. }
  destruct (state pcb) eqn:Hs; try (by apply Hother);
    try (injection H as <- <-; done).
  pose proof (arrives_listen_inv rnd seg flags loc fgn pcb Hs Hp) as Hl.
  destruct (arrives_listen rnd seg flags loc fgn pcb) as [pcb1 evs1].
  injection H as <- <-. by apply Forall_insert.
Qed.

Lemma tcp_receive_inv id size pcbs r pcbs' :
  0 <= size ->
  tcp_receive id size [] pcbs = (r, pcbs') ->
  Forall pcb_inv pcbs -> Forall pcb_inv pcbs'.
Proof.
  unfold tcp_receive. intros Hsize H Hinv.
  destruct (tcp_pcb_get id pcbs) as [[i pcb]|] eqn:Hget;
    [|injection H as <- <-; done].
  destruct (tcp_pcb_get_lookup _ _ _ _ Hget) as [Hl _].
  pose proof (Forall_lookup_1 _ _ _ _ Hinv Hl) as Hp.
  simpl in H. rewrite Hl in H.
  destruct (state pcb) eqn:Hs; try (injection H as <- <-; done).
  destruct (Z.eqb_spec (BUF_SIZE - rcv_wnd pcb) 0) as [E|E];
    injection H as <- <-; [done|].
  apply Forall_insert; [done|].
  unfold pcb_inv in *. rewrite Hs in Hp. simpl. rewrite Hs.
  destruct Hp as (Hsum & Hu & Hw).
  assert (Hwrap : wrap16 (rcv_wnd pcb + Z.min size (BUF_SIZE - rcv_wnd pcb))
                  = rcv_wnd pcb + Z.min size (BUF_SIZE - rcv_wnd pcb)).
  { apply Z.mod_small. unfold BUF_SIZE in *. lia. }
  rewrite Hwrap. lia.
Qed.

Lemma tcp_pcb_release_inv busy i pcbs :
  Forall pcb_inv pcbs -> Forall pcb_inv (tcp_pcb_release busy i pcbs).1.
Proof.
  intros Hinv. unfold tcp_pcb_release. destruct busy; simpl; [done|].
  apply Forall_insert; [done|apply pcb_inv_zero].
Qed.

Lemma step_inv pcbs pcbs' :
  step pcbs pcbs' -> Forall pcb_inv pcbs -> Forall pcb_inv pcbs'.
Proof.
  intros Hstep Hinv. destruct Hstep as
    [loc fgn pcbs i pcbs' H
    |rnd seg flags data len loc fgn pcbs pcbs' evs Hlen H
    |id size pcbs r pcbs' Hsize H
    |i mss_ data pcbs n pcbs' evs H
    |busy id pcbs r pcbs' evs H
    |busy i pcbs pcbs' evs H].
  - by eapply tcp_open_listen_inv.
  - by eapply tcp_segment_arrives_inv.
  - by eapply tcp_receive_inv.
  - unfold tcp_send_round in H.
    destruct (pcbs !! i) as [pcb|] eqn:Hl; [|discriminate].
    destruct (state pcb) eqn:Hs; try discriminate.
    destruct (_ =? 0); [discriminate|]. injection H as <- <- <-.
    apply Forall_insert; [done|].
    eapply pcb_inv_same; [..|by eapply Forall_lookup_1]; done.
  - unfold tcp_close in H.
    destruct (tcp_pcb_get id pcbs) as [[i pcb]|];
      [|injection H as <- <- <-; done].
    pose proof (tcp_pcb_release_inv busy i pcbs Hinv) as Hr.
    destruct (tcp_pcb_release busy i pcbs) as [ps1 evs1].
    by injection H as <- <- <-.
  - unfold tcp_abort in H.
    destruct (pcbs !! i) as [pcb|] eqn:Hl; [|injection H as <- <-; done].
    assert (Hc : Forall pcb_inv (<[i := set_state TCP_PCB_STATE_CLOSED pcb]> pcbs))
      by (apply Forall_insert; [done|apply pcb_inv_closed]).
    pose proof (tcp_pcb_release_inv busy i _ Hc) as Hr.
    rewrite H in Hr. exact Hr.
Qed.

Lemma reachable_inv pcbs : reachable pcbs -> Forall pcb_inv pcbs.
Proof.
  induction 1 as [|pcbs pcbs' _ IH Hstep].
  - apply Forall_replicate, pcb_inv_zero.
  - by eapply step_inv.
Qed.

Lemma step_arrive_after rnd seg flags data len loc fgn pcbs :
  0 <= len ->
  is_Some (tcp_segment_arrives rnd seg flags data len loc fgn pcbs) ->
  step pcbs (after (tcp_segment_arrives rnd seg flags data len loc fgn pcbs)).
Proof.
  intros Hlen [[pcbs' evs] H]. rewrite H. simpl.
  by eapply step_arrive.
Qed.

Lemma reachable_listen_table : reachable listen_table.
Proof.
  eapply reachable_step; [apply reachable_init|].
  eapply (step_open listen_endpoint None pcbs_init 0%nat).
  vm_compute. reflexivity.
Qed.

Lemma reachable_syn_received_table : reachable syn_received_table.
Proof.
  apply (reachable_step listen_table); [apply reachable_listen_table|].
  unfold syn_received_table. apply step_arrive_after; [lia|].
  vm_compute. eauto.
Qed.

Lemma reachable_established_table : reachable established_table.
Proof.
  apply (reachable_step syn_received_table);
    [apply reachable_syn_received_table|].
  unfold established_table. apply step_arrive_after; [lia|].
  vm_compute. eauto.
Qed.

Lemma reachable_hello_table : reachable hello_table.
Proof.
  apply (reachable_step established_table);
    [apply reachable_established_table|].
  unfold hello_table. apply step_arrive_after; [lia|].
  vm_compute. eauto.
Qed.

(** C8, as the code has it.  In every PCB table reachable by the steps
    of an execution, that is, whenever the TCP mutex is free, a PCB in
    SYN_RECEIVED or ESTABLISHED has rcv.wnd + unread = sizeof(buf) = 65535,
    unread being the number of payload bytes appended to buf and not yet
    consumed by [tcp_receive]; a PCB in LISTEN has rcv.wnd = 0 and nothing
    unread.  The equality is set up when a LISTEN PCB accepts a SYN and is
    kept by every receive and by every payload append that stays inside
    the buffer. *)
Theorem rcv_window_invariant pcbs pcb :
  reachable pcbs -> pcb ∈ pcbs ->
  (state pcb = TCP_PCB_STATE_SYN_RECEIVED
   \/ state pcb = TCP_PCB_STATE_ESTABLISHED ->
   rcv_wnd pcb + unread pcb = BUF_SIZE /\ 0 <= unread pcb)
  /\ (state pcb = TCP_PCB_STATE_LISTEN ->
      rcv_wnd pcb = 0 /\ unread pcb = 0).
Proof.
  intros Hr Hin.
  pose proof (proj1 (Forall_forall _ _) (reachable_inv _ Hr) _ Hin) as Hp.
  unfold pcb_inv in Hp. split.
  - intros [Hs|Hs]; rewrite Hs in Hp; tauto.
  - intros Hs. rewrite Hs in Hp. exact Hp.
Qed.

(** Scenario: after the handshake and the arrival of "hello", the PCB has
    rcv.wnd = 65530 and five unread bytes. *)
Lemma rcv_window_invariant_witness :
  (reachable hello_table /\ hello_pcb ∈ hello_table)
  /\ (state hello_pcb = TCP_PCB_STATE_SYN_RECEIVED
      \/ state hello_pcb = TCP_PCB_STATE_ESTABLISHED ->
      rcv_wnd hello_pcb + unread hello_pcb = BUF_SIZE /\ 0 <= unread hello_pcb).
Proof.
  assert (Hin : hello_pcb ∈ hello_table).
  { apply list_elem_of_lookup. exists 0%nat. vm_compute. reflexivity. }
  split; [split; [exact reachable_hello_table | exact Hin]|].
  exact (proj1 (rcv_window_invariant hello_table hello_pcb
                  reachable_hello_table Hin)).
Defined.

(** C8, counterexample.  The PCB that [tcp_pcb_alloc] hands out on the
    initial table is CLOSED, and the PCB of a passive open is LISTEN; both
    have rcv.wnd = 0 and an empty buffer, so the sum is 0 and not 65535.
    rcv.wnd is only set to sizeof(buf) when a SYN is accepted. *)
Lemma fresh_pcb_window_sum_is_zero :
  reachable listen_table
  /\ listen_table !! 0%nat = Some listen_pcb
  /\ state listen_pcb = TCP_PCB_STATE_LISTEN
  /\ rcv_wnd listen_pcb + unread listen_pcb = 0
  /\ rcv_wnd listen_pcb + unread listen_pcb <> BUF_SIZE
  /\ tcp_pcb_alloc pcbs_init = Some (0%nat, alloc_table)
  /\ alloc_table !! 0%nat = Some closed_pcb
  /\ state closed_pcb = TCP_PCB_STATE_CLOSED
  /\ rcv_wnd closed_pcb + unread closed_pcb <> BUF_SIZE.
Proof.
  split; [exact reachable_listen_table|].
  repeat split; try (vm_compute; reflexivity); vm_compute; discriminate.
Qed.

(** ** IP ingress *)

(** C6, on the code.  [ip_input] does not take the header length from
    the low nibble of vhl: on a little-endian host the length it computes
    is 0 whatever vhl is, on a big-endian host it is vhl & 0x3c.  A
    20-byte datagram that declares a 60-byte header, which [ip_dump]
    would print as such, passes the header-length test and is accepted,
    on either host. *)
Theorem ip_input_accepts_truncated_header (be : bool) :
  Z.of_nat (length datagram_hl15) = 20
  /\ Z.shiftl (Z.land (byte_at datagram_hl15 0) 0x0f) 2 = 60
  /\ ip_dump_hlen (byte_at datagram_hl15 0) = 60
  /\ ip_input_hlen be (byte_at datagram_hl15 0) = (if be then 12 else 0)
  /\ ip_input be datagram_hl15 (Some (iface_slash24 be)) = IpAccepted.
Proof. destruct be; vm_compute; repeat split; reflexivity. Qed.

(** On a little-endian host the computed header length is 0 for every
    vhl, so the header-length test rejects nothing. *)
Lemma ip_input_hlen_little_endian (vhl : Z) :
  0 <= vhl < 256 -> ip_input_hlen false vhl = 0.
Proof.
  intros H. unfold ip_input_hlen, ntoh16, byteswap16.
  apply Z.bits_inj'. intros n Hn.
  rewrite Z.land_spec, Z.lor_spec, Z.bits_0.
  destruct (Z.ltb_spec n 8).
  - rewrite Z.shiftl_spec_low by lia. simpl.
    rewrite Z.land_spec, Z.shiftr_spec by lia.
    rewrite (Z.bits_above_log2 vhl (n + 8)).
    + reflexivity.
    + lia.
    + destruct (Z.eq_dec vhl 0) as [->|]; [simpl; lia|].
      assert (Z.log2 vhl < 8) by (apply Z.log2_lt_pow2; lia). lia.
  - replace (Z.testbit (15 * 4) n) with false; [apply andb_false_r|].
    symmetry. apply Z.bits_above_log2; [lia|]. simpl. lia.
Qed.

(** C7, on the code.  The interface 10.0.0.2/16 has the broadcast field
    10.0.255.255, but a datagram to 10.0.255.255 is turned away: the
    test compares with unicast | 0xff000000.  On a little-endian host
    that word is 10.0.0.255, and a datagram to 10.0.0.255, which is none
    of the interface's addresses, is accepted. *)
Theorem ip_input_ignores_broadcast_field (be : bool) :
  let iface := iface_slash16 be in
  let d := datagram_to_10_0_255_255 in
  bytes_of_u32 be (unicast iface) = [10; 0; 0; 2]
  /\ bytes_of_u32 be (netmask iface) = [255; 255; 0; 0]
  /\ bytes_of_u32 be (broadcast iface) = [10; 0; 255; 255]
  /\ load32 be (byte_at d 16) (byte_at d 17) (byte_at d 18) (byte_at d 19)
     = broadcast iface
  /\ ip_input be d (Some iface) = IpNotForUs
  /\ ip_input false datagram_to_10_0_0_255 (Some (iface_slash16 false))
     = IpAccepted.
Proof. destruct be; vm_compute; repeat split; reflexivity. Qed.

(** ** TCP ingress *)

(** C10, on the code.  [tcp_input] never compares the header length it
    reads from the data offset with the length of the segment.  A 20-byte
    segment with a correct checksum and data offset 15 reaches
    [tcp_segment_arrives] with hlen = 60, seg.len = 65496, a payload
    length of 2^64 - 40 and a payload pointer 40 bytes past the end of
    the segment; on an ESTABLISHED connection the text copy then runs out
    of bounds. *)
Theorem tcp_input_header_length_unchecked (be : bool) :
  let src := u32_of_bytes be [10; 0; 0; 5] in
  let dst := u32_of_bytes be [10; 0; 0; 2] in
  Z.of_nat (length segment_off15) = 20
  /\ (exists a,
        tcp_input_args be segment_off15 src dst = Some a
        /\ a_hlen a = 60
        /\ seg_len (a_seg a) = 65496
        /\ a_len a = 2 ^ 64 - 40
        /\ a_data a = []
        /\ a_flags a = TCP_FLG_ACK)
  /\ tcp_input be 0 segment_off15 src dst (established_table_on be) = None.
Proof.
  destruct be; vm_compute; (split; [reflexivity|]);
    (split; [|reflexivity]); eexists; repeat split; reflexivity.
Qed.

(** ** Addresses as text *)





































(** * Further properties of the code *)

(** ** The PCB table *)

Lemma pcb_state_eqb_eq a b : pcb_state_eqb a b = true <-> a = b.
Proof. destruct a, b; simpl; split; (done || discriminate). Qed.

Lemma tcp_pcb_select_from_exact k acc loc f ps j q :
  ps !! j = Some q ->
  local_matches q loc = true -> foreign_matches q f = true ->
  (forall j' q', (j' < j)%nat -> ps !! j' = Some q' ->
                 local_matches q' loc && foreign_matches q' f = false) ->
  tcp_pcb_select_from k acc loc (Some f) ps = Some ((k + j)%nat, q).
Proof.
  revert k acc j. induction ps as [|p rest IH]; intros k acc j Hl Hloc Hf Hfirst.
  - done.
  - destruct j as [|j]; simpl in Hl.
    + injection Hl as ->. simpl. rewrite Hloc, Hf. by rewrite Nat.add_0_r.
    + assert (Hp : local_matches p loc && foreign_matches p f = false)
        by (apply (Hfirst 0%nat p); [lia|done]).
      assert (Hrec : forall acc',
        tcp_pcb_select_from (S k) acc' loc (Some f) rest
        = Some ((k + S j)%nat, q)).
      { intros acc'. rewrite (IH (S k) acc' j Hl Hloc Hf).
        - f_equal. f_equal. lia.
        - intros j' q' Hj' Hl'. apply (Hfirst (S j') q'); [lia|done]. }
      simpl. destruct (local_matches p loc); [|apply Hrec].
      simpl in Hp. rewrite Hp. destruct (is_wildcard_listen p); apply Hrec.
Qed.

Lemma tcp_pcb_select_from_listen k acc loc f ps :
  (forall j q, ps !! j = Some q ->
               local_matches q loc && foreign_matches q f = false) ->
  (tcp_pcb_select_from k acc loc (Some f) ps = acc
   /\ forall j q, ps !! j = Some q ->
                  local_matches q loc && is_wildcard_listen q = false)
  \/ exists j q,
       ps !! j = Some q /\ local_matches q loc = true
       /\ is_wildcard_listen q = true
       /\ (forall j' q', (j < j')%nat -> ps !! j' = Some q' ->
                         local_matches q' loc && is_wildcard_listen q' = false)
       /\ tcp_pcb_select_from k acc loc (Some f) ps = Some ((k + j)%nat, q).
Proof.
  revert k acc. induction ps as [|p rest IH]; intros k acc Hno.
  - left. split; [done|]. intros j q Hl. done.
  - assert (Hp : local_matches p loc && foreign_matches p f = false)
      by (apply (Hno 0%nat p); done).
    assert (Hrest : forall j q, rest !! j = Some q ->
              local_matches q loc && foreign_matches q f = false)
      by (intros j q Hl; apply (Hno (S j) q); done).
    assert (Hlater : forall acc',
      (exists j q,
        rest !! j = Some q /\ local_matches q loc = true
        /\ is_wildcard_listen q = true
        /\ (forall j' q', (j < j')%nat -> rest !! j' = Some q' ->
              local_matches q' loc && is_wildcard_listen q' = false)
        /\ tcp_pcb_select_from (S k) acc' loc (Some f) rest
           = Some ((S k + j)%nat, q)) ->
      exists j q,
        (p :: rest) !! j = Some q /\ local_matches q loc = true
        /\ is_wildcard_listen q = true
        /\ (forall j' q', (j < j')%nat -> (p :: rest) !! j' = Some q' ->
              local_matches q' loc && is_wildcard_listen q' = false)
        /\ tcp_pcb_select_from (S k) acc' loc (Some f) rest
           = Some ((k + j)%nat, q)).
    { intros acc' (j & q & Hl & Hloc & Hw & Hlast & Hr).
      exists (S j), q. repeat split; try done.
      - intros j' q' Hj' Hl'. destruct j' as [|j']; [lia|].
        apply (Hlast j' q'); [lia|done].
      - rewrite Hr. f_equal. f_equal. lia. }
    simpl. destruct (local_matches p loc) eqn:Hloc.
    + simpl in Hp. rewrite Hp.
      destruct (is_wildcard_listen p) eqn:Hw.
      * destruct (IH (S k) (Some (k, p)) Hrest) as [[Hr Hnone]|Hex].
        { right. exists 0%nat, p. repeat split; try done.
          - intros j' q' Hj' Hl'. destruct j' as [|j']; [lia|].
            by apply (Hnone j' q').
          - rewrite Hr. by rewrite Nat.add_0_r. }
        { right. by apply Hlater. }
      * destruct (IH (S k) acc Hrest) as [[Hr Hnone]|Hex].
        { left. split; [done|]. intros j q Hl. destruct j as [|j].
          - injection Hl as <-. by rewrite Hloc, Hw.
          - by apply (Hnone j q). }
        { right. by apply Hlater. }
    + destruct (IH (S k) acc Hrest) as [[Hr Hnone]|Hex].
      { left. split; [done|]. intros j q Hl. destruct j as [|j].
        - injection Hl as <-. by rewrite Hloc.
        - by apply (Hnone j q). }
      { right. by apply Hlater. }
Qed.

(** X1.  [tcp_pcb_select] with a foreign endpoint: the first PCB whose
    local endpoint matches and whose foreign endpoint is the given one is
    returned; when there is none, the last locally matching LISTEN PCB
    with the wildcard foreign endpoint is; when there is none either, the
    result is NULL.  The state of a PCB is looked at only for the wildcard
    fallback. *)
Theorem tcp_pcb_select_spec loc f pcbs :
  (forall j q,
     pcbs !! j = Some q ->
     local_matches q loc = true -> foreign_matches q f = true ->
     (forall j' q', (j' < j)%nat -> pcbs !! j' = Some q' ->
                    local_matches q' loc && foreign_matches q' f = false) ->
     tcp_pcb_select loc (Some f) pcbs = Some (j, q))
  /\ ((forall j q, pcbs !! j = Some q ->
                  local_matches q loc && foreign_matches q f = false) ->
      (forall j q,
         pcbs !! j = Some q ->
         local_matches q loc = true -> is_wildcard_listen q = true ->
         (forall j' q', (j < j')%nat -> pcbs !! j' = Some q' ->
                        local_matches q' loc && is_wildcard_listen q' = false) ->
         tcp_pcb_select loc (Some f) pcbs = Some (j, q))
      /\ ((forall j q, pcbs !! j = Some q ->
                      local_matches q loc && is_wildcard_listen q = false) ->
          tcp_pcb_select loc (Some f) pcbs = None)).
Proof.
  split.
  - intros j q Hl Hloc Hf Hfirst. unfold tcp_pcb_select.
    by rewrite (tcp_pcb_select_from_exact 0 None loc f pcbs j q).
  - intros Hno.
    destruct (tcp_pcb_select_from_listen 0 None loc f pcbs Hno)
      as [[Hr Hnone]|(j0 & q0 & Hl0 & Hloc0 & Hw0 & Hlast0 & Hr)].
    + split; [|by intros _].
      intros j q Hl Hloc Hw _. specialize (Hnone j q Hl).
      rewrite Hloc, Hw in Hnone. discriminate.
    + split.
      * intros j q Hl Hloc Hw Hlast. unfold tcp_pcb_select. rewrite Hr.
        simpl. destruct (Nat.lt_trichotomy j j0) as [Hlt|[->|Hgt]].
        { specialize (Hlast j0 q0 Hlt Hl0). rewrite Hloc0, Hw0 in Hlast.
          discriminate. }
        { congruence. }
        { specialize (Hlast0 j q Hgt Hl). rewrite Hloc, Hw in Hlast0.
          discriminate. }
      * intros Hnone. specialize (Hnone j0 q0 Hl0).
        rewrite Hloc0, Hw0 in Hnone. discriminate.
Qed.

Lemma tcp_pcb_alloc_from_first k ps j ps' :
  tcp_pcb_alloc_from k ps = Some (j, ps') ->
  exists idx pcb,
    j = (k + idx)%nat /\ ps !! idx = Some pcb
    /\ state pcb = TCP_PCB_STATE_FREE
    /\ (forall i q, (i < idx)%nat -> ps !! i = Some q ->
                    state q <> TCP_PCB_STATE_FREE)
    /\ ps' = <[idx := set_state TCP_PCB_STATE_CLOSED pcb]> ps.
Proof.
  revert k j ps'. induction ps as [|p rest IH]; intros k j ps' H; simpl in H.
  - discriminate.
  - destruct (pcb_state_eqb (state p) TCP_PCB_STATE_FREE) eqn:Hf.
    + injection H as <- <-. exists 0%nat, p. split; [lia|]. split; [done|].
      split; [by apply pcb_state_eqb_eq|]. split; [|done]. intros; lia.
    + destruct (tcp_pcb_alloc_from (S k) rest) as [[j' rest']|] eqn:Hr;
        [|discriminate].
      injection H as <- <-.
      destruct (IH _ _ _ Hr) as (idx & pcb & -> & Hl & Hs & Hbefore & ->).
      exists (S idx), pcb. split; [lia|]. split; [done|]. split; [done|].
      split; [|done]. intros i q Hi Hq. destruct i as [|i].
      * injection Hq as <-. intros E. apply pcb_state_eqb_eq in E. congruence.
      * apply (Hbefore i q); [lia|done].
Qed.

Lemma tcp_pcb_alloc_from_none k ps :
  tcp_pcb_alloc_from k ps = None <->
  forall pcb, pcb ∈ ps -> state pcb <> TCP_PCB_STATE_FREE.
Proof.
  revert k. induction ps as [|p rest IH]; intros k; simpl.
  - split; [|done]. intros _ pcb Hin. by apply elem_of_nil in Hin.
  - destruct (pcb_state_eqb (state p) TCP_PCB_STATE_FREE) eqn:Hf.
    + split; [discriminate|]. intros H. exfalso.
      apply (H p); [by left|]. by apply pcb_state_eqb_eq.
    + destruct (tcp_pcb_alloc_from (S k) rest) as [[j rest']|] eqn:Hr.
      * split; [discriminate|]. intros H.
        assert (Hn : tcp_pcb_alloc_from (S k) rest = None).
        { apply IH. intros pcb Hin. apply H. by right. }
        congruence.
      * split; [|done]. intros _ pcb Hin.
        apply elem_of_cons in Hin as [->|Hin].
        { intros E. apply pcb_state_eqb_eq in E. congruence. }
        { by apply (proj1 (IH (S k)) Hr). }
Qed.

(** X2.  [tcp_pcb_alloc] fails exactly when no slot is FREE; otherwise it
    takes the first FREE slot, sets its state to CLOSED and changes
    nothing else in the table. *)
Theorem tcp_pcb_alloc_spec pcbs :
  (tcp_pcb_alloc pcbs = None <->
   forall pcb, pcb ∈ pcbs -> state pcb <> TCP_PCB_STATE_FREE)
  /\ (forall i pcbs',
        tcp_pcb_alloc pcbs = Some (i, pcbs') ->
        exists pcb,
          pcbs !! i = Some pcb /\ state pcb = TCP_PCB_STATE_FREE
          /\ (forall j q, (j < i)%nat -> pcbs !! j = Some q ->
                          state q <> TCP_PCB_STATE_FREE)
          /\ pcbs' = <[i := set_state TCP_PCB_STATE_CLOSED pcb]> pcbs).
Proof.
  split; [apply tcp_pcb_alloc_from_none|].
  intros i pcbs' H.
  destruct (tcp_pcb_alloc_from_first _ _ _ _ H)
    as (idx & pcb & -> & Hl & Hs & Hb & ->).
  by exists pcb.
Qed.

Lemma tcp_pcb_get_some id pcbs pcb :
  0 <= id < Z.of_nat TCP_PCB_SIZE ->
  pcbs !! Z.to_nat id = Some pcb ->
  state pcb <> TCP_PCB_STATE_FREE ->
  tcp_pcb_get id pcbs = Some (Z.to_nat id, pcb).
Proof.
  intros Hid Hl Hs. unfold tcp_pcb_get.
  destruct (Z.ltb_spec id 0); [lia|].
  rewrite Z.geb_leb. destruct (Z.leb_spec (Z.of_nat TCP_PCB_SIZE) id); [lia|].
  simpl. rewrite Hl.
  destruct (pcb_state_eqb (state pcb) TCP_PCB_STATE_FREE) eqn:E; [|done].
  by apply pcb_state_eqb_eq in E.
Qed.

Lemma tcp_pcb_get_some_nat (i : nat) pcbs pcb :
  (i < TCP_PCB_SIZE)%nat ->
  pcbs !! i = Some pcb ->
  state pcb <> TCP_PCB_STATE_FREE ->
  tcp_pcb_get (Z.of_nat i) pcbs = Some (i, pcb).
Proof.
  intros Hi Hl Hs.
  rewrite (tcp_pcb_get_some (Z.of_nat i) pcbs pcb); rewrite ?Nat2Z.id;
    try done. lia.
Qed.

Lemma tcp_pcb_get_free id pcbs :
  pcbs !! Z.to_nat id = Some pcb_zero -> tcp_pcb_get id pcbs = None.
Proof.
  intros Hl. unfold tcp_pcb_get.
  destruct (_ || _); [done|]. by rewrite Hl.
Qed.

(** X3.  A passive open on a table of 16 slots that succeeds returns a
    handle that [tcp_pcb_get] accepts; the PCB behind it is in LISTEN with
    the local endpoint given and, when one is given, the foreign endpoint
    given; no other slot is touched. *)
Theorem tcp_open_listen_get loc fgn pcbs i pcbs' :
  length pcbs = TCP_PCB_SIZE ->
  tcp_open_listen loc fgn pcbs = Some (i, pcbs') ->
  exists pcb',
    tcp_pcb_get (Z.of_nat i) pcbs' = Some (i, pcb')
    /\ state pcb' = TCP_PCB_STATE_LISTEN
    /\ local pcb' = loc
    /\ (forall f, fgn = Some f -> foreign pcb' = f)
    /\ (forall old, fgn = None -> pcbs !! i = Some old ->
                    foreign pcb' = foreign old)
    /\ (forall j, j <> i -> pcbs' !! j = pcbs !! j)
    /\ length pcbs' = TCP_PCB_SIZE.
Proof.
  intros Hlen H. unfold tcp_open_listen, tcp_pcb_alloc in H.
  destruct (tcp_pcb_alloc_from 0 pcbs) as [[j ps1]|] eqn:Ha; [|discriminate].
  destruct (tcp_pcb_alloc_from_first _ _ _ _ Ha)
    as (idx & pcb & -> & Hl & Hs & _ & ->).
  pose proof (lookup_lt_Some _ _ _ Hl) as Hidx.
  simpl in H. rewrite list_lookup_insert_eq in H by done.
  injection H as <- <-.
  eexists. split; [|split; [|split; [|split; [|split; [|split]]]]].
  - apply tcp_pcb_get_some_nat.
    + by rewrite <- Hlen.
    + apply list_lookup_insert_eq. by rewrite length_insert.
    + done.
  - done.
  - by destruct fgn.
  - by intros f ->.
  - intros old -> Hold. simpl. congruence.
  - intros j Hj. by rewrite !list_lookup_insert_ne.
  - by rewrite !length_insert.
Qed.

Lemma tcp_open_listen_get_witness :
  (length pcbs_init = TCP_PCB_SIZE
   /\ tcp_open_listen listen_endpoint None pcbs_init = Some (0%nat, listen_table))
  /\ exists pcb',
      tcp_pcb_get 0 listen_table = Some (0%nat, pcb')
      /\ state pcb' = TCP_PCB_STATE_LISTEN
      /\ local pcb' = listen_endpoint.
Proof.
  assert (H1 : length pcbs_init = TCP_PCB_SIZE) by reflexivity.
  assert (H2 : tcp_open_listen listen_endpoint None pcbs_init
               = Some (0%nat, listen_table)) by (vm_compute; reflexivity).
  split; [done|].
  destruct (tcp_open_listen_get listen_endpoint None pcbs_init 0%nat
              listen_table H1 H2) as (pcb' & Hg & Hs & Hloc & _).
  exists pcb'. done.
Defined.

(** X4.  [tcp_pcb_release] when no waiter is left zeroes the slot: the
    handle is no longer valid, the other slots are untouched, and
    [tcp_pcb_alloc] finds a slot again, at that index or before.  When a
    waiter is still asleep on the context, the table stays as it is and
    the waiters are woken. *)
Theorem tcp_pcb_release_frees i pcbs :
  (i < length pcbs)%nat ->
  tcp_pcb_release true i pcbs = (pcbs, [Wakeup i])
  /\ exists pcbs',
       tcp_pcb_release false i pcbs = (pcbs', [])
       /\ pcbs' !! i = Some pcb_zero
       /\ tcp_pcb_get (Z.of_nat i) pcbs' = None
       /\ (forall j, j <> i -> pcbs' !! j = pcbs !! j)
       /\ exists j pcbs'', tcp_pcb_alloc pcbs' = Some (j, pcbs'')
                           /\ (j <= i)%nat.
Proof.
  intros Hi. split; [done|]. exists (<[i := pcb_zero]> pcbs).
  assert (Hl : <[i := pcb_zero]> pcbs !! i = Some pcb_zero)
    by (by apply list_lookup_insert_eq).
  split; [done|]. split; [done|].
  split; [apply tcp_pcb_get_free; by rewrite Nat2Z.id|].
  split; [intros j Hj; by rewrite list_lookup_insert_ne|].
  destruct (tcp_pcb_alloc (<[i := pcb_zero]> pcbs)) as [[j ps]|] eqn:Ha.
  - exists j, ps. split; [done|].
    destruct (tcp_pcb_alloc_from_first _ _ _ _ Ha)
      as (idx & pcb & -> & _ & _ & Hb & _).
    simpl. destruct (Nat.le_gt_cases idx i) as [|Hgt]; [done|].
    exfalso. by apply (Hb i pcb_zero Hgt Hl).
  - exfalso. apply (proj1 (tcp_pcb_alloc_from_none _ _) Ha pcb_zero); [|done].
    apply list_elem_of_lookup. by exists i.
Qed.

Lemma tcp_pcb_release_frees_witness :
  (0 < length established_table)%nat
  /\ exists pcbs',
       tcp_pcb_release false 0 established_table = (pcbs', [])
       /\ tcp_pcb_get 0 pcbs' = None.
Proof.
  assert (H : (0 < length established_table)%nat) by (vm_compute; lia).
  split; [exact H|].
  destruct (tcp_pcb_release_frees 0 established_table H)
    as (_ & pcbs' & Hr & _ & Hg & _).
  exists pcbs'. done.
Defined.

(** X5.  [tcp_close] on a handle that [tcp_pcb_get] refuses returns -1 and
    does nothing.  On a valid handle it returns 0 after emitting exactly
    one RST that carries seq = snd.nxt, ack = rcv.nxt and the window
    rcv.wnd to the PCB's foreign endpoint, whatever the state of the PCB;
    the slot is then released, so that the handle is dead, unless a
    waiter is still asleep, in which case the PCB is left as it was. *)
Theorem tcp_close_spec busy id pcbs :
  (tcp_pcb_get id pcbs = None -> tcp_close busy id pcbs = (-1, pcbs, []))
  /\ (forall i pcb,
        tcp_pcb_get id pcbs = Some (i, pcb) ->
        let rst := Emit {| o_seq := snd_nxt pcb; o_ack := rcv_nxt pcb;
                           o_flg := TCP_FLG_RST; o_wnd := rcv_wnd pcb;
                           o_data := []; o_local := local pcb;
                           o_foreign := foreign pcb |} in
        (busy = true -> tcp_close busy id pcbs = (0, pcbs, [rst; Wakeup i]))
        /\ (busy = false ->
            tcp_close busy id pcbs = (0, <[i := pcb_zero]> pcbs, [rst])
            /\ tcp_pcb_get id (<[i := pcb_zero]> pcbs) = None)).
Proof.
  split.
  - intros H. unfold tcp_close. by rewrite H.
  - intros i pcb H rst. unfold tcp_close. rewrite H.
    destruct (tcp_pcb_get_lookup _ _ _ _ H) as [Hl _].
    split; intros ->; [done|]. split; [done|].
    assert (Hi : i = Z.to_nat id).
    { unfold tcp_pcb_get in H. destruct (_ || _); [discriminate|].
      destruct (pcbs !! Z.to_nat id); [|discriminate].
      destruct (pcb_state_eqb _ _); [discriminate|]. by injection H as <- _. }
    apply tcp_pcb_get_free. rewrite <- Hi.
    apply list_lookup_insert_eq. by eapply lookup_lt_Some.
Qed.

(** X6.  [tcp_receive] fails, changing nothing, on a handle that
    [tcp_pcb_get] refuses and on a PCB that is not ESTABLISHED; and a
    receiver that was asleep on an empty buffer fails in the same way
    when it wakes up to find the PCB in another state. *)
Theorem tcp_receive_fails id size sleeps pcbs :
  (tcp_pcb_get id pcbs = None ->
   tcp_receive id size sleeps pcbs = (ReceiveFail, pcbs))
  /\ (forall i pcb,
        tcp_pcb_get id pcbs = Some (i, pcb) ->
        state pcb <> TCP_PCB_STATE_ESTABLISHED ->
        tcp_receive id size sleeps pcbs = (ReceiveFail, pcbs))
  /\ (forall i pcb env rest q,
        tcp_pcb_get id pcbs = Some (i, pcb) ->
        state pcb = TCP_PCB_STATE_ESTABLISHED ->
        rcv_wnd pcb = BUF_SIZE ->
        sleeps = (SleepWoken, env) :: rest ->
        env pcbs !! i = Some q ->
        state q <> TCP_PCB_STATE_ESTABLISHED ->
        tcp_receive id size sleeps pcbs = (ReceiveFail, env pcbs)).
Proof.
  assert (Hfail : forall i sl ps q,
    ps !! i = Some q -> state q <> TCP_PCB_STATE_ESTABLISHED ->
    tcp_receive_retry i size sl ps = (ReceiveFail, ps)).
  { intros i sl ps q Hl Hs.
    destruct sl as [|[[] env] rest]; simpl; rewrite Hl;
      by destruct (state q). }
  split; [|split].
  - intros H. unfold tcp_receive. by rewrite H.
  - intros i pcb H Hs. unfold tcp_receive. rewrite H.
    destruct (tcp_pcb_get_lookup _ _ _ _ H) as [Hl _]. by eapply Hfail.
  - intros i pcb env rest q H Hs Hw -> Hq Hqs.
    unfold tcp_receive. rewrite H.
    destruct (tcp_pcb_get_lookup _ _ _ _ H) as [Hl _].
    rewrite (tcp_receive_retry_unfold _ _ _ _ _ Hl Hs), Hw.
    simpl. by eapply Hfail.
Qed.

Lemma event_handler_from_spec k ps e :
  e ∈ event_handler_from k ps <->
  exists i pcb, e = Interrupt (k + i) /\ ps !! i = Some pcb
                /\ state pcb <> TCP_PCB_STATE_FREE.
Proof.
  revert k. induction ps as [|p rest IH]; intros k; simpl.
  - split; [intros H; by apply elem_of_nil in H|].
    intros (i & pcb & _ & H & _). done.
  - assert (Hrest : e ∈ event_handler_from (S k) rest <->
      exists i pcb, e = Interrupt (k + S i) /\ rest !! i = Some pcb
                    /\ state pcb <> TCP_PCB_STATE_FREE).
    { rewrite IH. split; intros (i & pcb & -> & H); exists i, pcb;
        (split; [f_equal; lia|done]). }
    destruct (pcb_state_eqb (state p) TCP_PCB_STATE_FREE) eqn:Hf; simpl.
    + rewrite Hrest. split.
      * intros (i & pcb & -> & H). by exists (S i), pcb.
      * intros (i & pcb & -> & Hl & Hs). destruct i as [|i].
        { injection Hl as <-. by apply pcb_state_eqb_eq in Hf. }
        { by exists i, pcb. }
    + rewrite elem_of_cons, Hrest. split.
      * intros [->|(i & pcb & -> & H)].
        { exists 0%nat, p. split; [f_equal; lia|]. split; [done|].
          intros E. apply pcb_state_eqb_eq in E. congruence. }
        { by exists (S i), pcb. }
      * intros (i & pcb & -> & Hl & Hs). destruct i as [|i].
        { left. f_equal. lia. }
        { right. by exists i, pcb. }
Qed.

(** X7.  [event_handler] leaves the PCB table as it is and posts an
    interrupt to the context of every slot that is not FREE, and to no
    other. *)
Theorem event_handler_interrupts pcbs :
  (event_handler pcbs).1 = pcbs
  /\ forall e,
       e ∈ (event_handler pcbs).2 <->
       exists i pcb, e = Interrupt i /\ pcbs !! i = Some pcb
                     /\ state pcb <> TCP_PCB_STATE_FREE.
Proof.
  split; [done|]. intros e. simpl. apply event_handler_from_spec.
Qed.

(** ** More on segment arrival *)

Lemma tcp_segment_arrives_otherwise rnd seg flags data len loc fgn pcbs i pcb :
  tcp_pcb_select loc (Some fgn) pcbs = Some (i, pcb) ->
  state pcb <> TCP_PCB_STATE_CLOSED ->
  state pcb <> TCP_PCB_STATE_LISTEN ->
  state pcb <> TCP_PCB_STATE_SYN_SENT ->
  tcp_segment_arrives rnd seg flags data len loc fgn pcbs
  = match arrives_otherwise i seg flags data len loc fgn pcb with
    | Some (pcb', evs) => Some (<[i := pcb']> pcbs, evs)
    | None => None
    end.
Proof.
  intros Hsel H1 H2 H3. unfold tcp_segment_arrives. rewrite Hsel.
  by destruct (state pcb).
Qed.

(** X8.  A segment that selects a PCB in any state other than CLOSED,
    LISTEN, SYN_RECEIVED and ESTABLISHED is dropped: no reply, no change.
    This includes FREE slots, which selection does not pass over. *)
Theorem arrives_other_states_dropped rnd seg flags data len loc fgn pcbs i pcb :
  tcp_pcb_select loc (Some fgn) pcbs = Some (i, pcb) ->
  state pcb <> TCP_PCB_STATE_CLOSED ->
  state pcb <> TCP_PCB_STATE_LISTEN ->
  state pcb <> TCP_PCB_STATE_SYN_RECEIVED ->
  state pcb <> TCP_PCB_STATE_ESTABLISHED ->
  tcp_segment_arrives rnd seg flags data len loc fgn pcbs = Some (pcbs, []).
Proof.
  intros Hsel H1 H2 H3 H4.
  pose proof (tcp_pcb_select_insert_id _ _ _ _ _ Hsel) as Hid.
  unfold tcp_segment_arrives. rewrite Hsel.
  unfold arrives_otherwise, ack_processing, text_processing.
  destruct (state pcb) eqn:Hs; try done; simpl;
    destruct (TCP_FLG_ISSET flags TCP_FLG_ACK); simpl;
    rewrite ?Hs; simpl; by rewrite ?Hid.
Qed.

(** A segment for port 0 from 0.0.0.0 port 0 finds the first, FREE, slot
    of the initial table and is dropped without a RST. *)
Lemma arrives_other_states_dropped_witness :
  let loc := mk_endpoint host_addr 0 in
  (tcp_pcb_select loc (Some endpoint_zero) pcbs_init = Some (0%nat, pcb_zero)
   /\ state pcb_zero <> TCP_PCB_STATE_CLOSED
   /\ state pcb_zero <> TCP_PCB_STATE_LISTEN
   /\ state pcb_zero <> TCP_PCB_STATE_SYN_RECEIVED
   /\ state pcb_zero <> TCP_PCB_STATE_ESTABLISHED)
  /\ tcp_segment_arrives 0 (mk_seg 9 0 1 0 0) TCP_FLG_SYN [] 0 loc
       endpoint_zero pcbs_init = Some (pcbs_init, []).
Proof.
  intros loc.
  assert (H0 : tcp_pcb_select loc (Some endpoint_zero) pcbs_init
               = Some (0%nat, pcb_zero)) by (vm_compute; reflexivity).
  assert (H1 : state pcb_zero <> TCP_PCB_STATE_CLOSED) by discriminate.
  assert (H2 : state pcb_zero <> TCP_PCB_STATE_LISTEN) by discriminate.
  assert (H3 : state pcb_zero <> TCP_PCB_STATE_SYN_RECEIVED) by discriminate.
  assert (H4 : state pcb_zero <> TCP_PCB_STATE_ESTABLISHED) by discriminate.
  split; [done|].
  exact (arrives_other_states_dropped 0 (mk_seg 9 0 1 0 0) TCP_FLG_SYN [] 0
           loc endpoint_zero pcbs_init 0%nat pcb_zero H0 H1 H2 H3 H4).
Defined.

Lemma arrives_otherwise_passed i seg flags data len loc fgn pcb :
  state pcb = TCP_PCB_STATE_SYN_RECEIVED
  \/ state pcb = TCP_PCB_STATE_ESTABLISHED ->
  seq_acceptable pcb seg = true ->
  TCP_FLG_ISSET flags TCP_FLG_ACK = true ->
  arrives_otherwise i seg flags data len loc fgn pcb
  = match ack_processing i seg loc fgn pcb with
    | (Return, pcb, evs) => Some (pcb, evs)
    | (Continue, pcb, evs) =>
      match text_processing i seg data len pcb with
      | None => None
      | Some (pcb, evs') => Some (pcb, evs ++ evs')
      end
    end.
Proof.
  intros Hs Ha Hf. unfold arrives_otherwise. rewrite Hf.
  by destruct Hs as [-> | ->]; rewrite Ha.
Qed.

(** What ESTABLISHED ACK processing does to a PCB. *)
Lemma ack_established_cases seg pcb :
  exists fl pcb' evs,
    ack_established seg pcb = (fl, pcb', evs)
    /\ state pcb' = state pcb /\ local pcb' = local pcb
    /\ foreign pcb' = foreign pcb /\ snd_nxt pcb' = snd_nxt pcb
    /\ iss pcb' = iss pcb /\ rcv_nxt pcb' = rcv_nxt pcb
    /\ rcv_wnd pcb' = rcv_wnd pcb /\ irs pcb' = irs pcb
    /\ buf pcb' = buf pcb /\ unread pcb' = unread pcb
    /\ snd_una pcb <= snd_una pcb'
    /\ (snd_una pcb <= snd_nxt pcb -> snd_una pcb' <= snd_nxt pcb')
    /\ (snd_una pcb < seg_ack seg <= snd_nxt pcb -> snd_una pcb' = seg_ack seg)
    /\ (~ snd_una pcb < seg_ack seg <= snd_nxt pcb -> pcb' = pcb)
    /\ (snd_wnd pcb' = snd_wnd pcb /\ snd_wl1 pcb' = snd_wl1 pcb
        /\ snd_wl2 pcb' = snd_wl2 pcb
        \/ snd_wnd pcb' = seg_wnd seg /\ snd_wl1 pcb' = seg_seq seg
           /\ snd_wl2 pcb' = seg_ack seg)
    /\ (fl = Continue /\ evs = []
        \/ fl = Return /\ evs = [tcp_output pcb TCP_FLG_ACK [] 0]
           /\ pcb' = pcb /\ snd_nxt pcb < seg_ack seg
           /\ snd_una pcb <= seg_ack seg).
Proof.
  unfold ack_established, ack_is_new, ack_is_duplicate, ack_is_unsent.
  destruct (Z.ltb_spec (snd_una pcb) (seg_ack seg)) as [H1|H1];
    destruct (Z.leb_spec (seg_ack seg) (snd_nxt pcb)) as [H2|H2]; simpl.
  - destruct (window_update_due _ seg); do 3 eexists;
      (split; [reflexivity|]); simpl; repeat split; try tauto; try lia.
  - destruct (Z.ltb_spec (seg_ack seg) (snd_una pcb)); [lia|].
    rewrite Z.gtb_ltb. destruct (Z.ltb_spec (snd_nxt pcb) (seg_ack seg)); [|lia].
    do 3 eexists; (split; [reflexivity|]); repeat split; try tauto; try lia.
  - destruct (Z.ltb_spec (seg_ack seg) (snd_una pcb)).
    + do 3 eexists; (split; [reflexivity|]); repeat split; try tauto; lia.
    + rewrite Z.gtb_ltb.
      destruct (Z.ltb_spec (snd_nxt pcb) (seg_ack seg)); [lia|].
      do 3 eexists; (split; [reflexivity|]); repeat split; try tauto; lia.
  - destruct (Z.ltb_spec (seg_ack seg) (snd_una pcb)).
    + do 3 eexists; (split; [reflexivity|]); repeat split; try tauto; lia.
    + rewrite Z.gtb_ltb.
      destruct (Z.ltb_spec (snd_nxt pcb) (seg_ack seg)); [|lia].
      do 3 eexists; (split; [reflexivity|]); repeat split; try tauto; try lia.
  Qed.

(** ** The receive queue *)

Lemma fmap_seqZ_lookup (f : Z -> Z) n i :
  (f <$> seqZ 0 n) !! i
  = if decide (Z.of_nat i < n) then Some (f (Z.of_nat i)) else None.
Proof.
  rewrite list_lookup_fmap. case_decide.
  - rewrite lookup_seqZ_lt by done. by rewrite Z.add_0_l.
  - rewrite lookup_seqZ_ge; [done|lia].
Qed.

Lemma pending_length pcb :
  length (pending pcb) = Z.to_nat (BUF_SIZE - rcv_wnd pcb).
Proof. unfold pending. by rewrite length_fmap, length_seqZ. Qed.

(** The copy of the text of a segment puts it at the end of the queue. *)
Lemma pending_append b wnd data len :
  0 <= len <= wnd -> wnd <= BUF_SIZE -> len <= Z.of_nat (length data) ->
  exists b',
    memcpy_into b (BUF_SIZE - wnd) data len = Some b'
    /\ b' <$> seqZ 0 (BUF_SIZE - (wnd - len))
       = (b <$> seqZ 0 (BUF_SIZE - wnd)) ++ take (Z.to_nat len) data.
Proof.
  intros Hlen Hwnd Hdata. unfold memcpy_into.
  destruct (Z.leb_spec len (Z.of_nat (length data))); [|lia].
  destruct (Z.leb_spec (BUF_SIZE - wnd + len) BUF_SIZE); [|lia].
  simpl. eexists. split; [reflexivity|].
  apply list_eq. intros i. rewrite fmap_seqZ_lookup.
  destruct (decide (Z.of_nat i < BUF_SIZE - wnd)) as [Hi|Hi].
  - rewrite lookup_app_l by (rewrite length_fmap, length_seqZ; lia).
    rewrite fmap_seqZ_lookup. rewrite !decide_True by lia. simpl.
    destruct (Z.leb_spec (BUF_SIZE - wnd) (Z.of_nat i)); [lia|done].
  - rewrite lookup_app_r by (rewrite length_fmap, length_seqZ; lia).
    rewrite length_fmap, length_seqZ.
    case_decide as Hj.
    + rewrite lookup_take_lt by lia. simpl.
      destruct (Z.leb_spec (BUF_SIZE - wnd) (Z.of_nat i)); [|lia].
      destruct (Z.ltb_spec (Z.of_nat i) (BUF_SIZE - wnd + len)); [|lia].
      simpl. unfold byte_at.
      replace (Z.to_nat (Z.of_nat i - (BUF_SIZE - wnd)))
        with (i - Z.to_nat (BUF_SIZE - wnd))%nat by lia.
      destruct (data !! (i - Z.to_nat (BUF_SIZE - wnd))%nat) eqn:Hd; [done|].
      apply lookup_ge_None in Hd. lia.
    + rewrite lookup_take_ge by lia. done.
Qed.

(** Reading takes from the front of the queue. *)
Lemma pending_take_drop (b : Z -> Z) remain n :
  0 <= n <= remain ->
  b <$> seqZ 0 n = take (Z.to_nat n) (b <$> seqZ 0 remain)
  /\ (fun k => if (0 <=? k) && (k <? remain - n) then b (k + n) else b k)
     <$> seqZ 0 (remain - n)
     = drop (Z.to_nat n) (b <$> seqZ 0 remain).
Proof.
  intros Hn. split; apply list_eq; intros i.
  - rewrite fmap_seqZ_lookup. case_decide.
    + rewrite lookup_take_lt by lia. rewrite fmap_seqZ_lookup.
      by rewrite decide_True by lia.
    + by rewrite lookup_take_ge by lia.
  - rewrite lookup_drop, !fmap_seqZ_lookup. case_decide.
    + rewrite decide_True by lia. simpl.
      destruct (Z.ltb_spec (Z.of_nat i) (remain - n)); [|lia].
      destruct (Z.leb_spec 0 (Z.of_nat i)); [|lia].
      simpl. do 2 f_equal. lia.
    + by rewrite decide_False by lia.
Qed.

Lemma text_processing_append i seg data len pcb :
  state pcb = TCP_PCB_STATE_ESTABLISHED ->
  0 < len <= rcv_wnd pcb -> rcv_wnd pcb <= BUF_SIZE ->
  len <= Z.of_nat (length data) ->
  exists pcb',
    text_processing i seg data len pcb
    = Some (pcb', [Emit {| o_seq := snd_nxt pcb;
                           o_ack := wrap32 (seg_seq seg + seg_len seg);
                           o_flg := TCP_FLG_ACK;
                           o_wnd := rcv_wnd pcb - len;
                           o_data := [];
                           o_local := local pcb;
                           o_foreign := foreign pcb |};
                   Wakeup i])
    /\ pending pcb' = pending pcb ++ take (Z.to_nat len) data
    /\ rcv_wnd pcb' = rcv_wnd pcb - len
    /\ rcv_nxt pcb' = wrap32 (seg_seq seg + seg_len seg)
    /\ state pcb' = TCP_PCB_STATE_ESTABLISHED
    /\ snd_nxt pcb' = snd_nxt pcb /\ snd_una pcb' = snd_una pcb
    /\ snd_wnd pcb' = snd_wnd pcb
    /\ local pcb' = local pcb /\ foreign pcb' = foreign pcb.
Proof.
  intros Hs Hlen Hwnd Hdata. unfold text_processing. rewrite Hs.
  destruct (Z.eqb_spec len 0); [lia|]. simpl.
  destruct (pending_append (buf pcb) (rcv_wnd pcb) data len)
    as (b' & -> & Hp); [lia|done|done|].
  assert (Hw : wrap16 (rcv_wnd pcb - len) = rcv_wnd pcb - len).
  { apply Z.mod_small. unfold BUF_SIZE in *. lia. }
  eexists. split; [|split; [|split; [|split]]].
  - unfold tcp_output, tcp_output_segment. simpl. rewrite Hw. reflexivity.
  - unfold pending. simpl. exact Hp.
  - reflexivity.
  - done.
  - done.
Qed.

(** X11.  In ESTABLISHED, an acceptable segment with ACK, an
    acknowledgment number not beyond snd.nxt and text that fits the
    window is appended to the bytes waiting in buf, wherever in the window
    its sequence number lies: rcv.nxt becomes seg.seq + seg.len, rcv.wnd
    shrinks by the length of the text, one ACK carrying the new rcv.nxt
    and rcv.wnd is emitted and the sleepers are woken. *)
Theorem arrives_established_text rnd seg flags data len loc fgn pcbs i pcb :
  tcp_pcb_select loc (Some fgn) pcbs = Some (i, pcb) ->
  state pcb = TCP_PCB_STATE_ESTABLISHED ->
  seq_acceptable pcb seg = true ->
  TCP_FLG_ISSET flags TCP_FLG_ACK = true ->
  seg_ack seg <= snd_nxt pcb ->
  0 < len <= rcv_wnd pcb -> rcv_wnd pcb <= BUF_SIZE ->
  len <= Z.of_nat (length data) ->
  exists pcb',
    tcp_segment_arrives rnd seg flags data len loc fgn pcbs
    = Some (<[i := pcb']> pcbs,
            [Emit {| o_seq := snd_nxt pcb;
                     o_ack := wrap32 (seg_seq seg + seg_len seg);
                     o_flg := TCP_FLG_ACK;
                     o_wnd := rcv_wnd pcb - len;
                     o_data := [];
                     o_local := local pcb;
                     o_foreign := foreign pcb |};
             Wakeup i])
    /\ pending pcb' = pending pcb ++ take (Z.to_nat len) data
    /\ rcv_wnd pcb' = rcv_wnd pcb - len
    /\ rcv_nxt pcb' = wrap32 (seg_seq seg + seg_len seg)
    /\ state pcb' = TCP_PCB_STATE_ESTABLISHED.
Proof.
  intros Hsel Hs Hacc Hack Hnxt Hlen Hwnd Hdata.
  rewrite (tcp_segment_arrives_otherwise _ _ _ _ _ _ _ _ _ _ Hsel)
    by (rewrite Hs; discriminate).
  rewrite arrives_otherwise_passed by tauto.
  unfold ack_processing. rewrite Hs.
  destruct (ack_established_cases seg pcb)
    as (fl & pcb1 & evs & -> & E1 & E2 & E3 & E4 & E5 & E6 & E7 & E8 & E9
        & _ & _ & _ & _ & _ & _ & Hfl).
  destruct Hfl as [[-> ->]|(_ & _ & _ & Hlt & _)]; [|lia].
  destruct (text_processing_append i seg data len pcb1)
    as (pcb' & -> & Hp & Hw & Hn & Hst & _); try congruence.
  exists pcb'. simpl. rewrite E2, E3, E4, E7. split; [done|].
  unfold pending in *. rewrite E7, E9 in Hp. rewrite Hp, Hw, Hn, E7.
  done.
Qed.

Lemma arrives_established_text_witness :
  let seg := mk_seg 1001 5556 5 4096 0 in
  let flags := Z.lor TCP_FLG_PSH TCP_FLG_ACK in
  (tcp_pcb_select host_endpoint (Some peer_endpoint) established_table
   = Some (0%nat, established_pcb)
   /\ state established_pcb = TCP_PCB_STATE_ESTABLISHED
   /\ seq_acceptable established_pcb seg = true
   /\ TCP_FLG_ISSET flags TCP_FLG_ACK = true
   /\ seg_ack seg <= snd_nxt established_pcb
   /\ 0 < 5 <= rcv_wnd established_pcb
   /\ rcv_wnd established_pcb <= BUF_SIZE
   /\ 5 <= Z.of_nat (length hello))
  /\ exists pcb',
       tcp_segment_arrives 0 seg flags hello 5 host_endpoint peer_endpoint
         established_table
       = Some (<[0%nat := pcb']> established_table,
               [Emit {| o_seq := 5556; o_ack := 1006; o_flg := TCP_FLG_ACK;
                        o_wnd := 65530; o_data := [];
                        o_local := host_endpoint;
                        o_foreign := peer_endpoint |};
                Wakeup 0])
       /\ pending pcb' = hello.
Proof.
  intros seg flags.
  assert (H1 : state established_pcb = TCP_PCB_STATE_ESTABLISHED)
    by reflexivity.
  assert (H2 : seq_acceptable established_pcb seg = true)
    by (vm_compute; reflexivity).
  assert (H3 : TCP_FLG_ISSET flags TCP_FLG_ACK = true) by reflexivity.
  assert (H4 : seg_ack seg <= snd_nxt established_pcb) by (simpl; lia).
  assert (H5 : 0 < 5 <= rcv_wnd established_pcb) by (simpl; lia).
  assert (H6 : rcv_wnd established_pcb <= BUF_SIZE)
    by (unfold BUF_SIZE; simpl; lia).
  assert (H7 : 5 <= Z.of_nat (length hello)) by (simpl; lia).
  split; [split; [exact established_table_select|done]|].
  destruct (arrives_established_text 0 seg flags hello 5 host_endpoint
              peer_endpoint established_table 0%nat established_pcb
              established_table_select H1 H2 H3 H4 H5 H6 H7)
    as (pcb' & Hr & Hp & _).
  exists pcb'. split; [exact Hr|]. rewrite Hp. reflexivity.
Defined.

(** X12.  [tcp_receive] on an ESTABLISHED PCB with bytes waiting hands out
    the first min(size, waiting) of them, in order, and leaves the others
    waiting, in order. *)
Theorem tcp_receive_queue id size sleeps pcbs i pcb :
  tcp_pcb_get id pcbs = Some (i, pcb) ->
  state pcb = TCP_PCB_STATE_ESTABLISHED ->
  0 <= rcv_wnd pcb < BUF_SIZE ->
  0 <= size ->
  let n := Z.min size (Z.of_nat (length (pending pcb))) in
  exists pcb',
    tcp_receive id size sleeps pcbs
    = (ReceiveOk n (take (Z.to_nat n) (pending pcb)), <[i := pcb']> pcbs)
    /\ pending pcb' = drop (Z.to_nat n) (pending pcb)
    /\ rcv_wnd pcb' = rcv_wnd pcb + n
    /\ state pcb' = TCP_PCB_STATE_ESTABLISHED
    /\ rcv_nxt pcb' = rcv_nxt pcb.
Proof.
  intros Hget Hs Hw Hsize n.
  destruct (tcp_pcb_get_lookup _ _ _ _ Hget) as [Hl _].
  assert (Hn : n = Z.min size (BUF_SIZE - rcv_wnd pcb)).
  { subst n. rewrite pending_length. lia. }
  unfold tcp_receive. rewrite Hget.
  rewrite (tcp_receive_retry_unfold i size sleeps pcbs pcb Hl Hs).
  cbv zeta. rewrite <- Hn.
  destruct (Z.eqb_spec (BUF_SIZE - rcv_wnd pcb) 0); [lia|].
  assert (Hwrap : wrap16 (rcv_wnd pcb + n) = rcv_wnd pcb + n).
  { apply Z.mod_small. unfold BUF_SIZE in *. lia. }
  destruct (pending_take_drop (buf pcb) (BUF_SIZE - rcv_wnd pcb) n)
    as [Ht Hd]; [lia|].
  eexists. split; [|split; [|split; [|split]]].
  - unfold pending. rewrite <- Ht. reflexivity.
  - unfold pending. simpl. rewrite Hwrap.
    replace (BUF_SIZE - (rcv_wnd pcb + n))
      with (BUF_SIZE - rcv_wnd pcb - n) by lia.
    exact Hd.
  - simpl. exact Hwrap.
  - done.
  - done.
Qed.

Lemma tcp_receive_queue_witness :
  (tcp_pcb_get 0 hello_table = Some (0%nat, hello_pcb)
   /\ state hello_pcb = TCP_PCB_STATE_ESTABLISHED
   /\ 0 <= rcv_wnd hello_pcb < BUF_SIZE
   /\ 0 <= 3)
  /\ exists pcb',
       tcp_receive 0 3 [] hello_table
       = (ReceiveOk 3 [104; 101; 108], <[0%nat := pcb']> hello_table)
       /\ pending pcb' = [108; 111].
Proof.
  assert (H1 : state hello_pcb = TCP_PCB_STATE_ESTABLISHED) by reflexivity.
  assert (H2 : 0 <= rcv_wnd hello_pcb < BUF_SIZE)
    by (vm_compute; split; congruence).
  assert (H3 : 0 <= 3) by lia.
  split; [split; [exact hello_table_get|done]|].
  destruct (tcp_receive_queue 0 3 [] hello_table 0%nat hello_pcb
              hello_table_get H1 H2 H3) as (pcb' & Hr & Hp & _).
  exists pcb'. split.
  - rewrite Hr. vm_compute. reflexivity.
  - rewrite Hp. vm_compute. reflexivity.
Defined.

(** X13.  Text that arrives on an ESTABLISHED connection is what the next
    [tcp_receive] with room for it returns, after the bytes that were
    waiting before; the window is then fully open again. *)
Theorem arrives_then_receive rnd seg flags data len loc fgn size sleeps
    pcbs i pcb :
  length pcbs = TCP_PCB_SIZE ->
  tcp_pcb_select loc (Some fgn) pcbs = Some (i, pcb) ->
  state pcb = TCP_PCB_STATE_ESTABLISHED ->
  seq_acceptable pcb seg = true ->
  TCP_FLG_ISSET flags TCP_FLG_ACK = true ->
  seg_ack seg <= snd_nxt pcb ->
  0 < len <= rcv_wnd pcb -> rcv_wnd pcb <= BUF_SIZE ->
  len <= Z.of_nat (length data) ->
  BUF_SIZE - rcv_wnd pcb + len <= size ->
  exists pcbs1 evs pcbs2 pcb2,
    tcp_segment_arrives rnd seg flags data len loc fgn pcbs
    = Some (pcbs1, evs)
    /\ tcp_receive (Z.of_nat i) size sleeps pcbs1
       = (ReceiveOk (BUF_SIZE - rcv_wnd pcb + len)
                    (pending pcb ++ take (Z.to_nat len) data), pcbs2)
    /\ pcbs2 !! i = Some pcb2
    /\ rcv_wnd pcb2 = BUF_SIZE
    /\ pending pcb2 = []
    /\ rcv_nxt pcb2 = wrap32 (seg_seq seg + seg_len seg).
Proof.
  intros Hlen16 Hsel Hs Hacc Hack Hnxt Hlen Hwnd Hdata Hsize.
  pose proof (tcp_pcb_select_lookup _ _ _ _ _ Hsel) as Hl.
  assert (Hi : (i < TCP_PCB_SIZE)%nat).
  { rewrite <- Hlen16. by eapply lookup_lt_Some. }
  rewrite (tcp_segment_arrives_otherwise _ _ _ _ _ _ _ _ _ _ Hsel)
    by (rewrite Hs; discriminate).
  rewrite arrives_otherwise_passed by tauto.
  unfold ack_processing. rewrite Hs.
  destruct (ack_established_cases seg pcb)
    as (fl & pcb1 & evs & -> & E1 & E2 & E3 & E4 & E5 & E6 & E7 & E8 & E9
        & _ & _ & _ & _ & _ & _ & Hfl).
  destruct Hfl as [[-> ->]|(_ & _ & _ & Hlt & _)]; [|lia].
  destruct (text_processing_append i seg data len pcb1)
    as (pcb' & -> & Hp & Hw & Hn & Hst & _); try congruence.
  assert (Hp' : pending pcb' = pending pcb ++ take (Z.to_nat len) data).
  { rewrite Hp. unfold pending. by rewrite E7, E9. }
  assert (Hl' : <[i := pcb']> pcbs !! i = Some pcb').
  { apply list_lookup_insert_eq. by eapply lookup_lt_Some. }
  assert (Hget : tcp_pcb_get (Z.of_nat i) (<[i := pcb']> pcbs)
                 = Some (i, pcb')).
  { apply tcp_pcb_get_some_nat; [done|done|]. rewrite Hst. discriminate. }
  set (n := BUF_SIZE - rcv_wnd pcb + len).
  assert (Hn' : Z.min size (BUF_SIZE - rcv_wnd pcb') = n) by (subst n; lia).
  assert (Hwrap : wrap16 (rcv_wnd pcb' + n) = BUF_SIZE).
  { replace (rcv_wnd pcb' + n) with BUF_SIZE by (subst n; lia).
    reflexivity. }
  destruct (pending_take_drop (buf pcb') (BUF_SIZE - rcv_wnd pcb') n)
    as [Ht Hd]; [subst n; lia|].
  do 4 eexists. split; [reflexivity|].
  unfold tcp_receive. rewrite Hget.
  rewrite (tcp_receive_retry_unfold i size sleeps _ pcb' Hl' Hst).
  cbv zeta. rewrite Hn'.
  destruct (Z.eqb_spec (BUF_SIZE - rcv_wnd pcb') 0); [lia|].
  split; [|split; [|split; [|split]]].
  - rewrite <- Hp'. unfold pending.
    replace (BUF_SIZE - rcv_wnd pcb') with n by (subst n; lia).
    reflexivity.
  - apply list_lookup_insert_eq. rewrite length_insert.
    by eapply lookup_lt_Some.
  - simpl. exact Hwrap.
  - unfold pending. simpl. rewrite Hwrap.
    by rewrite Z.sub_diag.
  - simpl. exact Hn.
Qed.

Lemma arrives_then_receive_witness :
  let seg := mk_seg 1001 5556 5 4096 0 in
  let flags := Z.lor TCP_FLG_PSH TCP_FLG_ACK in
  (length established_table = TCP_PCB_SIZE
   /\ tcp_pcb_select host_endpoint (Some peer_endpoint) established_table
      = Some (0%nat, established_pcb)
   /\ state established_pcb = TCP_PCB_STATE_ESTABLISHED
   /\ seq_acceptable established_pcb seg = true
   /\ TCP_FLG_ISSET flags TCP_FLG_ACK = true
   /\ seg_ack seg <= snd_nxt established_pcb
   /\ 0 < 5 <= rcv_wnd established_pcb
   /\ rcv_wnd established_pcb <= BUF_SIZE
   /\ 5 <= Z.of_nat (length hello)
   /\ BUF_SIZE - rcv_wnd established_pcb + 5 <= 2048)
  /\ exists pcbs1 evs pcbs2,
       tcp_segment_arrives 0 seg flags hello 5 host_endpoint peer_endpoint
         established_table = Some (pcbs1, evs)
       /\ tcp_receive 0 2048 [] pcbs1 = (ReceiveOk 5 hello, pcbs2).
Proof.
  intros seg flags.
  assert (H0 : length established_table = TCP_PCB_SIZE)
    by (vm_compute; reflexivity).
  assert (H1 : state established_pcb = TCP_PCB_STATE_ESTABLISHED)
    by reflexivity.
  assert (H2 : seq_acceptable established_pcb seg = true)
    by (vm_compute; reflexivity).
  assert (H3 : TCP_FLG_ISSET flags TCP_FLG_ACK = true) by reflexivity.
  assert (H4 : seg_ack seg <= snd_nxt established_pcb) by (simpl; lia).
  assert (H5 : 0 < 5 <= rcv_wnd established_pcb) by (simpl; lia).
  assert (H6 : rcv_wnd established_pcb <= BUF_SIZE)
    by (unfold BUF_SIZE; simpl; lia).
  assert (H7 : 5 <= Z.of_nat (length hello)) by (simpl; lia).
  assert (H8 : BUF_SIZE - rcv_wnd established_pcb + 5 <= 2048)
    by (unfold BUF_SIZE; simpl; lia).
  split; [split; [done|split; [exact established_table_select|done]]|].
  destruct (arrives_then_receive 0 seg flags hello 5 host_endpoint
              peer_endpoint 2048 [] established_table 0%nat established_pcb
              H0 established_table_select H1 H2 H3 H4 H5 H6 H7 H8)
    as (pcbs1 & evs & pcbs2 & pcb2 & Ha & Hr & _).
  exists pcbs1, evs, pcbs2. split; [exact Ha|]. exact Hr.
Defined.

(** ** What segment arrival leaves alone *)

Lemma ack_processing_frame i seg loc fgn pcb fl pcb' evs :
  ack_processing i seg loc fgn pcb = (fl, pcb', evs) ->
  (state pcb' = state pcb
   \/ state pcb = TCP_PCB_STATE_SYN_RECEIVED
      /\ state pcb' = TCP_PCB_STATE_ESTABLISHED)
  /\ local pcb' = local pcb /\ foreign pcb' = foreign pcb
  /\ iss pcb' = iss pcb /\ irs pcb' = irs pcb
  /\ snd_nxt pcb' = snd_nxt pcb
  /\ Forall (fun e => match e with
                      | Emit _ => True
                      | Wakeup j => j = i
                      | Interrupt _ => False
                      end) evs.
Proof.
  unfold ack_processing. intros H.
  destruct (state pcb) eqn:Hs;
    try (injection H as <- <- <-; repeat split; auto).
  - destruct (ack_valid_syn_received pcb seg).
    + destruct (ack_established_cases seg
                  (set_state TCP_PCB_STATE_ESTABLISHED pcb))
        as (fl1 & pcb1 & evs1 & Ha & E1 & E2 & E3 & E4 & E5 & E6 & E7 & E8
            & _ & _ & _ & _ & _ & _ & _ & Hfl).
      rewrite Ha in H. injection H as <- <- <-.
      repeat split; try done.
      * right. split; [done|]. by rewrite E1.
      * constructor; [done|].
        destruct Hfl as [[_ ->]|(_ & -> & _)]; repeat constructor.
    + injection H as <- <- <-. repeat split; auto.
      repeat constructor.
  - destruct (ack_established_cases seg pcb)
      as (fl1 & pcb1 & evs1 & Ha & E1 & E2 & E3 & E4 & E5 & E6 & E7 & E8
          & _ & _ & _ & _ & _ & _ & _ & Hfl).
    rewrite Ha in H. injection H as <- <- <-.
    repeat split; try done; [left; congruence|].
    destruct Hfl as [[_ ->]|(_ & -> & _)]; repeat constructor.
Qed.

Lemma text_processing_frame i seg data len pcb pcb' evs :
  text_processing i seg data len pcb = Some (pcb', evs) ->
  state pcb' = state pcb
  /\ local pcb' = local pcb /\ foreign pcb' = foreign pcb
  /\ iss pcb' = iss pcb /\ irs pcb' = irs pcb
  /\ snd_nxt pcb' = snd_nxt pcb
  /\ Forall (fun e => match e with
                      | Emit _ => True
                      | Wakeup j => j = i
                      | Interrupt _ => False
                      end) evs.
Proof.
  unfold text_processing. intros H.
  destruct (state pcb) eqn:Hs;
    try (injection H as <- <-; repeat split; auto).
  destruct (negb (len =? 0)); [|injection H as <- <-; repeat split; auto].
  destruct (memcpy_into _ _ _ _); [|discriminate].
  injection H as <- <-. repeat split; try done.
  repeat constructor.
Qed.

Lemma arrives_otherwise_frame i seg flags data len loc fgn pcb pcb' evs :
  arrives_otherwise i seg flags data len loc fgn pcb = Some (pcb', evs) ->
  (state pcb' = state pcb
   \/ state pcb = TCP_PCB_STATE_SYN_RECEIVED
      /\ state pcb' = TCP_PCB_STATE_ESTABLISHED)
  /\ local pcb' = local pcb /\ foreign pcb' = foreign pcb
  /\ iss pcb' = iss pcb /\ irs pcb' = irs pcb
  /\ snd_nxt pcb' = snd_nxt pcb
  /\ Forall (fun e => match e with
                      | Emit _ => True
                      | Wakeup j => j = i
                      | Interrupt _ => False
                      end) evs.
Proof.
  unfold arrives_otherwise. intros H.
  destruct (negb _).
  { destruct (negb _); injection H as <- <-; repeat split; auto;
      repeat constructor. }
  destruct (negb _); [injection H as <- <-; repeat split; auto|].
  destruct (ack_processing i seg loc fgn pcb) as [[fl pcb1] evs1] eqn:Ha.
  destruct (ack_processing_frame _ _ _ _ _ _ _ _ Ha)
    as (A1 & A2 & A3 & A4 & A5 & A6 & A7).
  destruct fl.
  - destruct (text_processing i seg data len pcb1) as [[pcb2 evs2]|] eqn:Ht;
      [|discriminate].
    injection H as <- <-.
    destruct (text_processing_frame _ _ _ _ _ _ _ Ht)
      as (T1 & T2 & T3 & T4 & T5 & T6 & T7).
    destruct A1 as [A1|[A1 A1']];
      (split; [first [left; congruence|right; split; congruence]|]);
      repeat split; try congruence; apply Forall_app; by split.
  - injection H as <- <-. repeat split; done.
Qed.

(** ** Bytes, byte order and the checksum *)

Lemma land_shiftl_small hi lo k :
  0 <= k -> 0 <= lo < 2 ^ k -> Z.land (Z.shiftl hi k) lo = 0.
Proof.
  intros Hk Hlo. apply Z.bits_inj'. intros n Hn.
  rewrite Z.land_spec, Z.bits_0.
  destruct (Z.ltb_spec n k).
  - by rewrite Z.shiftl_spec_low by lia.
  - destruct (Z.eq_dec lo 0) as [->|];
      [by rewrite Z.bits_0, andb_false_r|].
    rewrite (Z.bits_above_log2 lo n); [apply andb_false_r|lia|].
    assert (Z.log2 lo < k) by (apply Z.log2_lt_pow2; lia). lia.
Qed.

Lemma lor_shiftl_small hi lo k :
  0 <= k -> 0 <= lo < 2 ^ k -> Z.lor (Z.shiftl hi k) lo = hi * 2 ^ k + lo.
Proof.
  intros Hk Hlo.
  pose proof (Z.add_lor_land (Z.shiftl hi k) lo) as H.
  rewrite land_shiftl_small in H by done.
  rewrite Z.shiftl_mul_pow2 in * by done. lia.
Qed.

Lemma land_0xff x : Z.land x 0xff = x mod 256.
Proof. change 0xff with (Z.ones 8). by rewrite Z.land_ones. Qed.

Lemma byteswap16_arith x :
  byteswap16 x = (x mod 256) * 256 + (x / 256) mod 256.
Proof.
  unfold byteswap16. rewrite !land_0xff, Z.shiftr_div_pow2 by lia.
  rewrite lor_shiftl_small; [done|lia|].
  change (2 ^ 8) with 256. apply Z.mod_pos_bound. lia.
Qed.

Lemma byteswap32_arith x :
  byteswap32 x
  = (x mod 256) * 16777216 + ((x / 256) mod 256) * 65536
    + ((x / 65536) mod 256) * 256 + (x / 16777216) mod 256.
Proof.
  unfold byteswap32. rewrite !land_0xff, !Z.shiftr_div_pow2 by lia.
  change (2 ^ 8) with 256. change (2 ^ 16) with 65536.
  change (2 ^ 24) with 16777216.
  pose proof (Z.mod_pos_bound (x / 256) 256 ltac:(lia)).
  pose proof (Z.mod_pos_bound (x / 65536) 256 ltac:(lia)).
  pose proof (Z.mod_pos_bound (x / 16777216) 256 ltac:(lia)).
  pose proof (Z.mod_pos_bound x 256 ltac:(lia)).
  rewrite (lor_shiftl_small _ (x / 16777216 mod 256)) by lia.
  rewrite (lor_shiftl_small (x mod 256)
             (Z.shiftl (x / 256 mod 256) 16))
    by (rewrite ?Z.shiftl_mul_pow2 by lia; lia).
  rewrite (Z.shiftl_mul_pow2 (x / 256 mod 256)) by lia.
  replace (x mod 256 * 2 ^ 24 + x / 256 mod 256 * 2 ^ 16)
    with (Z.shiftl (x mod 256 * 256 + x / 256 mod 256) 16)
    by (rewrite Z.shiftl_mul_pow2 by lia; lia).
  rewrite lor_shiftl_small by lia. lia.
Qed.

Lemma byteswap16_u16 x : is_u16 (byteswap16 x).
Proof.
  rewrite byteswap16_arith. unfold is_u16.
  pose proof (Z.mod_pos_bound (x / 256) 256 ltac:(lia)).
  pose proof (Z.mod_pos_bound x 256 ltac:(lia)). lia.
Qed.

Lemma byteswap32_u32 x : is_u32 (byteswap32 x).
Proof.
  rewrite byteswap32_arith. unfold is_u32.
  pose proof (Z.mod_pos_bound (x / 256) 256 ltac:(lia)).
  pose proof (Z.mod_pos_bound (x / 65536) 256 ltac:(lia)).
  pose proof (Z.mod_pos_bound (x / 16777216) 256 ltac:(lia)).
  pose proof (Z.mod_pos_bound x 256 ltac:(lia)). lia.
Qed.

Lemma byteswap16_involutive x : is_u16 x -> byteswap16 (byteswap16 x) = x.
Proof.
  unfold is_u16. intros H. rewrite !byteswap16_arith.
  Z.div_mod_to_equations. lia.
Qed.

Lemma byteswap32_involutive x : is_u32 x -> byteswap32 (byteswap32 x) = x.
Proof.
  unfold is_u32. intros H. rewrite (byteswap32_arith (byteswap32 x)).
  rewrite byteswap32_arith.
  set (b0 := x mod 256). set (b1 := x / 256 mod 256).
  set (b2 := x / 65536 mod 256). set (b3 := x / 16777216 mod 256).
  assert (H0 : 0 <= b0 < 256) by (apply Z.mod_pos_bound; lia).
  assert (H1 : 0 <= b1 < 256) by (apply Z.mod_pos_bound; lia).
  assert (H2 : 0 <= b2 < 256) by (apply Z.mod_pos_bound; lia).
  assert (H3 : 0 <= b3 < 256) by (apply Z.mod_pos_bound; lia).
  assert (Hx : x = b0 + 256 * b1 + 65536 * b2 + 16777216 * b3).
  { subst b0 b1 b2 b3. Z.div_mod_to_equations. lia. }
  clearbody b0 b1 b2 b3. subst x.
  Z.div_mod_to_equations. lia.
Qed.

Lemma ntoh16_hton16 be x : is_u16 x -> ntoh16 be (hton16 be x) = x.
Proof.
  unfold hton16, ntoh16. destruct be; [done|]. apply byteswap16_involutive.
Qed.

Lemma ntoh32_hton32 be x : is_u32 x -> ntoh32 be (hton32 be x) = x.
Proof.
  unfold hton32, ntoh32. destruct be; [done|]. apply byteswap32_involutive.
Qed.

Lemma hton16_u16 be x : is_u16 x -> is_u16 (hton16 be x).
Proof.
  unfold hton16, ntoh16. destruct be; [done|]. intros _.
  apply byteswap16_u16.
Qed.

Lemma hton32_u32 be x : is_u32 x -> is_u32 (hton32 be x).
Proof.
  unfold hton32, ntoh32. destruct be; [done|]. intros _.
  apply byteswap32_u32.
Qed.

(** A [uint16_t] / [uint32_t] stored and read back. *)
Lemma bytes_of_u16_load be n :
  is_u16 n ->
  exists b0 b1,
    bytes_of_u16 be n = [b0; b1] /\ is_u8 b0 /\ is_u8 b1
    /\ load16 be b0 b1 = n.
Proof.
  unfold is_u16, is_u8, bytes_of_u16, load16. intros H.
  destruct be; do 2 eexists; (split; [reflexivity|]);
    Z.div_mod_to_equations; lia.
Qed.

Lemma bytes_of_u32_load be n :
  is_u32 n ->
  exists b0 b1 b2 b3,
    bytes_of_u32 be n = [b0; b1; b2; b3]
    /\ is_u8 b0 /\ is_u8 b1 /\ is_u8 b2 /\ is_u8 b3
    /\ load32 be b0 b1 b2 b3 = n.
Proof.
  unfold is_u32, is_u8, bytes_of_u32, load32. intros H.
  destruct be; do 4 eexists; (split; [reflexivity|]);
    Z.div_mod_to_equations; lia.
Qed.

(** The carries of a 32-bit sum folded into 16 bits: zero stays zero,
    every other sum lands in 1 .. 0xffff. *)
Lemma fold_carries_canonical n s :
  0 <= s < 2 ^ 32 ->
  fold_carries (S (S (S n))) s
  = if s =? 0 then 0 else (s - 1) mod 65535 + 1.
Proof.
  intros H.
  assert (Hstep : forall t, Z.land t 0xffff + Z.shiftr t 16
                            = t mod 65536 + t / 65536).
  { intros t. change 0xffff with (Z.ones 16).
    rewrite Z.land_ones, Z.shiftr_div_pow2 by lia. reflexivity. }
  cbn [fold_carries]. rewrite !Hstep, !Z.shiftr_div_pow2 by lia.
  change (2 ^ 16) with 65536.
  set (s1 := s mod 65536 + s / 65536).
  set (s2 := s1 mod 65536 + s1 / 65536).
  assert (H1 : s1 = s mod 65536 + s / 65536) by reflexivity.
  assert (H2 : s2 = s1 mod 65536 + s1 / 65536) by reflexivity.
  clearbody s1 s2.
  destruct (Z.eqb_spec s 0) as [->|Hs]; [reflexivity|].
  destruct (Z.eqb_spec (s / 65536) 0) as [E0|E0].
  { Z.div_mod_to_equations. lia. }
  destruct (Z.eqb_spec (s1 / 65536) 0) as [E1|E1].
  { Z.div_mod_to_equations. lia. }
  destruct (Z.eqb_spec (s2 / 65536) 0) as [E2|E2];
    Z.div_mod_to_equations; lia.
Qed.

(** Adding the complement of the folded sum makes the folded sum 0xffff:
    a checksum computed over data with a zero checksum field verifies once
    it is installed. *)
Lemma fold_carries_complement s :
  0 <= s -> s + 65535 < 2 ^ 32 ->
  0xffff - fold_carries 32 (s + (0xffff - fold_carries 32 s)) = 0.
Proof.
  intros H0 H1.
  change 32%nat with (S (S (S 29))).
  rewrite (fold_carries_canonical 29 s) by lia.
  destruct (Z.eqb_spec s 0) as [->|Hs].
  { vm_compute. reflexivity. }
  assert (0 <= (s - 1) mod 65535 < 65535) by (apply Z.mod_pos_bound; lia).
  rewrite fold_carries_canonical by lia.
  destruct (Z.eqb_spec (s + (65535 - ((s - 1) mod 65535 + 1))) 0); [lia|].
  Z.div_mod_to_equations. lia.
Qed.

Lemma fold_carries_range s :
  0 <= s < 2 ^ 32 -> 0 <= fold_carries 32 s <= 65535.
Proof.
  intros H. change 32%nat with (S (S (S 29))).
  rewrite fold_carries_canonical by done.
  destruct (Z.eqb_spec s 0); [lia|].
  assert (0 <= (s - 1) mod 65535 < 65535) by (apply Z.mod_pos_bound; lia).
  lia.
Qed.

Lemma fold_left_add_init l a :
  fold_left Z.add l a = a + fold_left Z.add l 0.
Proof.
  revert a. induction l as [|x l IH]; intros a; simpl; [lia|].
  rewrite (IH (a + x)), (IH (0 + x)). lia.
Qed.

Lemma words16_app be l1 l2 :
  Nat.Even (length l1) -> words16 be (l1 ++ l2) = words16 be l1 ++ words16 be l2.
Proof.
  intros [k Hk]. revert l1 Hk. induction k as [|k IH]; intros l1 Hk.
  - destruct l1; [done|simpl in Hk; lia].
  - destruct l1 as [|a [|b l1]]; simpl in Hk; try lia.
    simpl. f_equal. apply IH. lia.
Qed.

Lemma words16_sum_bound be l :
  Forall is_u8 l ->
  0 <= fold_left Z.add (words16 be l) 0 <= 65535 * Z.of_nat (length l).
Proof.
  assert (H : forall n l, (length l <= n)%nat -> Forall is_u8 l ->
              0 <= fold_left Z.add (words16 be l) 0
              <= 65535 * Z.of_nat (length l)).
  { clear l. induction n as [|n IH]; intros l Hn Hl.
    - destruct l; [simpl; lia|simpl in Hn; lia].
    - destruct l as [|a [|b l]].
      + simpl. lia.
      + apply Forall_cons in Hl as [Ha _]. unfold is_u8 in Ha.
        simpl. unfold load16. destruct be; lia.
      + apply Forall_cons in Hl as [Ha Hl].
        apply Forall_cons in Hl as [Hb Hl].
        unfold is_u8 in Ha, Hb.
        cbn [words16 fold_left]. rewrite fold_left_add_init.
        specialize (IH l). simpl in Hn.
        assert (Hl' : (length l <= n)%nat) by lia.
        specialize (IH Hl' Hl). cbn [length].
        unfold load16. destruct be; lia. }
  intros Hl. by apply (H (length l)).
Qed.

Lemma fold_left_add_middle l1 x l2 init :
  fold_left Z.add (l1 ++ x :: l2) init
  = fold_left Z.add (l1 ++ 0 :: l2) init + x.
Proof.
  rewrite !fold_left_app. cbn [fold_left].
  rewrite (fold_left_add_init l2 (_ + x)), (fold_left_add_init l2 (_ + 0)).
  lia.
Qed.

(** A checksum computed over a range whose checksum field, at an even
    offset, holds zero verifies once it is stored in that field. *)
Lemma cksum16_installed be pre post init :
  Nat.Even (length pre) ->
  Forall is_u8 pre -> Forall is_u8 post ->
  0 <= init <= 65535 ->
  Z.of_nat (length pre + 2 + length post) <= 65535 ->
  let n := Z.of_nat (length pre + 2 + length post) in
  let c := cksum16 be (pre ++ bytes_of_u16 be 0 ++ post) n init in
  is_u16 c /\ cksum16 be (pre ++ bytes_of_u16 be c ++ post) n init = 0.
Proof.
  intros Heven Hpre Hpost Hinit Hlen n c.
  assert (Hwords : forall x, is_u16 x ->
    fold_left Z.add
      (words16 be (take (Z.to_nat n) (pre ++ bytes_of_u16 be x ++ post)))
      init
    = fold_left Z.add (words16 be pre ++ 0 :: words16 be post) init + x).
  { intros x Hx.
    destruct (bytes_of_u16_load be x Hx) as (b0 & b1 & Hb & _ & _ & Hload).
    rewrite take_ge.
    2:{ rewrite !length_app, Hb. subst n. simpl. lia. }
    rewrite words16_app by done. rewrite Hb. cbn [app words16].
    rewrite Hload. apply fold_left_add_middle. }
  set (s0 := fold_left Z.add (words16 be pre ++ 0 :: words16 be post) init).
  assert (Hs0 : 0 <= s0 /\ s0 + 65535 < 2 ^ 32).
  { subst s0. rewrite fold_left_app. cbn [fold_left].
    rewrite (fold_left_add_init (words16 be post)).
    rewrite (fold_left_add_init (words16 be pre)).
    pose proof (words16_sum_bound be pre Hpre).
    pose proof (words16_sum_bound be post Hpost). nia. }
  assert (Hc : c = 0xffff - fold_carries 32 s0).
  { subst c. unfold cksum16. rewrite Hwords by (unfold is_u16; lia).
    fold s0. by rewrite Z.add_0_r. }
  assert (Hcu : is_u16 c).
  { rewrite Hc. pose proof (fold_carries_range s0 ltac:(lia)).
    unfold is_u16. lia. }
  split; [done|].
  unfold cksum16. rewrite Hwords by done. fold s0. rewrite Hc.
  apply fold_carries_complement; lia.
Qed.

Lemma tcp_hdr_bytes_sum be seq ack flg wnd sum loc fgn :
  tcp_hdr_bytes be seq ack flg wnd sum loc fgn
  = take 16 (tcp_hdr_bytes be seq ack flg wnd 0 loc fgn)
    ++ bytes_of_u16 be sum ++ bytes_of_u16 be 0.
Proof. destruct be; reflexivity. Qed.

Lemma tcp_hdr_bytes_pre be seq ack flg wnd loc fgn :
  is_u8 flg ->
  length (take 16 (tcp_hdr_bytes be seq ack flg wnd 0 loc fgn)) = 16%nat
  /\ Forall is_u8 (take 16 (tcp_hdr_bytes be seq ack flg wnd 0 loc fgn)).
Proof.
  intros Hflg. split; [by destruct be|].
  assert (Hm : forall x, is_u8 (x mod 256)).
  { intros x. apply Z.mod_pos_bound. lia. }
  destruct be;
    cbn [tcp_hdr_bytes bytes_of_u16 bytes_of_u32 app take];
    repeat (apply Forall_cons; split); try apply Forall_nil;
    try apply Hm; try done.
Qed.

(** The fields [tcp_input] reads back from a header written by
    [tcp_output_segment]. *)
Lemma tcp_hdr_bytes_fields be seq ack flg wnd sum loc fgn payload :
  is_u32 seq -> is_u32 ack -> is_u16 wnd -> is_u16 sum ->
  is_u16 (port loc) -> is_u16 (port fgn) ->
  let b := byte_at (tcp_hdr_bytes be seq ack flg wnd sum loc fgn ++ payload) in
  load16 be (b 0%nat) (b 1%nat) = port loc
  /\ load16 be (b 2%nat) (b 3%nat) = port fgn
  /\ load32 be (b 4%nat) (b 5%nat) (b 6%nat) (b 7%nat) = hton32 be seq
  /\ load32 be (b 8%nat) (b 9%nat) (b 10%nat) (b 11%nat) = hton32 be ack
  /\ b 12%nat = 80
  /\ b 13%nat = flg
  /\ load16 be (b 14%nat) (b 15%nat) = hton16 be wnd
  /\ load16 be (b 18%nat) (b 19%nat) = 0
  /\ drop 20 (tcp_hdr_bytes be seq ack flg wnd sum loc fgn ++ payload)
     = payload
  /\ length (tcp_hdr_bytes be seq ack flg wnd sum loc fgn ++ payload)
     = (20 + length payload)%nat.
Proof.
  intros Hseq Hack Hwnd Hsum Hpl Hpf.
  destruct (bytes_of_u16_load be _ Hpl) as (l0 & l1 & El & _ & _ & Ll).
  destruct (bytes_of_u16_load be _ Hpf) as (f0 & f1 & Ef & _ & _ & Lf).
  destruct (bytes_of_u32_load be _ (hton32_u32 be _ Hseq))
    as (s0 & s1 & s2 & s3 & Es & _ & _ & _ & _ & Ls).
  destruct (bytes_of_u32_load be _ (hton32_u32 be _ Hack))
    as (a0 & a1 & a2 & a3 & Ea & _ & _ & _ & _ & La).
  destruct (bytes_of_u16_load be _ (hton16_u16 be _ Hwnd))
    as (w0 & w1 & Ew & _ & _ & Lw).
  destruct (bytes_of_u16_load be _ Hsum) as (c0 & c1 & Ec & _ & _ & _).
  assert (H0 : is_u16 0) by (unfold is_u16; lia).
  destruct (bytes_of_u16_load be _ H0) as (u0 & u1 & Eu & _ & _ & Lu).
  unfold tcp_hdr_bytes. rewrite El, Ef, Es, Ea, Ew, Ec, Eu.
  cbv zeta. cbn [app byte_at lookup list_lookup default drop length].
  repeat split; done.
Qed.

(** X15.  The bytes [tcp_output_segment] hands to [ip_output] pass the
    length and checksum tests of [tcp_input] when they are delivered with
    the same source and destination address, and [tcp_input] calls
    [tcp_segment_arrives] with the sequence number, acknowledgment number,
    flags, window and payload the sender gave, a 20-byte header, and the
    sender's endpoints exchanged. *)
Theorem tcp_output_segment_input be payload_max seq ack flg wnd data len
    loc fgn bytes :
  is_u32 seq -> is_u32 ack -> is_u8 flg -> is_u16 wnd ->
  is_u16 (port loc) -> is_u16 (port fgn) ->
  Forall is_u8 data ->
  0 <= len -> TCP_HDR_SIZE + len <= 65535 ->
  addr loc <> IP_ADDR_BROADCAST -> addr fgn <> IP_ADDR_BROADCAST ->
  tcp_output_segment_bytes be payload_max seq ack flg wnd data len loc fgn
  = Some bytes ->
  tcp_input_args be bytes (addr loc) (addr fgn)
  = Some (mk_arrival
            (mk_seg seq ack
               (len + (if TCP_FLG_ISSET flg TCP_FLG_SYN then 1 else 0)
                    + (if TCP_FLG_ISSET flg TCP_FLG_FIN then 1 else 0))
               wnd 0)
            flg TCP_HDR_SIZE (take (Z.to_nat len) data) len
            (mk_endpoint (addr fgn) (port fgn))
            (mk_endpoint (addr loc) (port loc))).
Proof.
  intros Hseq Hack Hflg Hwnd Hpl Hpf Hdata Hlen0 Hlen Hnbl Hnbf.
  unfold tcp_output_segment_bytes, TCP_HDR_SIZE in *.
  destruct ((20 + len <=? payload_max) && (len <=? Z.of_nat (length data)))
    eqn:Hfit; [|discriminate].
  apply andb_true_iff in Hfit as [_ Hfit]. apply Z.leb_le in Hfit.
  assert (Htotal : wrap16 (len + 20) = len + 20)
    by (apply Z.mod_small; lia).
  rewrite Htotal. cbv zeta.
  set (payload := take (Z.to_nat len) data).
  assert (Hpay : length payload = Z.to_nat len).
  { subst payload. rewrite length_take. lia. }
  assert (Hpay8 : Forall is_u8 payload) by (by apply Forall_take).
  set (psum := wrap16 (Z.lnot (cksum16 be (pseudo_hdr_bytes be (addr loc)
                                              (addr fgn) (len + 20)) 12 0))).
  assert (Hpsum : 0 <= psum <= 65535).
  { subst psum. unfold wrap16.
    pose proof (Z.mod_pos_bound
      (Z.lnot (cksum16 be (pseudo_hdr_bytes be (addr loc) (addr fgn)
                             (len + 20)) 12 0)) (2 ^ 16) ltac:(lia)).
    lia. }
  destruct (tcp_hdr_bytes_pre be seq ack flg wnd loc fgn Hflg)
    as [Hprelen Hpre8].
  set (pre := take 16 (tcp_hdr_bytes be seq ack flg wnd 0 loc fgn)) in *.
  assert (Hpost8 : Forall is_u8 (bytes_of_u16 be 0 ++ payload)).
  { apply Forall_app. split; [|done].
    destruct (bytes_of_u16_load be 0) as (u0 & u1 & -> & Hu0 & Hu1 & _);
      [unfold is_u16; lia|].
    apply Forall_cons; split; [done|].
    apply Forall_cons; split; [done|]. by apply Forall_nil. }
  assert (Hn : Z.of_nat (length pre + 2
                         + length (bytes_of_u16 be 0 ++ payload))
               = len + 20).
  { rewrite length_app, Hprelen, Hpay. destruct be; simpl; lia. }
  pose proof (cksum16_installed be pre (bytes_of_u16 be 0 ++ payload) psum)
    as Hck.
  rewrite Hn in Hck. cbv zeta in Hck.
  assert (Hzero : tcp_hdr_bytes be seq ack flg wnd 0 loc fgn ++ payload
                  = pre ++ bytes_of_u16 be 0 ++ bytes_of_u16 be 0 ++ payload).
  { rewrite tcp_hdr_bytes_sum. fold pre. by rewrite <- !app_assoc. }
  rewrite <- Hzero in Hck.
  set (sum := cksum16 be (tcp_hdr_bytes be seq ack flg wnd 0 loc fgn
                            ++ payload) (len + 20) psum) in *.
  destruct Hck as [Hsum Hverify]; [by exists 8%nat|done|done|done|lia|].
  assert (Hinst : tcp_hdr_bytes be seq ack flg wnd sum loc fgn ++ payload
                  = pre ++ bytes_of_u16 be sum ++ bytes_of_u16 be 0
                    ++ payload).
  { rewrite tcp_hdr_bytes_sum. fold pre. by rewrite <- !app_assoc. }
  rewrite <- Hinst in Hverify.
  destruct (tcp_hdr_bytes_fields be seq ack flg wnd sum loc fgn payload
              Hseq Hack Hwnd Hsum Hpl Hpf)
    as (F0 & F1 & F2 & F3 & F4 & F5 & F6 & F7 & F8 & F9).
  intros [= <-].
  rewrite take_ge by (rewrite F9, Hpay; lia).
  unfold tcp_input_args, TCP_HDR_SIZE. rewrite F9, Hpay.
  replace (Z.of_nat (20 + Z.to_nat len)) with (len + 20) by lia.
  destruct (Z.ltb_spec (len + 20) 20); [lia|].
  fold psum. rewrite Hverify. cbn [Z.eqb negb].
  destruct (Z.eqb_spec (addr loc) IP_ADDR_BROADCAST); [done|].
  destruct (Z.eqb_spec (addr fgn) IP_ADDR_BROADCAST); [done|].
  cbn [orb]. cbv zeta.
  rewrite F0, F1, F2, F3, F4, F5, F6, F7.
  change (wrap16 (Z.shiftl (Z.shiftr 80 4) 2)) with 20.
  change (Z.to_nat 20) with 20%nat. rewrite F8.
  rewrite ntoh32_hton32, ntoh32_hton32, ntoh16_hton16 by done.
  replace (len + 20 - 20) with len by lia.
  assert (Hw0 : wrap16 len = len) by (apply Z.mod_small; lia).
  assert (Hw1 : wrap16 (len + 1) = len + 1) by (apply Z.mod_small; lia).
  assert (Hw2 : wrap16 (len + 1 + 1) = len + 1 + 1)
    by (apply Z.mod_small; lia).
  assert (Hws : wrap_size len = len)
    by (apply Z.mod_small; lia).
  assert (Hup : ntoh16 be 0 = 0) by (by destruct be).
  rewrite Hw0, Hws, Hup.
  destruct (TCP_FLG_ISSET flg TCP_FLG_SYN), (TCP_FLG_ISSET flg TCP_FLG_FIN);
    rewrite ?Hw1, ?Hw2, ?Hw1, ?Z.add_0_r; reflexivity.
Qed.

Lemma tcp_output_segment_input_witness :
  exists bytes,
    tcp_output_segment_bytes false 65515 5556 1006
      (Z.lor TCP_FLG_PSH TCP_FLG_ACK) 65530 hello 5
      host_endpoint peer_endpoint = Some bytes
    /\ length bytes = 25%nat
    /\ tcp_input_args false bytes (addr host_endpoint) (addr peer_endpoint)
       = Some (mk_arrival (mk_seg 5556 1006 5 65530 0)
                 (Z.lor TCP_FLG_PSH TCP_FLG_ACK) 20 hello 5
                 peer_endpoint host_endpoint).
Proof.
  eexists. split; [vm_compute; reflexivity|]. split; [reflexivity|].
  apply (tcp_output_segment_input false 65515 5556 1006
           (Z.lor TCP_FLG_PSH TCP_FLG_ACK) 65530 hello 5
           host_endpoint peer_endpoint).
  - unfold is_u32. lia.
  - unfold is_u32. lia.
  - unfold is_u8. split; [vm_compute; discriminate|vm_compute; reflexivity].
  - unfold is_u16. lia.
  - unfold is_u16. split; [vm_compute; discriminate|vm_compute; reflexivity].
  - unfold is_u16. split; [vm_compute; discriminate|vm_compute; reflexivity].
  - unfold hello.
    repeat (apply Forall_cons; split; [unfold is_u8; lia|]).
    by apply Forall_nil.
  - lia.
  - unfold TCP_HDR_SIZE. lia.
  - vm_compute. discriminate.
  - vm_compute. discriminate.
  - vm_compute. reflexivity.
Defined.

(** ** Passive open *)

Lemma tcp_open_listen_slot loc fgn pcbs i pcbs' :
  tcp_open_listen loc fgn pcbs = Some (i, pcbs') ->
  exists pcb, pcbs' !! i = Some pcb /\ state pcb = TCP_PCB_STATE_LISTEN
              /\ local pcb = loc
              /\ length pcbs' = length pcbs.
Proof.
  unfold tcp_open_listen. intros H.
  destruct (tcp_pcb_alloc pcbs) as [[j pcbs1]|] eqn:Ha; [|discriminate].
  destruct (pcbs1 !! j) as [pcb|] eqn:Hl; [|discriminate].
  injection H as <- <-.
  unfold tcp_pcb_alloc in Ha.
  destruct (tcp_pcb_alloc_from_spec _ _ _ _ Ha) as (k & p & Hj & Hk & Hp & ->).
  eexists. split.
  - apply list_lookup_insert_eq. by eapply lookup_lt_Some.
  - split; [by destruct fgn|]. split; [by destruct fgn|].
    rewrite !length_insert. done.
Qed.

Lemma tcp_abort_slot busy i pcbs pcb :
  pcbs !! i = Some pcb ->
  exists pcbs',
    tcp_abort busy i pcbs
    = (pcbs', if busy then [Wakeup i] else [])
    /\ pcbs' !! i = Some (if busy then set_state TCP_PCB_STATE_CLOSED pcb
                          else pcb_zero)
    /\ length pcbs' = length pcbs.
Proof.
  intros Hl. unfold tcp_abort, tcp_pcb_release. rewrite Hl.
  pose proof (lookup_lt_Some _ _ _ Hl) as Hlt.
  destruct busy; eexists; (split; [reflexivity|]);
    rewrite ?length_insert; (split; [|done]);
    apply list_lookup_insert_eq; by rewrite ?length_insert.
Qed.

Lemma tcp_open_wait_ok busy i state0 sleeps pcbs id pcbs' evs :
  tcp_open_wait busy i state0 sleeps pcbs = (OpenOk id, pcbs', evs) ->
  evs = [] /\ id = Z.of_nat i
  /\ exists pcb, pcbs' !! i = Some pcb
                 /\ state pcb = TCP_PCB_STATE_ESTABLISHED.
Proof.
  revert state0 pcbs. induction sleeps as [|[[|] env] rest IH];
    intros state0 pcbs H; simpl in H.
  - discriminate.
  - destruct (env pcbs !! i) as [pcb|] eqn:Hl; [|discriminate].
    destruct (pcb_state_eqb (state pcb) state0); [by eapply IH|].
    destruct (state pcb) eqn:Hs;
      try (destruct (tcp_abort busy i (env pcbs)); discriminate).
    + by eapply IH.
    + injection H as <- <- <-. split; [done|]. split; [done|].
      by exists pcb.
  - destruct (tcp_abort busy i (env pcbs)). discriminate.
Qed.

(** X16.  When [tcp_open_rfc793] returns an id, the open was passive and
    the id is the slot that [tcp_pcb_alloc] handed out, that PCB is
    ESTABLISHED on return, and the call itself emitted no segment and
    posted no wakeup. *)
Theorem tcp_open_rfc793_ok busy loc fgn active sleeps pcbs id pcbs' evs :
  tcp_open_rfc793 busy loc fgn active sleeps pcbs = (OpenOk id, pcbs', evs) ->
  active = false /\ evs = []
  /\ exists i pcbs0 pcb,
       id = Z.of_nat i
       /\ tcp_open_listen loc fgn pcbs = Some (i, pcbs0)
       /\ pcbs' !! i = Some pcb
       /\ state pcb = TCP_PCB_STATE_ESTABLISHED.
Proof.
  unfold tcp_open_rfc793. intros H. destruct active.
  { destruct (tcp_pcb_alloc pcbs) as [[i pcbs1]|]; [|discriminate].
    destruct (tcp_pcb_release busy i pcbs1). discriminate. }
  destruct (tcp_open_listen loc fgn pcbs) as [[i pcbs0]|]; [|discriminate].
  destruct (tcp_open_wait_ok _ _ _ _ _ _ _ _ H) as (-> & -> & pcb & Hl & Hs).
  split; [done|]. split; [done|]. by exists i, pcbs0, pcb.
Qed.

Lemma tcp_open_rfc793_ok_witness :
  let syn := fun p => after (tcp_segment_arrives 5555 (mk_seg 1000 0 1 4096 0)
                               TCP_FLG_SYN [] 0 host_endpoint peer_endpoint p) in
  let ack := fun p => after (tcp_segment_arrives 0 (mk_seg 1001 5556 0 4096 0)
                               TCP_FLG_ACK [] 0 host_endpoint peer_endpoint p) in
  tcp_open_rfc793 false listen_endpoint None false
    [(SleepWoken, syn); (SleepWoken, ack)] pcbs_init
  = (OpenOk 0, established_table, [])
  /\ exists pcb, established_table !! 0%nat = Some pcb
                 /\ state pcb = TCP_PCB_STATE_ESTABLISHED.
Proof.
  intros syn ack.
  assert (H : tcp_open_rfc793 false listen_endpoint None false
                [(SleepWoken, syn); (SleepWoken, ack)] pcbs_init
              = (OpenOk 0, established_table, []))
    by (vm_compute; reflexivity).
  split; [exact H|].
  destruct (tcp_open_rfc793_ok _ _ _ _ _ _ _ _ _ H)
    as (_ & _ & i & pcbs0 & pcb & Hi & _ & Hl & Hs).
  assert (i = 0%nat) as -> by lia. by exists pcb.
Defined.

Lemma tcp_open_wait_gives_up busy i state0 sleeps pcbs r pcbs' evs :
  Forall (fun s : sleep => forall p, length (s.2 p) = length p) sleeps ->
  (i < length pcbs)%nat ->
  tcp_open_wait busy i state0 sleeps pcbs = (r, pcbs', evs) ->
  r = OpenFail \/ r = OpenInterrupted ->
  evs = (if busy then [Wakeup i] else [])
  /\ exists pcb, pcbs' !! i = Some pcb
       /\ if busy then state pcb = TCP_PCB_STATE_CLOSED else pcb = pcb_zero.
Proof.
  intros Hlen. revert state0 pcbs.
  induction Hlen as [|[[|] env] rest Henv Hrest IH];
    intros state0 pcbs Hi H Hr; simpl in H.
  - injection H as <- <- <-. by destruct Hr.
  - simpl in Henv.
    assert (Hi' : (i < length (env pcbs))%nat) by (by rewrite Henv).
    destruct (lookup_lt_is_Some_2 _ _ Hi') as [pcb Hl]. rewrite Hl in H.
    destruct (pcb_state_eqb (state pcb) state0); [by eapply IH|].
    destruct (tcp_abort_slot busy i _ _ Hl) as (pcbs1 & Ha & Hl1 & _).
    destruct (state pcb) eqn:Hs;
      try (rewrite Ha in H; injection H as <- <- <-;
           split; [done|]; eexists; split; [exact Hl1|];
           by destruct busy).
    + by eapply IH.
    + injection H as <- <- <-. by destruct Hr.
  - simpl in Henv.
    assert (Hi' : (i < length (env pcbs))%nat) by (by rewrite Henv).
    destruct (lookup_lt_is_Some_2 _ _ Hi') as [pcb Hl].
    destruct (tcp_abort_slot busy i _ _ Hl) as (pcbs1 & Ha & Hl1 & _).
    rewrite Ha in H. injection H as <- <- <-.
    split; [done|]. eexists. split; [exact Hl1|]. by destruct busy.
Qed.

(** X17.  A passive [tcp_open_rfc793] that got a PCB and then returns -1,
    because a sleep was interrupted or because the PCB was found in a
    state other than SYN_RECEIVED or ESTABLISHED, gives the PCB back: the
    slot is all zero, hence FREE, afterwards.  When [sched_ctx_destroy]
    refuses, the slot is left behind in state CLOSED and a wakeup is
    posted instead. *)
Theorem tcp_open_rfc793_gives_up busy loc fgn sleeps pcbs i pcbs0 r pcbs'
    evs :
  Forall (fun s : sleep => forall p, length (s.2 p) = length p) sleeps ->
  tcp_open_listen loc fgn pcbs = Some (i, pcbs0) ->
  tcp_open_rfc793 busy loc fgn false sleeps pcbs = (r, pcbs', evs) ->
  r = OpenFail \/ r = OpenInterrupted ->
  evs = (if busy then [Wakeup i] else [])
  /\ exists pcb, pcbs' !! i = Some pcb
       /\ if busy then state pcb = TCP_PCB_STATE_CLOSED else pcb = pcb_zero.
Proof.
  intros Hlen Hopen H Hr. unfold tcp_open_rfc793 in H. rewrite Hopen in H.
  destruct (tcp_open_listen_slot _ _ _ _ _ Hopen) as (pcb & Hl & _).
  eapply tcp_open_wait_gives_up; [exact Hlen| |exact H|exact Hr].
  by eapply lookup_lt_Some.
Qed.

Lemma tcp_open_rfc793_gives_up_witness :
  tcp_open_rfc793 false listen_endpoint None false
    [(SleepWoken, fun p => p); (SleepInterrupted, fun p => p)] pcbs_init
  = (OpenInterrupted, pcbs_init, [])
  /\ exists pcb, pcbs_init !! 0%nat = Some pcb /\ pcb = pcb_zero.
Proof.
  assert (Hlen : Forall (fun s : sleep => forall p, length (s.2 p) = length p)
                   [(SleepWoken, fun p : list tcp_pcb => p);
                    (SleepInterrupted, fun p : list tcp_pcb => p)]).
  { repeat (apply Forall_cons; split; [done|]). by apply Forall_nil. }
  assert (Hopen : tcp_open_listen listen_endpoint None pcbs_init
                  = Some (0%nat, listen_table)) by (vm_compute; reflexivity).
  assert (H : tcp_open_rfc793 false listen_endpoint None false
                [(SleepWoken, fun p => p); (SleepInterrupted, fun p => p)]
                pcbs_init
              = (OpenInterrupted, pcbs_init, []))
    by (vm_compute; reflexivity).
  split; [exact H|].
  exact (proj2 (tcp_open_rfc793_gives_up false listen_endpoint None _
                  pcbs_init 0%nat listen_table OpenInterrupted pcbs_init []
                  Hlen Hopen H (or_intror eq_refl))).
Defined.

(** The table after the arrival of a segment: one slot may have been
    written, and its state moved along LISTEN, SYN_RECEIVED, ESTABLISHED
    if at all. *)
Lemma tcp_segment_arrives_update rnd seg flags data len loc fgn pcbs pcbs'
    evs :
  tcp_segment_arrives rnd seg flags data len loc fgn pcbs
  = Some (pcbs', evs) ->
  pcbs' = pcbs
  \/ exists j pcb pcb',
       pcbs !! j = Some pcb /\ pcbs' = <[j := pcb']> pcbs
       /\ (state pcb' = state pcb
           \/ state pcb = TCP_PCB_STATE_LISTEN
              /\ state pcb' = TCP_PCB_STATE_SYN_RECEIVED
           \/ state pcb = TCP_PCB_STATE_SYN_RECEIVED
              /\ state pcb' = TCP_PCB_STATE_ESTABLISHED).
Proof.
  unfold tcp_segment_arrives. intros H.
  destruct (tcp_pcb_select loc (Some fgn) pcbs) as [[i pcb]|] eqn:Hsel;
    [|injection H as <- <-; by left].
  pose proof (tcp_pcb_select_lookup _ _ _ _ _ Hsel) as Hl.
  assert (Hother :
    match arrives_otherwise i seg flags data len loc fgn pcb with
    | Some (pcb', evs) => Some (<[i := pcb']> pcbs, evs)
    | None => None
    end = Some (pcbs', evs) ->
    pcbs' = pcbs
    \/ exists j pcb0 pcb',
         pcbs !! j = Some pcb0 /\ pcbs' = <[j := pcb']> pcbs
         /\ (state pcb' = state pcb0
             \/ state pcb0 = TCP_PCB_STATE_LISTEN
                /\ state pcb' = TCP_PCB_STATE_SYN_RECEIVED
             \/ state pcb0 = TCP_PCB_STATE_SYN_RECEIVED
                /\ state pcb' = TCP_PCB_STATE_ESTABLISHED)).
  { destruct (arrives_otherwise i seg flags data len loc fgn pcb)
      as [[p1 evs1]|] eqn:Ho; [|discriminate].
    intros [= <- <-]. right. exists i, pcb, p1.
    split; [done|]. split; [done|].
    destruct (arrives_otherwise_frame _ _ _ _ _ _ _ _ _ _ Ho) as [F _].
    tauto. }
  destruct (state pcb) eqn:Hs; try (exact (Hother H));
    try (injection H as <- <-; by left).
  destruct (arrives_listen rnd seg flags loc fgn pcb) as [p1 evs1] eqn:Hal.
  injection H as <- <-. right. exists i, pcb, p1.
  split; [done|]. split; [done|].
  unfold arrives_listen in Hal.
  destruct (TCP_FLG_ISSET flags TCP_FLG_RST);
    [injection Hal as <- <-; by left|].
  destruct (TCP_FLG_ISSET flags TCP_FLG_ACK);
    [injection Hal as <- <-; by left|].
  destruct (TCP_FLG_ISSET flags TCP_FLG_SYN);
    injection Hal as <- <-; [right; left; by split|by left].
Qed.

Lemma arrivals_slot i pcbs pcbs' :
  arrivals pcbs pcbs' ->
  forall pcb, pcbs !! i = Some pcb ->
  exists pcb',
    pcbs' !! i = Some pcb'
    /\ (state pcb' = state pcb
        \/ state pcb = TCP_PCB_STATE_LISTEN
           /\ (state pcb' = TCP_PCB_STATE_SYN_RECEIVED
               \/ state pcb' = TCP_PCB_STATE_ESTABLISHED)
        \/ state pcb = TCP_PCB_STATE_SYN_RECEIVED
           /\ state pcb' = TCP_PCB_STATE_ESTABLISHED).
Proof.
  induction 1 as [pcbs|rnd seg flags data len loc fgn pcbs pcbs1 evs pcbs2
                       Harr _ IH]; intros pcb Hl.
  - exists pcb. split; [done|by left].
  - destruct (tcp_segment_arrives_update _ _ _ _ _ _ _ _ _ _ Harr)
      as [->|(j & p & p' & Hj & -> & Hst)].
    + by apply IH.
    + destruct (decide (i = j)) as [->|Hne].
      * assert (p = pcb) as -> by congruence.
        destruct (IH p') as (pcb2 & Hl2 & Hst2).
        { apply list_lookup_insert_eq. by eapply lookup_lt_Some. }
        exists pcb2. split; [done|].
        destruct Hst as [E|[[E1 E2]|[E1 E2]]],
                 Hst2 as [F|[[F1 F2]|[F1 F2]]];
          rewrite ?E, ?E1, ?E2, ?F, ?F1, ?F2 in *;
          try discriminate; try tauto; try congruence.
      * apply IH. by rewrite list_lookup_insert_ne.
Qed.

Lemma tcp_open_wait_arrivals busy i state0 sleeps pcbs pcb :
  Forall (fun s : sleep => forall p, arrivals p (s.2 p)) sleeps ->
  pcbs !! i = Some pcb -> state pcb = state0 ->
  state0 = TCP_PCB_STATE_LISTEN \/ state0 = TCP_PCB_STATE_SYN_RECEIVED ->
  (tcp_open_wait busy i state0 sleeps pcbs).1.1 <> OpenFail.
Proof.
  intros Harr. revert state0 pcbs pcb.
  induction Harr as [|[[|] env] rest Henv Hrest IH];
    intros state0 pcbs pcb Hl Hs H0; simpl.
  - discriminate.
  - simpl in Henv.
    destruct (arrivals_slot i _ _ (Henv pcbs) pcb Hl) as (pcb' & Hl' & Hst).
    rewrite Hl'.
    destruct (pcb_state_eqb (state pcb') state0) eqn:Heq.
    { apply pcb_state_eqb_eq in Heq. by eapply IH. }
    rewrite Hs in Hst.
    destruct Hst as [E|[[E1 [E2|E2]]|[E1 E2]]].
    + rewrite E in Heq. by destruct state0.
    + rewrite E2. eapply IH; [exact Hl'|exact E2|by right].
    + rewrite E2. discriminate.
    + rewrite E2. discriminate.
  - destruct (tcp_abort busy i (env pcbs)). discriminate.
Qed.

(** X18.  While a passive [tcp_open_rfc793] sleeps, segments may arrive,
    any number of them, each with a text that is copied inside the
    receive buffer ([arrivals]; a text no longer than rcv.wnd of the PCB
    it is for always is).  If nothing else touches the table, the call
    never takes the "open error" exit: it returns the id of the slot it
    allocated, is interrupted, or is still asleep. *)
Theorem tcp_open_rfc793_arrivals busy loc fgn sleeps pcbs i pcbs0 :
  Forall (fun s : sleep => forall p, arrivals p (s.2 p)) sleeps ->
  tcp_open_listen loc fgn pcbs = Some (i, pcbs0) ->
  let r := (tcp_open_rfc793 busy loc fgn false sleeps pcbs).1.1 in
  r = OpenOk (Z.of_nat i) \/ r = OpenInterrupted \/ r = OpenAsleep.
Proof.
  intros Harr Hopen r.
  assert (Hne : r <> OpenFail).
  { subst r. unfold tcp_open_rfc793. rewrite Hopen.
    destruct (tcp_open_listen_slot _ _ _ _ _ Hopen) as (pcb & Hl & Hs & _).
    eapply tcp_open_wait_arrivals; [exact Harr|exact Hl|exact Hs|by left]. }
  destruct (tcp_open_rfc793 busy loc fgn false sleeps pcbs)
    as [[r' pcbs'] evs] eqn:Hr.
  simpl in r. subst r. destruct r' as [id| | |]; [|done|tauto|tauto].
  left. unfold tcp_open_rfc793 in Hr. rewrite Hopen in Hr.
  destruct (tcp_open_wait_ok _ _ _ _ _ _ _ _ Hr) as (_ & -> & _). done.
Qed.

Lemma tcp_segment_arrives_no_text rnd seg flags data loc fgn pcbs :
  exists pcbs' evs,
    tcp_segment_arrives rnd seg flags data 0 loc fgn pcbs = Some (pcbs', evs).
Proof.
  unfold tcp_segment_arrives.
  destruct (tcp_pcb_select loc (Some fgn) pcbs) as [[i pcb]|]; [|by eauto].
  assert (Hother : exists pcbs' evs,
    match arrives_otherwise i seg flags data 0 loc fgn pcb with
    | Some (pcb', evs) => Some (<[i := pcb']> pcbs, evs)
    | None => None
    end = Some (pcbs', evs)).
  { unfold arrives_otherwise.
    destruct (negb _); [destruct (negb _); by eauto|].
    destruct (negb _); [by eauto|].
    destruct (ack_processing i seg loc fgn pcb) as [[[|] p1] evs1];
      [|by eauto].
    assert (Ht : text_processing i seg data 0 p1 = Some (p1, []))
      by (unfold text_processing; by destruct (state p1)).
    rewrite Ht. by eauto. }
  destruct (state pcb); try exact Hother; try (by eauto).
  destruct (arrives_listen rnd seg flags loc fgn pcb). by eauto.
Qed.

Lemma tcp_open_rfc793_arrivals_witness :
  let syn := fun p => after (tcp_segment_arrives 5555 (mk_seg 1000 0 1 4096 0)
                               TCP_FLG_SYN [] 0 host_endpoint peer_endpoint p) in
  let rst := fun p => after (tcp_segment_arrives 0 (mk_seg 1001 0 0 0 0)
                               TCP_FLG_RST [] 0 host_endpoint peer_endpoint p) in
  let ack := fun p => after (tcp_segment_arrives 0 (mk_seg 1001 5556 0 4096 0)
                               TCP_FLG_ACK [] 0 host_endpoint peer_endpoint p) in
  let sleeps := [(SleepWoken, syn); (SleepWoken, rst); (SleepWoken, ack)] in
  (Forall (fun s : sleep => forall p, arrivals p (s.2 p)) sleeps
   /\ tcp_open_listen listen_endpoint None pcbs_init
      = Some (0%nat, listen_table))
  /\ let r := (tcp_open_rfc793 false listen_endpoint None false sleeps
                 pcbs_init).1.1 in
     r = OpenOk 0 \/ r = OpenInterrupted \/ r = OpenAsleep.
Proof.
  intros syn rst ack sleeps.
  assert (Hone : forall rnd seg flags p,
            arrivals p (after (tcp_segment_arrives rnd seg flags [] 0
                                 host_endpoint peer_endpoint p))).
  { intros rnd seg flags p.
    destruct (tcp_segment_arrives_no_text rnd seg flags [] host_endpoint
                peer_endpoint p) as (p' & evs & Hp).
    rewrite Hp. simpl. eapply arrivals_more; [exact Hp|apply arrivals_none]. }
  assert (Harr : Forall (fun s : sleep => forall p, arrivals p (s.2 p))
                        sleeps).
  { subst sleeps syn rst ack.
    repeat (apply Forall_cons; split; [intros p; apply Hone|]).
    by apply Forall_nil. }
  assert (Hopen : tcp_open_listen listen_endpoint None pcbs_init
                  = Some (0%nat, listen_table)) by (vm_compute; reflexivity).
  split; [by split|].
  exact (tcp_open_rfc793_arrivals false listen_endpoint None sleeps
           pcbs_init 0%nat listen_table Harr Hopen).
Defined.

(** ** Sending *)

Lemma take_take_drop_Z {A} (l : list A) a b :
  0 <= a -> 0 <= b ->
  take (Z.to_nat a) l ++ take (Z.to_nat b) (drop (Z.to_nat a) l)
  = take (Z.to_nat (a + b)) l.
Proof.
  intros Ha Hb. rewrite Z2Nat.inj_add by done. apply take_take_drop.
Qed.

Lemma wrap32_add_sub a s u :
  wrap32 (wrap32 (a + s) - u) = wrap32 (wrap32 (a - u) + s).
Proof.
  unfold wrap32. rewrite Zminus_mod_idemp_l, Zplus_mod_idemp_l.
  f_equal. lia.
Qed.

Lemma wrap32_add_add a s t :
  wrap32 (wrap32 (a + s) + t) = wrap32 (a + (s + t)).
Proof. unfold wrap32. rewrite Zplus_mod_idemp_l. f_equal. lia. Qed.

Lemma set_snd_nxt_same pcb : set_snd_nxt (snd_nxt pcb) pcb = pcb.
Proof. by destruct pcb. Qed.




(** ** What [ip_input] sums *)

Lemma cksum16_zero_iff be l :
  Forall is_u8 l -> Z.of_nat (length l) <= 65535 ->
  cksum16 be l (Z.of_nat (length l)) 0 = 0
  <-> fold_left Z.add (words16 be l) 0 <> 0
      /\ fold_left Z.add (words16 be l) 0 mod 65535 = 0.
Proof.
  intros Hl Hlen. unfold cksum16.
  rewrite Nat2Z.id, firstn_all.
  pose proof (words16_sum_bound be l Hl) as Hb.
  set (s := fold_left Z.add (words16 be l) 0) in *.
  change 32%nat with (S (S (S 29))).
  rewrite fold_carries_canonical by lia.
  destruct (Z.eqb_spec s 0) as [->|Hs]; [split; [done|by intros [? _]]|].
  split.
  - intros H. split; [done|]. Z.div_mod_to_equations. lia.
  - intros [_ H]. Z.div_mod_to_equations. lia.
Qed.

(** X22.  [ip_input] sums all [len] bytes it was given, not the header
    alone: bytes that follow an accepted datagram of even length leave it
    accepted when the sum of their 16-bit words is a multiple of 0xffff
    (all-zero padding, say) and make it fail the checksum test
    otherwise. *)
Theorem ip_input_sums_whole_input be d p iface :
  ip_input be d iface = IpAccepted ->
  Nat.Even (length d) ->
  Forall is_u8 d -> Forall is_u8 p ->
  Z.of_nat (length d + length p) <= 65535 ->
  ip_input be (d ++ p) iface
  = if fold_left Z.add (words16 be p) 0 mod 65535 =? 0
    then IpAccepted else IpBadChecksum.
Proof.
  intros H Heven Hd Hp Hlen. unfold ip_input in *. cbv zeta in *.
  rewrite length_app, Nat2Z.inj_add.
  destruct (Z.ltb_spec (Z.of_nat (length d)) IP_HDR_SIZE_MIN) as [|H20];
    [discriminate|].
  unfold IP_HDR_SIZE_MIN in *.
  assert (Hb : forall k, (k < 20)%nat -> byte_at (d ++ p) k = byte_at d k).
  { intros k Hk. unfold byte_at. by rewrite lookup_app_l by lia. }
  rewrite !Hb by lia.
  destruct (Z.ltb_spec (Z.of_nat (length d) + Z.of_nat (length p)) 20);
    [lia|].
  destruct (negb (Z.shiftr (byte_at d 0) 4 =? IP_VERSION_IPV4));
    [discriminate|].
  destruct (Z.ltb_spec (Z.of_nat (length d))
              (ip_input_hlen be (byte_at d 0))) as [|Hh]; [discriminate|].
  destruct (Z.ltb_spec (Z.of_nat (length d) + Z.of_nat (length p))
              (ip_input_hlen be (byte_at d 0))); [lia|].
  destruct (Z.ltb_spec (Z.of_nat (length d))
              (ntoh16 be (load16 be (byte_at d 2) (byte_at d 3))))
    as [|Ht]; [discriminate|].
  destruct (Z.ltb_spec (Z.of_nat (length d) + Z.of_nat (length p))
              (ntoh16 be (load16 be (byte_at d 2) (byte_at d 3)))); [lia|].
  destruct (Z.eqb_spec (cksum16 be d (Z.of_nat (length d)) 0) 0) as [Hc|];
    [|discriminate].
  cbn [negb] in H.
  apply cksum16_zero_iff in Hc as [Hd0 Hdm]; [|done|lia].
  assert (Hwords : fold_left Z.add (words16 be (d ++ p)) 0
                   = fold_left Z.add (words16 be d) 0
                     + fold_left Z.add (words16 be p) 0).
  { rewrite words16_app by done. rewrite fold_left_app.
    apply fold_left_add_init. }
  pose proof (words16_sum_bound be d Hd) as Hbd.
  pose proof (words16_sum_bound be p Hp) as Hbp.
  rewrite <- Nat2Z.inj_add, <- length_app.
  destruct (Z.eqb_spec (fold_left Z.add (words16 be p) 0 mod 65535) 0)
    as [Hpm|Hpm].
  - assert (Hz : cksum16 be (d ++ p) (Z.of_nat (length (d ++ p))) 0 = 0).
    { apply cksum16_zero_iff.
      - by apply Forall_app.
      - rewrite length_app. lia.
      - rewrite Hwords. split; [lia|].
        rewrite Z.add_mod, Hdm, Hpm by lia. reflexivity. }
    rewrite Hz. exact H.
  - destruct (Z.eqb_spec (cksum16 be (d ++ p) (Z.of_nat (length (d ++ p))) 0)
                0) as [Hz|]; [|done].
    apply cksum16_zero_iff in Hz as [_ Hz];
      [|by apply Forall_app|rewrite length_app; lia].
    rewrite Hwords, Z.add_mod, Hdm, Z.add_0_l, Z.mod_mod in Hz by lia.
    done.
Qed.

Lemma ip_input_sums_whole_input_witness :
  (ip_input false datagram_plain (Some (iface_slash24 false))
   = IpAccepted
   /\ Nat.Even (length datagram_plain)
   /\ Forall is_u8 datagram_plain
   /\ Forall is_u8 [0; 1]
   /\ Z.of_nat (length datagram_plain + length [0; 1]) <= 65535)
  /\ ip_input false (datagram_plain ++ [0; 1])
       (Some (iface_slash24 false)) = IpBadChecksum
  /\ ip_input false (datagram_plain ++ [0; 0])
       (Some (iface_slash24 false)) = IpAccepted.
Proof.
  assert (Ha : ip_input false datagram_plain
                 (Some (iface_slash24 false)) = IpAccepted)
    by (vm_compute; reflexivity).
  assert (He : Nat.Even (length datagram_plain)) by (by exists 10%nat).
  assert (H8 : forall l, forallb (fun x => (0 <=? x) && (x <? 256)) l = true ->
                         Forall is_u8 l).
  { intros l Hl. apply Forall_forall. intros x Hx.
    rewrite forallb_forall in Hl. specialize (Hl x).
    rewrite <- list_elem_of_In in Hl. specialize (Hl Hx).
    unfold is_u8. lia. }
  assert (Hd : Forall is_u8 datagram_plain)
    by (apply H8; vm_compute; reflexivity).
  assert (Hp1 : Forall is_u8 [0; 1]) by (apply H8; reflexivity).
  assert (Hp0 : Forall is_u8 [0; 0]) by (apply H8; reflexivity).
  assert (Hl : Z.of_nat (length datagram_plain + length [0; 1])
               <= 65535) by (vm_compute; discriminate).
  split; [done|]. split.
  - rewrite (ip_input_sums_whole_input false _ [0; 1] _ Ha He Hd Hp1 Hl).
    reflexivity.
  - rewrite (ip_input_sums_whole_input false _ [0; 0] _ Ha He Hd Hp0 Hl).
    reflexivity.
Defined.

(** ** The broadcast address of an interface *)

Lemma ip_addr_pton_from_bytes k idx sp n :
  length n = 4%nat -> Forall is_u8 n ->
  length (ip_addr_pton_from k idx sp n).2 = 4%nat
  /\ Forall is_u8 (ip_addr_pton_from k idx sp n).2.
Proof.
  revert idx sp n. induction k as [|k IH]; intros idx sp n Hlen Hn; simpl.
  { done. }
  destruct (strtol sp) as [ret ep].
  destruct ((ret <? 0) || (ret >? 255)); [done|].
  destruct (String.eqb ep sp); [done|].
  destruct (_ || _); [done|].
  apply IH.
  - by rewrite length_insert.
  - apply Forall_insert; [done|]. unfold is_u8, wrap8.
    apply Z.mod_pos_bound. lia.
Qed.

Lemma ip_addr_pton_u32 be s : is_u32 (ip_addr_pton be s 0).2.
Proof.
  unfold ip_addr_pton.
  destruct (ip_addr_pton_from_bytes 4 0 s (bytes_of_u32 be 0)) as [Hlen Hb].
  { by destruct be. }
  { destruct be; repeat (apply Forall_cons; split; [done|]);
      by apply Forall_nil. }
  destruct (ip_addr_pton_from 4 0 s (bytes_of_u32 be 0)) as [ret bytes].
  simpl in *.
  destruct bytes as [|a [|b [|c [|d [|]]]]]; try discriminate.
  apply Forall_cons in Hb as [Ha Hb]. apply Forall_cons in Hb as [Hb' Hb].
  apply Forall_cons in Hb as [Hc Hb]. apply Forall_cons in Hb as [Hd _].
  unfold is_u8, is_u32, u32_of_bytes, load32 in *. destruct be; lia.
Qed.

Lemma u32_high_bits x k : is_u32 x -> 32 <= k -> Z.testbit x k = false.
Proof.
  intros Hx Hk. rewrite <- (Z.mod_small x (2 ^ 32)) by exact Hx.
  apply Z.mod_pow2_bits_high. lia.
Qed.

Lemma u32_of_high_bits x :
  (forall k, 32 <= k -> Z.testbit x k = false) -> is_u32 x.
Proof.
  intros H. assert (Hx : x mod 2 ^ 32 = x).
  { apply Z.bits_inj'. intros k Hk. destruct (Z.ltb_spec k 32).
    - by rewrite Z.mod_pow2_bits_low.
    - rewrite Z.mod_pow2_bits_high by lia. symmetry. by apply H. }
  rewrite <- Hx. apply Z.mod_pos_bound. lia.
Qed.

Lemma wrap32_lnot_bits m k :
  0 <= k ->
  Z.testbit (wrap32 (Z.lnot m)) k
  = if k <? 32 then negb (Z.testbit m k) else false.
Proof.
  intros Hk. unfold wrap32. destruct (Z.ltb_spec k 32).
  - rewrite Z.mod_pow2_bits_low by lia. by rewrite Z.lnot_spec.
  - by rewrite Z.mod_pow2_bits_high by lia.
Qed.

(** X24.  Whatever the two strings, the broadcast address
    [ip_iface_alloc] stores is a 32-bit value that agrees with the
    unicast address on every bit of the netmask and has every other bit
    set. *)
Theorem ip_iface_alloc_broadcast be unicast_ netmask_ :
  let iface := ip_iface_alloc be unicast_ netmask_ in
  is_u32 (broadcast iface)
  /\ Z.land (broadcast iface) (netmask iface)
     = Z.land (unicast iface) (netmask iface)
  /\ Z.lor (broadcast iface) (netmask iface) = 0xffffffff.
Proof.
  unfold ip_iface_alloc. cbv zeta. cbn [unicast netmask broadcast].
  pose proof (ip_addr_pton_u32 be unicast_) as Hu.
  pose proof (ip_addr_pton_u32 be netmask_) as Hm.
  set (u := (ip_addr_pton be unicast_ 0).2) in *.
  set (m := (ip_addr_pton be netmask_ 0).2) in *.
  clearbody u m.
  split; [|split].
  - apply u32_of_high_bits. intros k Hk.
    rewrite Z.lor_spec, Z.land_spec, wrap32_lnot_bits by lia.
    rewrite (u32_high_bits u k Hu Hk).
    destruct (Z.ltb_spec k 32); [lia|done].
  - apply Z.bits_inj'. intros k Hk.
    rewrite !Z.land_spec, Z.lor_spec, Z.land_spec, wrap32_lnot_bits by lia.
    destruct (Z.ltb_spec k 32).
    + by destruct (Z.testbit u k), (Z.testbit m k).
    + by rewrite (u32_high_bits m k Hm), !andb_false_r.
  - apply Z.bits_inj'. intros k Hk.
    rewrite !Z.lor_spec, Z.land_spec, wrap32_lnot_bits by lia.
    change 0xffffffff with (Z.ones 32).
    destruct (Z.ltb_spec k 32).
    + rewrite Z.ones_spec_low by lia.
      by destruct (Z.testbit u k), (Z.testbit m k).
    + rewrite Z.ones_spec_high by lia.
      by rewrite (u32_high_bits m k Hm), (u32_high_bits u k Hu).
Qed.

(** ** Flags as text *)

Lemma TCP_FLG_ISSET_low flg bit :
  TCP_FLG_ISSET flg bit = TCP_FLG_ISSET (Z.land flg 0x3f) bit.
Proof.
  unfold TCP_FLG_ISSET. by rewrite <- (Z.land_assoc flg 0x3f 0x3f).
Qed.

Lemma land_0x3f_range x : 0 <= Z.land x 0x3f < 64.
Proof.
  change 0x3f with (Z.ones 6). rewrite Z.land_ones by lia.
  apply Z.mod_pos_bound. lia.
Qed.

(** X25.  The text [tcp_flg_ntoa] builds is eight characters long and
    says exactly which of the six flag bits are set: two flag bytes give
    the same text if and only if they agree on the low six bits. *)
Theorem tcp_flg_ntoa_flags f g :
  String.length (tcp_flg_ntoa f) = 8%nat
  /\ (tcp_flg_ntoa f = tcp_flg_ntoa g <-> Z.land f 0x3f = Z.land g 0x3f).
Proof.
  assert (Hlow : forall x, tcp_flg_ntoa x = tcp_flg_ntoa (Z.land x 0x3f)).
  { intros x. unfold tcp_flg_ntoa. cbv zeta.
    by rewrite <- !TCP_FLG_ISSET_low. }
  assert (Hall : forallb (fun a =>
                   forallb (fun b =>
                     implb (String.eqb (tcp_flg_ntoa a) (tcp_flg_ntoa b))
                           (a =? b)) (seqZ 0 64)) (seqZ 0 64) = true)
    by (vm_compute; reflexivity).
  split.
  - unfold tcp_flg_ntoa. cbv zeta.
    by repeat match goal with
              | |- context [TCP_FLG_ISSET ?x ?b] =>
                destruct (TCP_FLG_ISSET x b)
              end.
  - split; [|intros H; by rewrite (Hlow f), (Hlow g), H].
    rewrite (Hlow f), (Hlow g).
    pose proof (land_0x3f_range f) as Hf.
    pose proof (land_0x3f_range g) as Hg.
    set (a := Z.land f 0x3f) in *. set (b := Z.land g 0x3f) in *.
    clearbody a b. intros Heq.
    rewrite forallb_forall in Hall.
    assert (Ha : In a (seqZ 0 64)).
    { apply list_elem_of_In, elem_of_seqZ. lia. }
    specialize (Hall a Ha). rewrite forallb_forall in Hall.
    assert (Hb : In b (seqZ 0 64)).
    { apply list_elem_of_In, elem_of_seqZ. lia. }
    specialize (Hall b Hb).
    rewrite Heq, String.eqb_refl in Hall. simpl in Hall.
    by apply Z.eqb_eq.
Qed.

(** ** ACK processing, case by case *)

(** X9.  In SYN_RECEIVED an acceptable segment with ACK, whose text if it
    has any is no longer than the data it comes with and than rcv.wnd,
    itself at most the size of buf, completes the handshake exactly
    when snd.una <= seg.ack <= snd.nxt as raw values.  Then the PCB
    becomes ESTABLISHED with snd.una = seg.ack; snd.wnd, snd.wl1 and
    snd.wl2 are replaced by seg.wnd, seg.seq and seg.ack when seg.ack is
    beyond the old snd.una and the segment is not older than the last
    window update, and kept otherwise; the sleepers are woken; text is
    then copied behind the bytes waiting in buf, acknowledged and
    announced by a second wakeup as in ESTABLISHED; no other field
    changes.  Otherwise one RST with seq = seg.ack goes to the endpoints
    the segment came with and the table stays as it is. *)
Theorem arrives_syn_received rnd seg flags data len loc fgn pcbs i pcb :
  tcp_pcb_select loc (Some fgn) pcbs = Some (i, pcb) ->
  state pcb = TCP_PCB_STATE_SYN_RECEIVED ->
  seq_acceptable pcb seg = true ->
  TCP_FLG_ISSET flags TCP_FLG_ACK = true ->
  let result := tcp_segment_arrives rnd seg flags data len loc fgn pcbs in
  let valid := snd_una pcb <= seg_ack seg <= snd_nxt pcb in
  let update :=
    (snd_una pcb <? seg_ack seg)
    && ((snd_wl1 pcb <? seg_seq seg)
        || ((snd_wl1 pcb =? seg_seq seg) && (snd_wl2 pcb <=? seg_ack seg))) in
  let established rn rw b u :=
    {| state := TCP_PCB_STATE_ESTABLISHED;
       local := local pcb;
       foreign := foreign pcb;
       snd_nxt := snd_nxt pcb;
       snd_una := seg_ack seg;
       snd_wnd := if update then seg_wnd seg else snd_wnd pcb;
       snd_up := snd_up pcb;
       snd_wl1 := if update then seg_seq seg else snd_wl1 pcb;
       snd_wl2 := if update then seg_ack seg else snd_wl2 pcb;
       iss := iss pcb;
       rcv_nxt := rn;
       rcv_wnd := rw;
       rcv_up := rcv_up pcb;
       irs := irs pcb;
       mtu := mtu pcb;
       mss := mss pcb;
       buf := b;
       unread := u |} in
  (~ valid ->
   result = Some (pcbs, [Emit {| o_seq := seg_ack seg; o_ack := 0;
                                 o_flg := TCP_FLG_RST; o_wnd := 0;
                                 o_data := []; o_local := loc;
                                 o_foreign := fgn |}]))
  /\ (valid -> len = 0 ->
      result
      = Some (<[i := established (rcv_nxt pcb) (rcv_wnd pcb) (buf pcb)
                                 (unread pcb)]> pcbs,
              [Wakeup i]))
  /\ (valid -> 0 < len <= rcv_wnd pcb -> rcv_wnd pcb <= BUF_SIZE ->
      len <= Z.of_nat (length data) ->
      result
      = Some (<[i := established
                       (wrap32 (seg_seq seg + seg_len seg))
                       (rcv_wnd pcb - len)
                       (fun k =>
                          if (BUF_SIZE - rcv_wnd pcb <=? k)
                             && (k <? BUF_SIZE - rcv_wnd pcb + len)
                          then byte_at data
                                 (Z.to_nat (k - (BUF_SIZE - rcv_wnd pcb)))
                          else buf pcb k)
                       (unread pcb + len)]> pcbs,
              [Wakeup i;
               Emit {| o_seq := snd_nxt pcb;
                       o_ack := wrap32 (seg_seq seg + seg_len seg);
                       o_flg := TCP_FLG_ACK;
                       o_wnd := rcv_wnd pcb - len;
                       o_data := [];
                       o_local := local pcb;
                       o_foreign := foreign pcb |};
               Wakeup i])).
Proof.
  intros Hsel Hs Hacc Hack result valid update established.
  pose proof (tcp_pcb_select_insert_id _ _ _ _ _ Hsel) as Hid.
  assert (Hres : result
    = match ack_processing i seg loc fgn pcb with
      | (Return, p, evs) => Some (<[i := p]> pcbs, evs)
      | (Continue, p, evs) =>
        match text_processing i seg data len p with
        | None => None
        | Some (p', evs') => Some (<[i := p']> pcbs, evs ++ evs')
        end
      end).
  { subst result.
    rewrite (tcp_segment_arrives_otherwise _ _ _ _ _ _ _ _ _ _ Hsel)
      by (rewrite Hs; discriminate).
    rewrite arrives_otherwise_passed by tauto.
    destruct (ack_processing i seg loc fgn pcb) as [[[|] p] evs]; [|done].
    by destruct (text_processing i seg data len p) as [[p' evs']|]. }
  assert (Hack_ok : valid ->
    ack_processing i seg loc fgn pcb
    = (Continue,
       established (rcv_nxt pcb) (rcv_wnd pcb) (buf pcb) (unread pcb),
       [Wakeup i])).
  { intros [Hv1 Hv2]. unfold ack_processing, ack_valid_syn_received.
    rewrite Hs.
    destruct (Z.leb_spec (snd_una pcb) (seg_ack seg)); [|lia].
    destruct (Z.leb_spec (seg_ack seg) (snd_nxt pcb)); [|lia].
    cbn [andb]. unfold ack_established, ack_is_new, ack_is_duplicate,
      ack_is_unsent, window_update_due.
    subst established update. destruct pcb as [st lo fo nxt una wnd up wl1 wl2
      is_ rn rw rup ir mt ms b u]. cbn in *.
    destruct (Z.ltb_spec una (seg_ack seg)) as [Hlt|Hge];
      destruct (Z.leb_spec (seg_ack seg) nxt); try lia; cbn.
    - destruct ((wl1 <? seg_seq seg)
                || (wl1 =? seg_seq seg) && (wl2 <=? seg_ack seg));
        reflexivity.
    - assert (seg_ack seg = una) as -> by lia.
      rewrite Z.ltb_irrefl. cbn.
      destruct (Z.gtb_spec una nxt); [lia|]. reflexivity. }
  split; [|split].
  - intros Hn. rewrite Hres. unfold ack_processing, ack_valid_syn_received.
    rewrite Hs.
    destruct (Z.leb_spec (snd_una pcb) (seg_ack seg));
      destruct (Z.leb_spec (seg_ack seg) (snd_nxt pcb));
      cbn [andb]; try (exfalso; apply Hn; split; assumption);
      by rewrite Hid.
  - intros Hv ->. rewrite Hres, (Hack_ok Hv).
    unfold text_processing. cbn [state]. subst established. cbn [state].
    rewrite Z.eqb_refl. reflexivity.
  - intros Hv Hlen Hwnd Hdata. rewrite Hres, (Hack_ok Hv).
    unfold text_processing. subst established. cbn [state].
    destruct (Z.eqb_spec len 0); [lia|]. cbn [negb].
    unfold memcpy_into. cbn [buf rcv_wnd].
    destruct (Z.leb_spec len (Z.of_nat (length data))); [|lia].
    destruct (Z.leb_spec (BUF_SIZE - rcv_wnd pcb + len) BUF_SIZE); [|lia].
    cbn [andb].
    assert (Hw : wrap16 (rcv_wnd pcb - len) = rcv_wnd pcb - len).
    { apply Z.mod_small. unfold BUF_SIZE in *. lia. }
    unfold tcp_output, tcp_output_segment. cbn. rewrite Hw. reflexivity.
Qed.

Lemma arrives_syn_received_witness :
  let seg := mk_seg 1001 5556 5 4096 0 in
  let flags := Z.lor TCP_FLG_PSH TCP_FLG_ACK in
  let pcb := default pcb_zero (syn_received_table !! 0%nat) in
  (tcp_pcb_select host_endpoint (Some peer_endpoint) syn_received_table
   = Some (0%nat, pcb)
   /\ state pcb = TCP_PCB_STATE_SYN_RECEIVED
   /\ seq_acceptable pcb seg = true
   /\ TCP_FLG_ISSET flags TCP_FLG_ACK = true
   /\ snd_una pcb <= seg_ack seg <= snd_nxt pcb
   /\ 0 < 5 <= rcv_wnd pcb
   /\ rcv_wnd pcb <= BUF_SIZE
   /\ 5 <= Z.of_nat (length hello))
  /\ exists pcbs',
       tcp_segment_arrives 0 seg flags hello 5 host_endpoint peer_endpoint
         syn_received_table
       = Some (pcbs',
               [Wakeup 0;
                Emit {| o_seq := 5556; o_ack := 1006; o_flg := TCP_FLG_ACK;
                        o_wnd := 65530; o_data := [];
                        o_local := host_endpoint;
                        o_foreign := peer_endpoint |};
                Wakeup 0])
       /\ state <$> pcbs' !! 0%nat = Some TCP_PCB_STATE_ESTABLISHED
       /\ pending <$> pcbs' !! 0%nat = Some hello.
Proof.
  intros seg flags pcb.
  assert (H0 : tcp_pcb_select host_endpoint (Some peer_endpoint)
                 syn_received_table = Some (0%nat, pcb))
    by (vm_compute; reflexivity).
  assert (H1 : state pcb = TCP_PCB_STATE_SYN_RECEIVED) by reflexivity.
  assert (H2 : seq_acceptable pcb seg = true) by (vm_compute; reflexivity).
  assert (H3 : TCP_FLG_ISSET flags TCP_FLG_ACK = true) by reflexivity.
  assert (H4 : snd_una pcb <= seg_ack seg <= snd_nxt pcb)
    by (vm_compute; split; discriminate).
  assert (H5 : 0 < 5 <= rcv_wnd pcb) by (vm_compute; split; [done|discriminate]).
  assert (H6 : rcv_wnd pcb <= BUF_SIZE) by (vm_compute; discriminate).
  assert (H7 : 5 <= Z.of_nat (length hello)) by (simpl; lia).
  split; [done|].
  destruct (arrives_syn_received 0 seg flags hello 5 host_endpoint
              peer_endpoint syn_received_table 0%nat pcb H0 H1 H2 H3)
    as (_ & _ & H).
  eexists. split; [exact (H H4 H5 H6 H7)|].
  split; [reflexivity|]. vm_compute. reflexivity.
Defined.

(** X10.  In ESTABLISHED an acceptable segment with ACK and no text does
    one of four things.  When snd.una < seg.ack <= snd.nxt as raw values,
    snd.una becomes seg.ack, and snd.wnd, snd.wl1 and snd.wl2 are
    replaced by seg.wnd, seg.seq and seg.ack exactly when
    snd.wl1 < seg.seq, or snd.wl1 = seg.seq and snd.wl2 <= seg.ack;
    nothing is emitted and no other field changes.  When seg.ack is below
    snd.una nothing happens.  When seg.ack is beyond snd.nxt and not
    below snd.una, exactly one bare ACK with seq = snd.nxt, ack = rcv.nxt
    and window = rcv.wnd is emitted and the table stays as it is.  When
    seg.ack = snd.una nothing happens. *)
Theorem arrives_established_ack rnd seg flags data loc fgn pcbs i pcb :
  tcp_pcb_select loc (Some fgn) pcbs = Some (i, pcb) ->
  state pcb = TCP_PCB_STATE_ESTABLISHED ->
  seq_acceptable pcb seg = true ->
  TCP_FLG_ISSET flags TCP_FLG_ACK = true ->
  let result := tcp_segment_arrives rnd seg flags data 0 loc fgn pcbs in
  let fresh := snd_una pcb < seg_ack seg <= snd_nxt pcb in
  let newer :=
    snd_wl1 pcb < seg_seq seg
    \/ (snd_wl1 pcb = seg_seq seg /\ snd_wl2 pcb <= seg_ack seg) in
  let acked wnd wl1 wl2 :=
    {| state := TCP_PCB_STATE_ESTABLISHED;
       local := local pcb;
       foreign := foreign pcb;
       snd_nxt := snd_nxt pcb;
       snd_una := seg_ack seg;
       snd_wnd := wnd;
       snd_up := snd_up pcb;
       snd_wl1 := wl1;
       snd_wl2 := wl2;
       iss := iss pcb;
       rcv_nxt := rcv_nxt pcb;
       rcv_wnd := rcv_wnd pcb;
       rcv_up := rcv_up pcb;
       irs := irs pcb;
       mtu := mtu pcb;
       mss := mss pcb;
       buf := buf pcb;
       unread := unread pcb |} in
  (fresh -> newer ->
   result = Some (<[i := acked (seg_wnd seg) (seg_seq seg) (seg_ack seg)]>
                    pcbs, []))
  /\ (fresh -> ~ newer ->
      result = Some (<[i := acked (snd_wnd pcb) (snd_wl1 pcb) (snd_wl2 pcb)]>
                       pcbs, []))
  /\ (~ fresh -> seg_ack seg < snd_una pcb -> result = Some (pcbs, []))
  /\ (~ fresh -> snd_una pcb <= seg_ack seg -> snd_nxt pcb < seg_ack seg ->
      result = Some (pcbs, [Emit {| o_seq := snd_nxt pcb;
                                    o_ack := rcv_nxt pcb;
                                    o_flg := TCP_FLG_ACK;
                                    o_wnd := rcv_wnd pcb;
                                    o_data := [];
                                    o_local := local pcb;
                                    o_foreign := foreign pcb |}]))
  /\ (~ fresh -> snd_una pcb <= seg_ack seg -> seg_ack seg <= snd_nxt pcb ->
      result = Some (pcbs, [])).
Proof.
  intros Hsel Hs Hacc Hack result fresh newer acked.
  pose proof (tcp_pcb_select_insert_id _ _ _ _ _ Hsel) as Hid.
  assert (Hres : result
    = match ack_established seg pcb with
      | (Return, p, evs) => Some (<[i := p]> pcbs, evs)
      | (Continue, p, evs) => Some (<[i := p]> pcbs, evs)
      end).
  { subst result.
    rewrite (tcp_segment_arrives_otherwise _ _ _ _ _ _ _ _ _ _ Hsel)
      by (rewrite Hs; discriminate).
    rewrite arrives_otherwise_passed by tauto.
    unfold ack_processing. rewrite Hs.
    destruct (ack_established seg pcb) as [[[|] p] evs] eqn:Ha; [|done].
    assert (Ht : text_processing i seg data 0 p = Some (p, []))
      by (unfold text_processing; by destruct (state p)).
    by rewrite Ht, app_nil_r. }
  rewrite Hres. clear Hres.
  unfold ack_established, ack_is_new, ack_is_duplicate, ack_is_unsent,
    window_update_due.
  subst fresh newer acked.
  destruct pcb as [st lo fo nxt una wnd up wl1 wl2 is_ rn rw rup ir mt ms b u].
  cbn in *. subst st.
  destruct (Z.ltb_spec una (seg_ack seg));
    destruct (Z.leb_spec (seg_ack seg) nxt); cbn;
    destruct (Z.ltb_spec wl1 (seg_seq seg));
    destruct (Z.eqb_spec wl1 (seg_seq seg));
    destruct (Z.leb_spec wl2 (seg_ack seg)); cbn;
    destruct (Z.ltb_spec (seg_ack seg) una);
    destruct (Z.gtb_spec (seg_ack seg) nxt); cbn;
    repeat split; intros; try lia; rewrite ?Hid; try reflexivity;
    exfalso; tauto || lia.
Qed.

Lemma arrives_established_ack_witness :
  let seg := mk_seg 1001 6000 0 4096 0 in
  (tcp_pcb_select host_endpoint (Some peer_endpoint) established_table
   = Some (0%nat, established_pcb)
   /\ state established_pcb = TCP_PCB_STATE_ESTABLISHED
   /\ seq_acceptable established_pcb seg = true
   /\ TCP_FLG_ISSET TCP_FLG_ACK TCP_FLG_ACK = true
   /\ ~ snd_una established_pcb < seg_ack seg <= snd_nxt established_pcb
   /\ snd_una established_pcb <= seg_ack seg
   /\ snd_nxt established_pcb < seg_ack seg)
  /\ tcp_segment_arrives 0 seg TCP_FLG_ACK [] 0 host_endpoint peer_endpoint
       established_table
     = Some (established_table,
             [Emit {| o_seq := 5556; o_ack := 1001; o_flg := TCP_FLG_ACK;
                      o_wnd := 65535; o_data := [];
                      o_local := host_endpoint;
                      o_foreign := peer_endpoint |}]).
Proof.
  intros seg.
  assert (H1 : state established_pcb = TCP_PCB_STATE_ESTABLISHED)
    by reflexivity.
  assert (H2 : seq_acceptable established_pcb seg = true)
    by (vm_compute; reflexivity).
  assert (H3 : TCP_FLG_ISSET TCP_FLG_ACK TCP_FLG_ACK = true) by reflexivity.
  assert (H4 : ~ snd_una established_pcb < seg_ack seg
                 <= snd_nxt established_pcb) by (simpl; lia).
  assert (H5 : snd_una established_pcb <= seg_ack seg) by (simpl; lia).
  assert (H6 : snd_nxt established_pcb < seg_ack seg) by (simpl; lia).
  split; [split; [exact established_table_select|done]|].
  destruct (arrives_established_ack 0 seg TCP_FLG_ACK [] host_endpoint
              peer_endpoint established_table 0%nat established_pcb
              established_table_select H1 H2 H3) as (_ & _ & _ & H & _).
  exact (H H4 H5 H6).
Defined.

(** ** What segment arrival leaves alone, whole *)

(** What a call of [tcp_segment_arrives] that stays inside [buf] has done
    to the table and has logged. *)
Lemma tcp_segment_arrives_changes rnd seg flags data len loc fgn pcbs
    pcbs' evs :
  tcp_segment_arrives rnd seg flags data len loc fgn pcbs
  = Some (pcbs', evs) ->
  length pcbs' = length pcbs
  /\ (forall j, pcbs' !! j <> pcbs !! j ->
      exists p p',
        tcp_pcb_select loc (Some fgn) pcbs = Some (j, p)
        /\ pcbs' !! j = Some p'
        /\ (state p = TCP_PCB_STATE_LISTEN
            /\ state p' = TCP_PCB_STATE_SYN_RECEIVED
            /\ local p' = loc /\ foreign p' = fgn
            \/ (state p' = state p
                \/ state p = TCP_PCB_STATE_SYN_RECEIVED
                   /\ state p' = TCP_PCB_STATE_ESTABLISHED)
               /\ local p' = local p /\ foreign p' = foreign p
               /\ iss p' = iss p /\ irs p' = irs p
               /\ snd_nxt p' = snd_nxt p))
  /\ (forall e, In e evs ->
      match e with
      | Emit _ => True
      | Wakeup j => exists p, tcp_pcb_select loc (Some fgn) pcbs = Some (j, p)
      | Interrupt _ => False
      end).
Proof.
  unfold tcp_segment_arrives. intros H.
  assert (Hno : forall e, In e (no_pcb_reply seg flags loc fgn) ->
                match e with
                | Emit _ => True
                | Wakeup j =>
                  exists p, tcp_pcb_select loc (Some fgn) pcbs = Some (j, p)
                | Interrupt _ => False
                end).
  { unfold no_pcb_reply, tcp_output_segment. intros e.
    destruct (TCP_FLG_ISSET flags TCP_FLG_RST); [intros []|].
    destruct (negb _); (intros [<-|[]]; done). }
  destruct (tcp_pcb_select loc (Some fgn) pcbs) as [[i pcb]|] eqn:Hsel;
    [|injection H as <- <-; repeat split; done].
  pose proof (tcp_pcb_select_lookup _ _ _ _ _ Hsel) as Hl.
  assert (Hins : forall p' evs',
    Some (<[i := p']> pcbs, evs') = Some (pcbs', evs) ->
    (state pcb = TCP_PCB_STATE_LISTEN
     /\ state p' = TCP_PCB_STATE_SYN_RECEIVED
     /\ local p' = loc /\ foreign p' = fgn
     \/ (state p' = state pcb
         \/ state pcb = TCP_PCB_STATE_SYN_RECEIVED
            /\ state p' = TCP_PCB_STATE_ESTABLISHED)
        /\ local p' = local pcb /\ foreign p' = foreign pcb
        /\ iss p' = iss pcb /\ irs p' = irs pcb
        /\ snd_nxt p' = snd_nxt pcb) ->
    Forall (fun e => match e with
                     | Emit _ => True
                     | Wakeup j => j = i
                     | Interrupt _ => False
                     end) evs' ->
    length pcbs' = length pcbs
    /\ (forall j, pcbs' !! j <> pcbs !! j ->
        exists p p'0,
          Some (i, pcb) = Some (j, p)
          /\ pcbs' !! j = Some p'0
          /\ (state p = TCP_PCB_STATE_LISTEN
              /\ state p'0 = TCP_PCB_STATE_SYN_RECEIVED
              /\ local p'0 = loc /\ foreign p'0 = fgn
              \/ (state p'0 = state p
                  \/ state p = TCP_PCB_STATE_SYN_RECEIVED
                     /\ state p'0 = TCP_PCB_STATE_ESTABLISHED)
                 /\ local p'0 = local p /\ foreign p'0 = foreign p
                 /\ iss p'0 = iss p /\ irs p'0 = irs p
                 /\ snd_nxt p'0 = snd_nxt p))
    /\ (forall e, In e evs ->
        match e with
        | Emit _ => True
        | Wakeup j => exists p, Some (i, pcb) = Some (j, p)
        | Interrupt _ => False
        end)).
  { intros p' evs' [= <- <-] Htr Hev. split; [by rewrite length_insert|].
    split.
    - intros j Hj. destruct (decide (j = i)) as [->|Hne].
      + exists pcb, p'. split; [done|]. split; [|done].
        apply list_lookup_insert_eq. by eapply lookup_lt_Some.
      + by rewrite list_lookup_insert_ne in Hj.
    - intros e He. rewrite Forall_forall in Hev.
      specialize (Hev e). destruct e as [o|j|j].
      + done.
      + exists pcb. rewrite Hev; [done|]. by apply list_elem_of_In.
      + apply Hev. by apply list_elem_of_In. }
  assert (Hsame :
    Some (pcbs, @nil event) = Some (pcbs', evs) \/
    Some (pcbs, no_pcb_reply seg flags loc fgn) = Some (pcbs', evs) ->
    length pcbs' = length pcbs
    /\ (forall j, pcbs' !! j <> pcbs !! j ->
        exists p p'0,
          Some (i, pcb) = Some (j, p)
          /\ pcbs' !! j = Some p'0
          /\ (state p = TCP_PCB_STATE_LISTEN
              /\ state p'0 = TCP_PCB_STATE_SYN_RECEIVED
              /\ local p'0 = loc /\ foreign p'0 = fgn
              \/ (state p'0 = state p
                  \/ state p = TCP_PCB_STATE_SYN_RECEIVED
                     /\ state p'0 = TCP_PCB_STATE_ESTABLISHED)
                 /\ local p'0 = local p /\ foreign p'0 = foreign p
                 /\ iss p'0 = iss p /\ irs p'0 = irs p
                 /\ snd_nxt p'0 = snd_nxt p))
    /\ (forall e, In e evs ->
        match e with
        | Emit _ => True
        | Wakeup j => exists p, Some (i, pcb) = Some (j, p)
        | Interrupt _ => False
        end)).
  { intros [[= <- <-]|[= <- <-]]; (split; [done|split; [done|]]).
    - intros e [].
    - exact Hno. }
  assert (Hother :
    match arrives_otherwise i seg flags data len loc fgn pcb with
    | Some (pcb', evs) => Some (<[i := pcb']> pcbs, evs)
    | None => None
    end = Some (pcbs', evs) ->
    length pcbs' = length pcbs
    /\ (forall j, pcbs' !! j <> pcbs !! j ->
        exists p p'0,
          Some (i, pcb) = Some (j, p)
          /\ pcbs' !! j = Some p'0
          /\ (state p = TCP_PCB_STATE_LISTEN
              /\ state p'0 = TCP_PCB_STATE_SYN_RECEIVED
              /\ local p'0 = loc /\ foreign p'0 = fgn
              \/ (state p'0 = state p
                  \/ state p = TCP_PCB_STATE_SYN_RECEIVED
                     /\ state p'0 = TCP_PCB_STATE_ESTABLISHED)
                 /\ local p'0 = local p /\ foreign p'0 = foreign p
                 /\ iss p'0 = iss p /\ irs p'0 = irs p
                 /\ snd_nxt p'0 = snd_nxt p))
    /\ (forall e, In e evs ->
        match e with
        | Emit _ => True
        | Wakeup j => exists p, Some (i, pcb) = Some (j, p)
        | Interrupt _ => False
        end)).
  { destruct (arrives_otherwise i seg flags data len loc fgn pcb)
      as [[p1 evs1]|] eqn:Ho; [|discriminate].
    intros Hr.
    destruct (arrives_otherwise_frame _ _ _ _ _ _ _ _ _ _ Ho)
      as (F1 & F2 & F3 & F4 & F5 & F6 & F7).
    apply (Hins _ _ Hr); [right; tauto|exact F7]. }
  destruct (state pcb) eqn:Hs.
  - exact (Hother H).
  - exact (Hsame (or_intror H)).
  - unfold arrives_listen, tcp_output, tcp_output_segment in H.
    destruct (TCP_FLG_ISSET flags TCP_FLG_RST).
    { apply (Hins _ _ H); [right; tauto|constructor]. }
    destruct (TCP_FLG_ISSET flags TCP_FLG_ACK).
    { apply (Hins _ _ H); [right; tauto|repeat constructor]. }
    destruct (TCP_FLG_ISSET flags TCP_FLG_SYN).
    + apply (Hins _ _ H); [left; repeat split; done|repeat constructor].
    + apply (Hins _ _ H); [right; tauto|constructor].
  - exact (Hsame (or_introl H)).
  - exact (Hother H).
  - exact (Hother H).
  - exact (Hother H).
  - exact (Hother H).
  - exact (Hother H).
  - exact (Hother H).
  - exact (Hother H).
  - exact (Hother H).
Qed.


Lemma ack_processing_rcv_wnd i seg loc fgn pcb fl pcb' evs :
  ack_processing i seg loc fgn pcb = (fl, pcb', evs) ->
  rcv_wnd pcb' = rcv_wnd pcb.
Proof.
  unfold ack_processing. intros H.
  destruct (state pcb); try (by injection H as <- <- <-).
  - destruct (ack_valid_syn_received pcb seg);
      [|by injection H as <- <- <-].
    destruct (ack_established seg (set_state TCP_PCB_STATE_ESTABLISHED pcb))
      as [[fl1 p1] evs1] eqn:Ha.
    injection H as <- <- <-.
    by destruct (ack_established_same _ _ _ _ _ Ha) as (_ & -> & _).
  - by destruct (ack_established_same _ _ _ _ _ H) as (_ & -> & _).
Qed.

(** The text copy stays inside [buf] when the text is no longer than
    rcv.wnd of the selected PCB. *)
Lemma tcp_segment_arrives_fits rnd seg flags data len loc fgn pcbs :
  (forall i pcb, tcp_pcb_select loc (Some fgn) pcbs = Some (i, pcb) ->
     len = 0 \/ (len <= Z.of_nat (length data) /\ len <= rcv_wnd pcb)) ->
  exists pcbs' evs,
    tcp_segment_arrives rnd seg flags data len loc fgn pcbs
    = Some (pcbs', evs).
Proof.
  intros Hfit. unfold tcp_segment_arrives.
  destruct (tcp_pcb_select loc (Some fgn) pcbs) as [[i pcb]|]; [|by eauto].
  specialize (Hfit i pcb eq_refl).
  assert (Hother : exists pcbs' evs,
    match arrives_otherwise i seg flags data len loc fgn pcb with
    | Some (pcb', evs) => Some (<[i := pcb']> pcbs, evs)
    | None => None
    end = Some (pcbs', evs)).
  { unfold arrives_otherwise.
    destruct (negb _); [destruct (negb _); by eauto|].
    destruct (negb _); [by eauto|].
    destruct (ack_processing i seg loc fgn pcb) as [[[|] p1] evs1] eqn:Ha;
      [|by eauto].
    pose proof (ack_processing_rcv_wnd _ _ _ _ _ _ _ _ Ha) as Hw.
    assert (Ht : exists r, text_processing i seg data len p1 = Some r).
    { unfold text_processing. destruct (state p1); try (by eauto).
      destruct Hfit as [->|[Hd Hl]]; [by eauto|].
      destruct (negb (len =? 0)); [|by eauto].
      unfold memcpy_into.
      destruct (Z.leb_spec len (Z.of_nat (length data))); [|lia].
      destruct (Z.leb_spec (BUF_SIZE - rcv_wnd p1 + len) BUF_SIZE); [|lia].
      by eauto. }
    destruct Ht as [[p2 evs2] ->]. by eauto. }
  destruct (state pcb); try exact Hother; try (by eauto).
  destruct (arrives_listen rnd seg flags loc fgn pcb). by eauto.
Qed.

(** X14.  For every arriving segment whose text, if it has any, is no
    longer than the data it comes with and than rcv.wnd of the PCB that
    [tcp_pcb_select] returns, so that the copy into [buf] stays inside
    it, [tcp_segment_arrives] keeps the size of the table and changes at
    most the selected PCB.  That PCB either goes from LISTEN to
    SYN_RECEIVED, taking the endpoints of the segment, or keeps its
    endpoints, iss, irs and snd.nxt and either keeps its state or goes
    from SYN_RECEIVED to ESTABLISHED.  Every wakeup is for the selected
    PCB and no interrupt is posted. *)
Theorem tcp_segment_arrives_frame rnd seg flags data len loc fgn pcbs :
  (forall i pcb, tcp_pcb_select loc (Some fgn) pcbs = Some (i, pcb) ->
     len = 0 \/ (len <= Z.of_nat (length data) /\ len <= rcv_wnd pcb)) ->
  exists pcbs' evs,
    tcp_segment_arrives rnd seg flags data len loc fgn pcbs
    = Some (pcbs', evs)
    /\ length pcbs' = length pcbs
    /\ (forall j, pcbs' !! j <> pcbs !! j ->
        exists p p',
          tcp_pcb_select loc (Some fgn) pcbs = Some (j, p)
          /\ pcbs' !! j = Some p'
          /\ (state p = TCP_PCB_STATE_LISTEN
              /\ state p' = TCP_PCB_STATE_SYN_RECEIVED
              /\ local p' = loc /\ foreign p' = fgn
              \/ (state p' = state p
                  \/ state p = TCP_PCB_STATE_SYN_RECEIVED
                     /\ state p' = TCP_PCB_STATE_ESTABLISHED)
                 /\ local p' = local p /\ foreign p' = foreign p
                 /\ iss p' = iss p /\ irs p' = irs p
                 /\ snd_nxt p' = snd_nxt p))
    /\ (forall e, In e evs ->
        match e with
        | Emit _ => True
        | Wakeup j => exists p, tcp_pcb_select loc (Some fgn) pcbs = Some (j, p)
        | Interrupt _ => False
        end).
Proof.
  intros Hfit.
  destruct (tcp_segment_arrives_fits rnd seg flags data len loc fgn pcbs Hfit)
    as (pcbs' & evs & Hr).
  exists pcbs', evs. split; [exact Hr|].
  exact (tcp_segment_arrives_changes _ _ _ _ _ _ _ _ _ _ Hr).
Qed.

Lemma tcp_segment_arrives_frame_witness :
  (forall i pcb,
     tcp_pcb_select host_endpoint (Some peer_endpoint) established_table
     = Some (i, pcb) ->
     5 = 0 \/ (5 <= Z.of_nat (length hello) /\ 5 <= rcv_wnd pcb))
  /\ exists pcbs' evs,
       tcp_segment_arrives 0 (mk_seg 1001 5556 5 4096 0)
         (Z.lor TCP_FLG_PSH TCP_FLG_ACK) hello 5 host_endpoint peer_endpoint
         established_table = Some (pcbs', evs)
       /\ length pcbs' = length established_table.
Proof.
  assert (Hfit : forall i pcb,
     tcp_pcb_select host_endpoint (Some peer_endpoint) established_table
     = Some (i, pcb) ->
     5 = 0 \/ (5 <= Z.of_nat (length hello) /\ 5 <= rcv_wnd pcb)).
  { intros i pcb H. rewrite established_table_select in H.
    injection H as <- <-. right. simpl. lia. }
  split; [exact Hfit|].
  destruct (tcp_segment_arrives_frame 0 (mk_seg 1001 5556 5 4096 0)
              (Z.lor TCP_FLG_PSH TCP_FLG_ACK) hello 5 host_endpoint
              peer_endpoint established_table Hfit)
    as (pcbs' & evs & Hr & Hlen & _).
  exists pcbs', evs. split; [exact Hr|exact Hlen].
Defined.

(** ** What [tcp_send] hands over *)

(** What one call of [tcp_send] hands to [ip_output] is, in order, a
    prefix of the caller's data that begins where the bytes already sent
    end. *)
Lemma tcp_send_from_prefix fuel busy i route data len mss_ sent sleeps txs
    pcbs r pcbs' evs :
  0 <= sent <= len ->
  (forall m, mss_ = Some m -> 0 <= m) ->
  tcp_send_from fuel busy i route data len mss_ sent sleeps txs pcbs
  = (r, pcbs', evs) ->
  exists k,
    sent <= k <= len
    /\ concat (payload_of <$> evs)
       = take (Z.to_nat (k - sent)) (drop (Z.to_nat sent) data)
    /\ (forall n, r = SendOk n -> n = k /\ (k = len \/ 0 < k))
    /\ (r = SendInterrupted -> k = 0).
Proof.
  revert mss_ sent sleeps txs pcbs r pcbs' evs.
  induction fuel as [|fuel IH];
    intros mss_ sent sleeps txs pcbs r pcbs' evs Hsent Hm H; simpl in H.
  { injection H as <- <- <-. exists sent. rewrite Z.sub_diag. simpl.
    repeat split; try lia; done. }
  assert (Hstop : forall r0 p0, (r0, p0, @nil event) = (r, pcbs', evs) ->
            r0 = SendFail \/ r0 = SendAsleep \/ r0 = SendOk sent
                             /\ (sent = len \/ 0 < sent)
            \/ r0 = SendInterrupted /\ sent = 0 ->
            exists k,
              sent <= k <= len
              /\ concat (payload_of <$> evs)
                 = take (Z.to_nat (k - sent)) (drop (Z.to_nat sent) data)
              /\ (forall n, r = SendOk n -> n = k /\ (k = len \/ 0 < k))
              /\ (r = SendInterrupted -> k = 0)).
  { intros r0 p0 [= <- <- <-] Hr. exists sent. rewrite Z.sub_diag. simpl.
    split; [lia|]. split; [done|].
    destruct Hr as [->|[->|[[-> Hr]|[-> Hr]]]];
      (split; [intros n [= <-]|intros [=]]); try done. }
  destruct (pcbs !! i) as [pcb|] eqn:Hl; [|apply (Hstop _ _ H); tauto].
  destruct mss_ as [m|].
  - specialize (Hm m eq_refl).
    destruct (Z.ltb_spec sent len) as [Hlt|Hge];
      [|apply (Hstop _ _ H); right; right; left; split; [done|lia]].
    destruct (wrap32 (snd_wnd pcb - wrap32 (snd_nxt pcb - snd_una pcb)) =? 0)
      eqn:Hcap.
    + destruct sleeps as [|[[|] env] rest].
      * apply (Hstop _ _ H). tauto.
      * eapply IH; [exact Hsent| |exact H]. intros m' Hm'. discriminate.
      * destruct (Z.eqb_spec sent 0) as [E|E].
        -- apply (Hstop _ _ H). right. right. right. done.
        -- apply (Hstop _ _ H). right. right. left. split; [done|lia].
    + set (cap := wrap32 (snd_wnd pcb - wrap32 (snd_nxt pcb - snd_una pcb)))
        in *.
      assert (Hcap0 : 0 <= cap).
      { subst cap. unfold wrap32. apply Z.mod_pos_bound. lia. }
      set (slen := Z.min (Z.min m (len - sent)) cap) in *.
      assert (Hslen : 0 <= slen <= len - sent) by (subst slen; lia).
      assert (Hfail :
        (let '(pcbs0, evs0) := tcp_abort busy i pcbs in
         (SendFail, pcbs0,
          tcp_output pcb (Z.lor TCP_FLG_ACK TCP_FLG_PSH)
            (drop (Z.to_nat sent) data) slen :: evs0))
        = (r, pcbs', evs) ->
        exists k,
          sent <= k <= len
          /\ concat (payload_of <$> evs)
             = take (Z.to_nat (k - sent)) (drop (Z.to_nat sent) data)
          /\ (forall n, r = SendOk n -> n = k /\ (k = len \/ 0 < k))
          /\ (r = SendInterrupted -> k = 0)).
      { unfold tcp_abort, tcp_pcb_release. rewrite Hl.
        destruct busy; intros [= <- <- <-]; exists (sent + slen);
          (split; [lia|]); (split; [|split; [intros n [=]|intros [=]]]);
          simpl; rewrite app_nil_r; f_equal; lia. }
      assert (Hgo :
        (let '(r0, pcbs0, evs0) :=
           tcp_send_from fuel busy i route data len (Some m) (sent + slen)
             sleeps (tail txs)
             (<[i := set_snd_nxt (wrap32 (snd_nxt pcb + slen)) pcb]> pcbs) in
         (r0, pcbs0,
          tcp_output pcb (Z.lor TCP_FLG_ACK TCP_FLG_PSH)
            (drop (Z.to_nat sent) data) slen :: evs0))
        = (r, pcbs', evs) ->
        exists k,
          sent <= k <= len
          /\ concat (payload_of <$> evs)
             = take (Z.to_nat (k - sent)) (drop (Z.to_nat sent) data)
          /\ (forall n, r = SendOk n -> n = k /\ (k = len \/ 0 < k))
          /\ (r = SendInterrupted -> k = 0)).
      { destruct (tcp_send_from fuel busy i route data len (Some m)
                    (sent + slen) sleeps (tail txs) _)
          as [[r0 pcbs0] evs0] eqn:Hrec.
        intros [= <- <- <-].
        assert (Hs' : 0 <= sent + slen <= len) by lia.
        assert (Hm' : forall m', Some m = Some m' -> 0 <= m')
          by (intros m' [= <-]; exact Hm).
        destruct (IH _ _ _ _ _ _ _ _ Hs' Hm' Hrec)
          as (k & Hk & Hcat & Hok & Hint).
        exists k. split; [lia|]. split; [|split].
        - rewrite fmap_cons. cbn [concat]. rewrite Hcat.
          unfold tcp_output, tcp_output_segment. cbn [payload_of o_data].
          rewrite Z2Nat.inj_add, <- drop_drop by lia.
          rewrite take_take_drop_Z by lia. f_equal. lia.
        - exact Hok.
        - intros E. specialize (Hint E). lia. }
      destruct txs as [|[|] txs']; [exact (Hgo H)|exact (Hgo H)|
                                     exact (Hfail H)].
  - destruct (state pcb); try (apply (Hstop _ _ H); tauto).
    destruct (route (addr (foreign pcb))) as [mtu|];
      [|apply (Hstop _ _ H); tauto].
    eapply IH; [exact Hsent| |exact H].
    intros m' [= <-]. unfold wrap_size. apply Z.mod_pos_bound. lia.
Qed.


(** With an mtu between 40 and 65535 no segment of [tcp_send] carries
    more than 65495 bytes, so that the copy in [tcp_output_segment] stays
    inside its buffer. *)
Lemma tcp_send_from_fits fuel busy i route data len mss_ sent sleeps txs
    pcbs r pcbs' evs :
  (forall a m, route a = Some m -> 40 <= m <= 65535) ->
  (forall m, mss_ = Some m -> 0 <= m <= 65495) ->
  tcp_send_from fuel busy i route data len mss_ sent sleeps txs pcbs
  = (r, pcbs', evs) ->
  Forall (fun e => Z.of_nat (length (payload_of e)) <= 65495) evs.
Proof.
  intros Hroute. revert mss_ sent sleeps txs pcbs r pcbs' evs.
  induction fuel as [|fuel IH];
    intros mss_ sent sleeps txs pcbs r pcbs' evs Hm H; simpl in H.
  { injection H as <- <- <-. by apply Forall_nil. }
  assert (Hstop : forall r0 p0, (r0, p0, @nil event) = (r, pcbs', evs) ->
            Forall (fun e => Z.of_nat (length (payload_of e)) <= 65495) evs).
  { intros r0 p0 [= <- <- <-]. by apply Forall_nil. }
  destruct (pcbs !! i) as [pcb|] eqn:Hl; [|exact (Hstop _ _ H)].
  destruct mss_ as [m|].
  - specialize (Hm m eq_refl).
    destruct (sent <? len); [|exact (Hstop _ _ H)].
    destruct (wrap32 (snd_wnd pcb - wrap32 (snd_nxt pcb - snd_una pcb)) =? 0).
    + destruct sleeps as [|[[|] env] rest].
      * exact (Hstop _ _ H).
      * eapply IH; [|exact H]. discriminate.
      * destruct (sent =? 0); exact (Hstop _ _ H).
    + set (slen := Z.min (Z.min m (len - sent))
                     (wrap32 (snd_wnd pcb
                              - wrap32 (snd_nxt pcb - snd_una pcb)))) in *.
      assert (Hev : Z.of_nat (length (payload_of
                      (tcp_output pcb (Z.lor TCP_FLG_ACK TCP_FLG_PSH)
                         (drop (Z.to_nat sent) data) slen))) <= 65495).
      { unfold tcp_output, tcp_output_segment. cbn [payload_of o_data].
        rewrite length_take. subst slen. lia. }
      destruct txs as [|[|] txs'].
      * destruct (tcp_send_from fuel busy i route data len (Some m)
                    (sent + slen) sleeps (tail []) _)
          as [[r0 pcbs0] evs0] eqn:Hrec.
        injection H as <- <- <-. apply Forall_cons. split; [exact Hev|].
        eapply IH; [|exact Hrec]. by intros m' [= <-].
      * destruct (tcp_send_from fuel busy i route data len (Some m)
                    (sent + slen) sleeps (tail (true :: txs')) _)
          as [[r0 pcbs0] evs0] eqn:Hrec.
        injection H as <- <- <-. apply Forall_cons. split; [exact Hev|].
        eapply IH; [|exact Hrec]. by intros m' [= <-].
      * unfold tcp_abort, tcp_pcb_release in H. rewrite Hl in H.
        destruct busy; injection H as <- <- <-;
          repeat (apply Forall_cons; split; [first [exact Hev|simpl; lia]|]);
          by apply Forall_nil.
  - destruct (state pcb); try exact (Hstop _ _ H).
    destruct (route (addr (foreign pcb))) as [m|] eqn:Hr;
      [|exact (Hstop _ _ H)].
    eapply IH; [|exact H].
    intros m' [= <-]. specialize (Hroute _ _ Hr).
    unfold wrap_size, IP_HDR_SIZE_MIN, TCP_HDR_SIZE.
    rewrite Z.mod_small by lia. lia.
Qed.

(** X19.  Let the routing answer only with an mtu between the 40 bytes
    of the two headers and 65535, and let [data] hold [len] bytes.  Then
    whatever the other threads do while [tcp_send] sleeps, whatever
    [ip_output] answers and however long the call runs, the payloads one
    call of [tcp_send] hands to [ip_output] are, in order, the first k
    bytes of the caller's data for some k <= len, each payload at most
    65495 bytes long.  When the call returns a count the count is k, and
    it is len or at least positive; when it fails with EINTR none of the
    data was sent. *)
Theorem tcp_send_prefix fuel busy route id data len sleeps txs pcbs r pcbs'
    evs :
  (forall a m, route a = Some m -> 40 <= m <= 65535) ->
  0 <= len <= Z.of_nat (length data) ->
  tcp_send fuel busy route id data len sleeps txs pcbs = (r, pcbs', evs) ->
  exists k,
    0 <= k <= len
    /\ concat (payload_of <$> evs) = take (Z.to_nat k) data
    /\ Forall (fun e => Z.of_nat (length (payload_of e)) <= 65495) evs
    /\ (forall n, r = SendOk n -> n = k /\ (k = len \/ 0 < k))
    /\ (r = SendInterrupted -> k = 0).
Proof.
  intros Hroute Hlen H. unfold tcp_send in H.
  destruct (tcp_pcb_get id pcbs) as [[i pcb]|].
  - assert (H0 : 0 <= 0 <= len) by lia.
    assert (Hm : forall m, @None Z = Some m -> 0 <= m) by discriminate.
    assert (Hm' : forall m, @None Z = Some m -> 0 <= m <= 65495)
      by discriminate.
    destruct (tcp_send_from_prefix _ _ _ _ _ _ _ _ _ _ _ _ _ _ H0 Hm H)
      as (k & Hk & Hcat & Hok & Hint).
    pose proof (tcp_send_from_fits _ _ _ _ _ _ _ _ _ _ _ _ _ _ Hroute Hm' H)
      as Hfit.
    exists k. rewrite Z.sub_0_r in Hcat. simpl in Hcat. done.
  - injection H as <- <- <-. exists 0. simpl.
    split; [lia|]. split; [done|]. split; [by apply Forall_nil|].
    split; [intros n [=]|intros [=]].
Qed.

Lemma tcp_send_prefix_witness :
  ((forall a m, (fun _ : Z => Some 1500) a = Some m -> 40 <= m <= 65535)
   /\ 0 <= 5 <= Z.of_nat (length hello)
   /\ tcp_send 8 false (fun _ => Some 1500) 0 hello 5 [] [] established_table
      = (SendOk 5,
         <[0%nat := set_snd_nxt 5561 established_pcb]> established_table,
         [tcp_output established_pcb (Z.lor TCP_FLG_ACK TCP_FLG_PSH) hello 5]))
  /\ exists k,
       0 <= k <= 5
       /\ concat (payload_of <$>
                  [tcp_output established_pcb (Z.lor TCP_FLG_ACK TCP_FLG_PSH)
                     hello 5])
          = take (Z.to_nat k) hello
       /\ Forall (fun e => Z.of_nat (length (payload_of e)) <= 65495)
                 [tcp_output established_pcb (Z.lor TCP_FLG_ACK TCP_FLG_PSH)
                    hello 5]
       /\ (forall n, SendOk 5 = SendOk n -> n = k /\ (k = 5 \/ 0 < k))
       /\ (SendOk 5 = SendInterrupted -> k = 0).
Proof.
  assert (Hr : forall a m, (fun _ : Z => Some 1500) a = Some m ->
                           40 <= m <= 65535) by (intros a m [= <-]; lia).
  assert (H0 : 0 <= 5 <= Z.of_nat (length hello)) by (simpl; lia).
  assert (H : tcp_send 8 false (fun _ => Some 1500) 0 hello 5 [] []
                established_table
              = (SendOk 5,
                 <[0%nat := set_snd_nxt 5561 established_pcb]>
                   established_table,
                 [tcp_output established_pcb (Z.lor TCP_FLG_ACK TCP_FLG_PSH)
                    hello 5]))
    by (vm_compute; reflexivity).
  split; [done|].
  exact (tcp_send_prefix _ _ _ _ _ _ _ _ _ _ _ _ Hr H0 H).
Defined.

(** ** A segment size of zero *)

Lemma tcp_send_loop_zero_mss fuel busy i route data len sleeps :
  forall txs pcbs pcb,
  pcbs !! i = Some pcb -> is_u32 (snd_nxt pcb) ->
  0 < len ->
  wrap32 (snd_wnd pcb - wrap32 (snd_nxt pcb - snd_una pcb)) <> 0 ->
  Forall (fun b => b = true) txs ->
  tcp_send_from fuel busy i route data len (Some 0) 0 sleeps txs pcbs
  = (SendRunning, pcbs,
     replicate fuel (Emit {| o_seq := snd_nxt pcb;
                             o_ack := rcv_nxt pcb;
                             o_flg := Z.lor TCP_FLG_ACK TCP_FLG_PSH;
                             o_wnd := rcv_wnd pcb;
                             o_data := [];
                             o_local := local pcb;
                             o_foreign := foreign pcb |})).
Proof.
  induction fuel as [|fuel IH]; intros txs pcbs pcb Hl Hu Hlen Hcap Htx.
  { reflexivity. }
  cbn [tcp_send_from]. rewrite Hl.
  destruct (Z.ltb_spec 0 len); [|lia].
  destruct (Z.eqb_spec
              (wrap32 (snd_wnd pcb - wrap32 (snd_nxt pcb - snd_una pcb))) 0);
    [done|].
  assert (Hcap0 : 0 <= wrap32 (snd_wnd pcb
                               - wrap32 (snd_nxt pcb - snd_una pcb))).
  { unfold wrap32. apply Z.mod_pos_bound. lia. }
  assert (Hslen : Z.min (Z.min 0 (len - 0))
                    (wrap32 (snd_wnd pcb - wrap32 (snd_nxt pcb - snd_una pcb)))
                  = 0) by lia.
  rewrite Hslen, !Z.add_0_r.
  assert (Hsame : <[i := set_snd_nxt (wrap32 (snd_nxt pcb)) pcb]> pcbs = pcbs).
  { unfold wrap32. rewrite Z.mod_small by exact Hu.
    rewrite set_snd_nxt_same. by apply list_insert_id. }
  rewrite Hsame.
  assert (Htx1 : Forall (fun b => b = true) (tail txs)).
  { destruct txs; [done|]. by apply Forall_cons in Htx as [_ Htx]. }
  pose proof (IH (tail txs) pcbs pcb Hl Hu Hlen Hcap Htx1) as Hrec.
  destruct txs as [|[|] txs'].
  - cbn [tail] in *. rewrite Hrec. reflexivity.
  - cbn [tail] in *. rewrite Hrec. reflexivity.
  - apply Forall_cons in Htx as [Hb _]. discriminate.
Qed.

(** X21.  With a route whose mtu is exactly the 40 bytes of the two
    headers the segment size is zero.  Then, as long as no call of
    [ip_output] fails, [tcp_send] of a non-empty buffer on an ESTABLISHED
    connection with an open window never returns: however many turns it
    is given, it is still in its loop, has left the table as it was, and
    has emitted one segment per turn, each the same empty PSH|ACK with
    seq = snd.nxt, ack = rcv.nxt and window = rcv.wnd. *)
Theorem tcp_send_zero_mss fuel busy route id data len sleeps txs pcbs i pcb :
  tcp_pcb_get id pcbs = Some (i, pcb) ->
  state pcb = TCP_PCB_STATE_ESTABLISHED ->
  route (addr (foreign pcb)) = Some (IP_HDR_SIZE_MIN + TCP_HDR_SIZE) ->
  is_u32 (snd_nxt pcb) ->
  0 < len ->
  wrap32 (snd_wnd pcb - wrap32 (snd_nxt pcb - snd_una pcb)) <> 0 ->
  Forall (fun b => b = true) txs ->
  tcp_send fuel busy route id data len sleeps txs pcbs
  = (SendRunning, pcbs,
     replicate (fuel - 1)
       (Emit {| o_seq := snd_nxt pcb;
                o_ack := rcv_nxt pcb;
                o_flg := Z.lor TCP_FLG_ACK TCP_FLG_PSH;
                o_wnd := rcv_wnd pcb;
                o_data := [];
                o_local := local pcb;
                o_foreign := foreign pcb |})).
Proof.
  intros Hget Hs Hroute Hu Hlen Hcap Htx.
  destruct (tcp_pcb_get_lookup _ _ _ _ Hget) as [Hl _].
  unfold tcp_send. rewrite Hget.
  destruct fuel as [|fuel]; [reflexivity|].
  cbn [tcp_send_from]. rewrite Hl, Hs, Hroute.
  change (wrap_size (IP_HDR_SIZE_MIN + TCP_HDR_SIZE
                     - (IP_HDR_SIZE_MIN + TCP_HDR_SIZE))) with 0.
  rewrite (tcp_send_loop_zero_mss fuel busy i route data len sleeps txs pcbs
             pcb Hl Hu Hlen Hcap Htx).
  by rewrite Nat.sub_succ, Nat.sub_0_r.
Qed.

Lemma tcp_send_zero_mss_witness :
  (tcp_pcb_get 0 established_table = Some (0%nat, established_pcb)
   /\ state established_pcb = TCP_PCB_STATE_ESTABLISHED
   /\ is_u32 (snd_nxt established_pcb)
   /\ 0 < 5
   /\ wrap32 (snd_wnd established_pcb
              - wrap32 (snd_nxt established_pcb - snd_una established_pcb))
      <> 0)
  /\ tcp_send 1000 false (fun _ => Some 40) 0 hello 5 [] []
       established_table
     = (SendRunning, established_table,
        replicate 999
          (Emit {| o_seq := 5556; o_ack := 1001;
                   o_flg := Z.lor TCP_FLG_ACK TCP_FLG_PSH;
                   o_wnd := 65535; o_data := [];
                   o_local := host_endpoint;
                   o_foreign := peer_endpoint |})).
Proof.
  assert (Hget : tcp_pcb_get 0 established_table
                 = Some (0%nat, established_pcb)) by (vm_compute; reflexivity).
  assert (Hs : state established_pcb = TCP_PCB_STATE_ESTABLISHED)
    by reflexivity.
  assert (Hu : is_u32 (snd_nxt established_pcb))
    by (unfold is_u32; simpl; lia).
  assert (Hlen : 0 < 5) by lia.
  assert (Hcap : wrap32 (snd_wnd established_pcb
                         - wrap32 (snd_nxt established_pcb
                                   - snd_una established_pcb)) <> 0)
    by (vm_compute; discriminate).
  split; [done|].
  exact (tcp_send_zero_mss 1000 false (fun _ => Some 40) 0 hello 5 [] []
           established_table 0%nat established_pcb Hget Hs eq_refl Hu Hlen
           Hcap (Forall_nil_2 _)).
Defined.

(** ** A transmit failure *)

Lemma set_snd_nxt_twice v w pcb :
  set_snd_nxt v (set_snd_nxt w pcb) = set_snd_nxt v pcb.
Proof. reflexivity. Qed.

Lemma tcp_send_loop_tx_fail fuel busy i route data len m sleeps rest :
  1 <= m -> len <= Z.of_nat (length data) ->
  forall k sent pcbs pcb,
  pcbs !! i = Some pcb -> is_u32 (snd_nxt pcb) ->
  0 <= sent ->
  sent + Z.of_nat k * m < len ->
  wrap32 (snd_nxt pcb - snd_una pcb) + (len - sent) <= snd_wnd pcb ->
  snd_wnd pcb < 2 ^ 32 ->
  (k + 1 <= fuel)%nat ->
  exists evs,
    tcp_send_from fuel busy i route data len (Some m) sent sleeps
                  (replicate k true ++ false :: rest) pcbs
    = (SendFail,
       <[i := if busy
              then set_state TCP_PCB_STATE_CLOSED
                     (set_snd_nxt (wrap32 (snd_nxt pcb + Z.of_nat k * m)) pcb)
              else pcb_zero]> pcbs,
       evs ++ (if busy then [Wakeup i] else []))
    /\ length evs = S k
    /\ Forall (fun e => exists o, e = Emit o) evs
    /\ concat (payload_of <$> evs)
       = take (Z.to_nat (Z.min (len - sent) (Z.of_nat (S k) * m)))
              (drop (Z.to_nat sent) data).
Proof.
  intros Hm Hdata. induction fuel as [|fuel IH];
    intros k sent pcbs pcb Hl Hu Hsent Hk Hwin Hwnd Hfuel; [lia|].
  cbn [tcp_send_from]. rewrite Hl.
  assert (Hin : 0 <= wrap32 (snd_nxt pcb - snd_una pcb) < 2 ^ 32).
  { unfold wrap32. apply Z.mod_pos_bound. lia. }
  destruct (Z.ltb_spec sent len) as [Hlt|]; [|lia].
  assert (Hcap : wrap32 (snd_wnd pcb - wrap32 (snd_nxt pcb - snd_una pcb))
                 = snd_wnd pcb - wrap32 (snd_nxt pcb - snd_una pcb)).
  { apply Z.mod_small. lia. }
  rewrite Hcap.
  destruct (Z.eqb_spec (snd_wnd pcb - wrap32 (snd_nxt pcb - snd_una pcb)) 0);
    [lia|].
  set (slen := Z.min (Z.min m (len - sent))
                     (snd_wnd pcb - wrap32 (snd_nxt pcb - snd_una pcb))).
  destruct k as [|k]; cbn [replicate app].
  - assert (Hslen : slen = Z.min (len - sent) (Z.of_nat 1 * m))
      by (subst slen; lia).
    unfold tcp_abort, tcp_pcb_release. rewrite Hl.
    exists [tcp_output pcb (Z.lor TCP_FLG_ACK TCP_FLG_PSH)
              (drop (Z.to_nat sent) data) slen].
    split; [|split; [done|split]].
    + change (Z.of_nat 0 * m) with 0. rewrite Z.add_0_r.
      unfold wrap32 at 1. rewrite Z.mod_small by exact Hu.
      rewrite set_snd_nxt_same.
      destruct busy; [reflexivity|]. by rewrite list_insert_insert_eq.
    + apply Forall_cons. split; [|by apply Forall_nil].
      unfold tcp_output, tcp_output_segment. by eexists.
    + unfold tcp_output, tcp_output_segment. cbn. rewrite app_nil_r.
      by rewrite Hslen.
  - assert (Hslen : slen = m) by (subst slen; lia).
    set (pcb1 := set_snd_nxt (wrap32 (snd_nxt pcb + slen)) pcb).
    assert (Hl1 : <[i := pcb1]> pcbs !! i = Some pcb1).
    { apply list_lookup_insert_eq. by eapply lookup_lt_Some. }
    assert (Hu1 : is_u32 (snd_nxt pcb1)).
    { subst pcb1. simpl. unfold is_u32, wrap32. apply Z.mod_pos_bound. lia. }
    assert (Hwin1 : wrap32 (snd_nxt pcb1 - snd_una pcb1)
                    + (len - (sent + slen)) <= snd_wnd pcb1).
    { subst pcb1. simpl. rewrite wrap32_add_sub.
      unfold wrap32 at 1. rewrite Z.mod_small by lia. lia. }
    destruct (IH k (sent + slen) (<[i := pcb1]> pcbs) pcb1 Hl1 Hu1
                ltac:(lia) ltac:(lia) Hwin1 Hwnd ltac:(lia))
      as (evs & Hrec & Hn & Hem & Hcat).
    cbn [tail]. rewrite Hrec, list_insert_insert_eq.
    exists (tcp_output pcb (Z.lor TCP_FLG_ACK TCP_FLG_PSH)
              (drop (Z.to_nat sent) data) slen :: evs).
    split; [|split; [|split]].
    + assert (Hfin :
        set_snd_nxt (wrap32 (snd_nxt pcb1 + Z.of_nat k * m)) pcb1
        = set_snd_nxt (wrap32 (snd_nxt pcb + Z.of_nat (S k) * m)) pcb).
      { subst pcb1. rewrite set_snd_nxt_twice.
        cbn [snd_nxt set_snd_nxt]. rewrite wrap32_add_add.
        do 2 f_equal. lia. }
      by rewrite Hfin.
    + simpl. by rewrite Hn.
    + apply Forall_cons. split; [|exact Hem].
      unfold tcp_output, tcp_output_segment. by eexists.
    + rewrite fmap_cons. cbn [concat]. rewrite Hcat.
      unfold tcp_output, tcp_output_segment. cbn [payload_of o_data].
      rewrite Z2Nat.inj_add, <- drop_drop by lia.
      rewrite take_take_drop_Z by lia. f_equal. lia.
Qed.

(** X26.  When [ip_output] fails, [tcp_send] returns -1 and gives the
    connection up, whatever it had sent before.  After k full segments
    went out and the next one failed, k + 1 segments with the first
    min(len, (k + 1) * (mtu - 40)) bytes of the data were handed to
    [ip_output].  If [sched_ctx_destroy] then succeeds, the slot of the
    PCB is all zero and the handle is dead.  If it refuses because a
    waiter is still asleep, a wakeup is posted, and the PCB stays in the
    table in state CLOSED, with snd.nxt advanced by the k segments, and
    its handle stays valid. *)
Theorem tcp_send_tx_failure fuel (busy : bool) route id data len sleeps k rest
    pcbs i pcb mtu_ :
  tcp_pcb_get id pcbs = Some (i, pcb) ->
  state pcb = TCP_PCB_STATE_ESTABLISHED ->
  route (addr (foreign pcb)) = Some mtu_ ->
  IP_HDR_SIZE_MIN + TCP_HDR_SIZE < mtu_ <= 65535 ->
  is_u32 (snd_nxt pcb) -> snd_wnd pcb < 2 ^ 32 ->
  len <= Z.of_nat (length data) ->
  wrap32 (snd_nxt pcb - snd_una pcb) + len <= snd_wnd pcb ->
  Z.of_nat k * (mtu_ - (IP_HDR_SIZE_MIN + TCP_HDR_SIZE)) < len ->
  (k + 2 <= fuel)%nat ->
  let closed :=
    set_state TCP_PCB_STATE_CLOSED
      (set_snd_nxt
         (wrap32 (snd_nxt pcb
                  + Z.of_nat k * (mtu_ - (IP_HDR_SIZE_MIN + TCP_HDR_SIZE))))
         pcb) in
  let pcbs' := <[i := if busy then closed else pcb_zero]> pcbs in
  exists evs,
    tcp_send fuel busy route id data len sleeps
             (replicate k true ++ false :: rest) pcbs
    = (SendFail, pcbs', evs ++ (if busy then [Wakeup i] else []))
    /\ length evs = S k
    /\ Forall (fun e => exists o, e = Emit o) evs
    /\ concat (payload_of <$> evs)
       = take (Z.to_nat (Z.min len
                 (Z.of_nat (S k)
                  * (mtu_ - (IP_HDR_SIZE_MIN + TCP_HDR_SIZE))))) data
    /\ tcp_pcb_get id pcbs' = if busy then Some (i, closed) else None.
Proof.
  intros Hget Hs Hroute Hmtu Hu Hwnd Hlen Hwin Hk Hfuel closed pcbs'.
  destruct (tcp_pcb_get_lookup _ _ _ _ Hget) as [Hl _].
  unfold tcp_send. rewrite Hget.
  destruct fuel as [|fuel]; [lia|].
  cbn [tcp_send_from]. rewrite Hl, Hs, Hroute.
  subst pcbs' closed.
  unfold IP_HDR_SIZE_MIN, TCP_HDR_SIZE in *.
  assert (Hmss : wrap_size (mtu_ - (20 + 20)) = mtu_ - (20 + 20)).
  { unfold wrap_size. apply Z.mod_small. lia. }
  rewrite Hmss.
  destruct (tcp_send_loop_tx_fail fuel busy i route data len
              (mtu_ - (20 + 20)) sleeps rest ltac:(lia) Hlen k 0 pcbs pcb Hl
              Hu ltac:(lia) ltac:(lia) ltac:(lia) Hwnd ltac:(lia))
    as (evs & Hrun & Hn & Hem & Hcat).
  exists evs. split; [exact Hrun|]. split; [exact Hn|]. split; [exact Hem|].
  split.
  { rewrite Hcat, Z.sub_0_r. reflexivity. }
  unfold tcp_pcb_get in *.
  destruct ((id <? 0) || (id >=? Z.of_nat TCP_PCB_SIZE)); [done|].
  destruct (pcbs !! Z.to_nat id) as [q|] eqn:Hq; [|discriminate].
  destruct (pcb_state_eqb (state q) TCP_PCB_STATE_FREE); [discriminate|].
  injection Hget as <- <-.
  rewrite list_lookup_insert_eq by (by eapply lookup_lt_Some).
  by destruct busy.
Qed.

Lemma tcp_send_tx_failure_witness :
  (tcp_pcb_get 0 established_table = Some (0%nat, established_pcb)
   /\ state established_pcb = TCP_PCB_STATE_ESTABLISHED
   /\ IP_HDR_SIZE_MIN + TCP_HDR_SIZE < 42 <= 65535
   /\ is_u32 (snd_nxt established_pcb)
   /\ snd_wnd established_pcb < 2 ^ 32
   /\ 5 <= Z.of_nat (length hello)
   /\ wrap32 (snd_nxt established_pcb - snd_una established_pcb) + 5
      <= snd_wnd established_pcb
   /\ Z.of_nat 1 * (42 - (IP_HDR_SIZE_MIN + TCP_HDR_SIZE)) < 5)
  /\ exists evs,
       tcp_send 7 true (fun _ => Some 42) 0 hello 5 [] [true; false]
         established_table
       = (SendFail,
          <[0%nat := set_state TCP_PCB_STATE_CLOSED
                       (set_snd_nxt 5558 established_pcb)]>
            established_table,
          evs ++ [Wakeup 0])
       /\ concat (payload_of <$> evs) = [104; 101; 108; 108].
Proof.
  assert (Hget : tcp_pcb_get 0 established_table
                 = Some (0%nat, established_pcb)) by (vm_compute; reflexivity).
  assert (Hs : state established_pcb = TCP_PCB_STATE_ESTABLISHED)
    by reflexivity.
  assert (Hmtu : IP_HDR_SIZE_MIN + TCP_HDR_SIZE < 42 <= 65535)
    by (unfold IP_HDR_SIZE_MIN, TCP_HDR_SIZE; lia).
  assert (Hu : is_u32 (snd_nxt established_pcb))
    by (unfold is_u32; simpl; lia).
  assert (Hwnd : snd_wnd established_pcb < 2 ^ 32) by (simpl; lia).
  assert (Hlen : 5 <= Z.of_nat (length hello)) by (simpl; lia).
  assert (Hwin : wrap32 (snd_nxt established_pcb - snd_una established_pcb)
                 + 5 <= snd_wnd established_pcb)
    by (vm_compute; discriminate).
  assert (Hk : Z.of_nat 1 * (42 - (IP_HDR_SIZE_MIN + TCP_HDR_SIZE)) < 5)
    by (unfold IP_HDR_SIZE_MIN, TCP_HDR_SIZE; lia).
  split; [done|].
  destruct (tcp_send_tx_failure 7 true (fun _ => Some 42) 0 hello 5 [] 1 []
              established_table 0%nat established_pcb 42
              Hget Hs eq_refl Hmtu Hu Hwnd Hlen Hwin Hk ltac:(simpl; lia))
    as (evs & Hrun & Hn & Hem & Hcat & _).
  exists evs. split; [exact Hrun|exact Hcat].
Defined.

(** ** The interface list *)

Lemma chain_insert cs p c l :
  forall from, chain cs from l -> p ∉ l -> chain (<[p := c]> cs) from l.
Proof.
  induction l as [|q l IH]; intros from Hc Hp; [exact Hc|].
  destruct Hc as (-> & d & Hq & Hrest).
  apply not_elem_of_cons in Hp as [Hpq Hp].
  split; [reflexivity|]. exists d. split.
  - rewrite list_lookup_insert_ne by done. exact Hq.
  - by apply IH.
Qed.

Lemma ifaces_after_chain regs :
  forall m l,
  chain (cells m) (ifaces m) l ->
  NoDup (linked regs ++ l) ->
  Forall (fun p => (p < length (cells m))%nat) (linked regs) ->
  exists m',
    ifaces_after regs m = Some m'
    /\ chain (cells m') (ifaces m') (rev (linked regs) ++ l)
    /\ cell_iface <$> cells m' = cell_iface <$> cells m.
Proof.
  induction regs as [|[added p] regs IH]; intros m l Hc Hnd Hv.
  - exists m. by repeat split.
  - cbn [ifaces_after fst snd]. unfold ip_iface_register.
    destruct added.
    + change (linked ((true, p) :: regs)) with (p :: linked regs) in *.
      apply Forall_cons in Hv as [Hp Hv].
      cbn [app] in Hnd. apply NoDup_cons in Hnd as [Hnew Hnd].
      destruct (lookup_lt_is_Some_2 _ _ Hp) as [c Hl]. rewrite Hl.
      set (m1 := {| cells := <[p := {| cell_iface := cell_iface c;
                                       cell_next := ifaces m |}]> (cells m);
                    ifaces := Some p |}).
      destruct (IH m1 (p :: l)) as (m' & Hrun & Hch & Hsame).
      * split; [reflexivity|]. eexists. split.
        { apply list_lookup_insert_eq. exact Hp. }
        cbn [cell_next]. apply chain_insert; [exact Hc|].
        intros Hin. apply Hnew. apply elem_of_app. by right.
      * apply NoDup_app. apply NoDup_app in Hnd as (Hn1 & Hn2 & Hn3).
        split; [exact Hn1|]. split.
        { intros q Hq Hq'. apply elem_of_cons in Hq' as [->|Hq'].
          - apply Hnew. apply elem_of_app. by left.
          - by apply (Hn2 q). }
        apply NoDup_cons. split; [|exact Hn3].
        intros Hin. apply Hnew. apply elem_of_app. by right.
      * subst m1. cbn [cells]. rewrite length_insert. exact Hv.
      * exists m'. split; [exact Hrun|]. split.
        { cbn [rev]. rewrite <- app_assoc. exact Hch. }
        rewrite Hsame. subst m1. cbn [cells].
        rewrite list_fmap_insert. cbn [cell_iface].
        apply list_insert_id. rewrite list_lookup_fmap, Hl. reflexivity.
    + change (linked ((false, p) :: regs)) with (linked regs) in *.
      by apply IH.
Qed.

Lemma ip_iface_walk_chain a cs l :
  forall fuel from,
  chain cs from l -> (length l < fuel)%nat ->
  ip_iface_walk fuel a cs from
  = Selected (head (filter (fun p => unicast_at cs p = Some a) l)).
Proof.
  induction l as [|p l IH]; intros fuel hd Hc Hf.
  - destruct fuel; [simpl in Hf; lia|]. simpl in Hc. subst hd. reflexivity.
  - destruct fuel; [simpl in Hf; lia|].
    destruct Hc as (-> & c & Hl & Hrest).
    cbn [ip_iface_walk]. rewrite Hl. rewrite filter_cons.
    assert (Hu : unicast_at cs p = Some (unicast (cell_iface c)))
      by (unfold unicast_at; by rewrite Hl).
    destruct (Z.eqb_spec (unicast (cell_iface c)) a) as [Heq|Hne].
    + rewrite decide_True by congruence. reflexivity.
    + rewrite decide_False by congruence.
      apply IH; [exact Hrest|simpl in Hf; lia].
Qed.

Lemma head_filter_rev {A} (P : A -> Prop) `{!forall x, Decision (P x)}
    (l : list A) :
  head (filter P (rev l)) = last (filter P l).
Proof.
  induction l as [|x l IH] using rev_ind; [reflexivity|].
  rewrite rev_app_distr. cbn [rev app].
  rewrite filter_cons, filter_app, filter_cons, filter_nil.
  destruct (decide (P x)).
  - rewrite last_snoc. reflexivity.
  - rewrite app_nil_r. exact IH.
Qed.

Lemma unicast_at_same cs cs' p :
  cell_iface <$> cs' = cell_iface <$> cs ->
  unicast_at cs' p = unicast_at cs p.
Proof.
  intros H. unfold unicast_at.
  assert (Hp : (cell_iface <$> cs') !! p = (cell_iface <$> cs) !! p)
    by (by rewrite H).
  rewrite !list_lookup_fmap in Hp.
  destruct (cs' !! p), (cs !! p); simpl in *; congruence.
Qed.

(** X23.  A series of calls of [ip_iface_register] that starts from the
    empty list and links every object at most once: the calls all
    return, the objects keep their addresses, and [ip_iface_select]
    returns the object linked last among those whose unicast address is
    the one asked for, NULL when there is none.  The walk takes at most
    one turn more than there are objects linked. *)
Theorem ip_iface_select_latest cs regs a fuel :
  NoDup (linked regs) ->
  Forall (fun p => (p < length cs)%nat) (linked regs) ->
  (length (linked regs) < fuel)%nat ->
  exists m,
    ifaces_after regs {| cells := cs; ifaces := None |} = Some m
    /\ cell_iface <$> cells m = cell_iface <$> cs
    /\ ip_iface_select fuel a m
       = Selected (last (filter (fun p => unicast_at cs p = Some a)
                                (linked regs))).
Proof.
  intros Hnd Hv Hf.
  destruct (ifaces_after_chain regs {| cells := cs; ifaces := None |} [])
    as (m & Hrun & Hch & Hsame).
  - reflexivity.
  - by rewrite app_nil_r.
  - exact Hv.
  - exists m. split; [exact Hrun|]. split; [exact Hsame|].
    rewrite app_nil_r in Hch. unfold ip_iface_select.
    rewrite (ip_iface_walk_chain a _ _ fuel _ Hch)
      by (by rewrite length_rev).
    rewrite head_filter_rev. f_equal. f_equal.
    apply list_filter_iff. intros p.
    by rewrite (unicast_at_same _ _ _ Hsame).
Qed.

Lemma ip_iface_select_latest_witness :
  (NoDup (linked [(true, 0%nat); (false, 1%nat); (true, 2%nat)])
   /\ Forall (fun p => (p < length (three_cells false))%nat)
             (linked [(true, 0%nat); (false, 1%nat); (true, 2%nat)])
   /\ (length (linked [(true, 0%nat); (false, 1%nat); (true, 2%nat)])
       < 3)%nat)
  /\ exists m,
       ifaces_after [(true, 0%nat); (false, 1%nat); (true, 2%nat)]
         {| cells := three_cells false; ifaces := None |} = Some m
       /\ ip_iface_select 3 33554442 m = Selected (Some 2%nat).
Proof.
  assert (Hnd : NoDup (linked [(true, 0%nat); (false, 1%nat); (true, 2%nat)])).
  { apply (bool_decide_unpack _). vm_compute. exact I. }
  assert (Hv : Forall (fun p => (p < length (three_cells false))%nat)
                 (linked [(true, 0%nat); (false, 1%nat); (true, 2%nat)])).
  { apply (bool_decide_unpack _). vm_compute. exact I. }
  assert (Hf : (length (linked [(true, 0%nat); (false, 1%nat); (true, 2%nat)])
                < 3)%nat) by (simpl; lia).
  split; [done|].
  destruct (ip_iface_select_latest (three_cells false)
              [(true, 0%nat); (false, 1%nat); (true, 2%nat)] 33554442 3
              Hnd Hv Hf) as (m & Hrun & _ & Hsel).
  exists m. split; [exact Hrun|]. exact Hsel.
Defined.

(** X27.  Registering the same object twice in a row makes the list
    cyclic: the object is the head and its own successor, whatever was
    in the list before is cut off, and [ip_iface_select] returns the
    object for its own unicast address and never returns for any
    other. *)
Theorem ip_iface_register_twice p c m :
  cells m !! p = Some c ->
  exists m2,
    ifaces_after [(true, p); (true, p)] m = Some m2
    /\ ifaces m2 = Some p
    /\ cells m2 = <[p := {| cell_iface := cell_iface c;
                            cell_next := Some p |}]> (cells m)
    /\ (forall fuel, ip_iface_select (S fuel) (unicast (cell_iface c)) m2
                     = Selected (Some p))
    /\ (forall fuel a, a <> unicast (cell_iface c) ->
                       ip_iface_select fuel a m2 = Unfinished).
Proof.
  intros Hl.
  assert (Hp : (p < length (cells m))%nat) by (by eapply lookup_lt_Some).
  cbn [ifaces_after fst snd]. unfold ip_iface_register.
  rewrite Hl. cbn [cells ifaces].
  rewrite list_lookup_insert_eq by exact Hp. cbn [cell_iface].
  rewrite list_insert_insert_eq.
  eexists. split; [reflexivity|]. cbn [cells ifaces].
  split; [reflexivity|]. split; [reflexivity|].
  assert (Hl2 : <[p := {| cell_iface := cell_iface c;
                          cell_next := Some p |}]> (cells m) !! p
                = Some {| cell_iface := cell_iface c; cell_next := Some p |})
    by (apply list_lookup_insert_eq; exact Hp).
  split.
  - intros fuel. unfold ip_iface_select. cbn [cells ifaces ip_iface_walk].
    rewrite Hl2. cbn [cell_iface]. by rewrite Z.eqb_refl.
  - intros fuel a Ha. unfold ip_iface_select. cbn [cells ifaces].
    induction fuel as [|fuel IH]; [reflexivity|].
    cbn [ip_iface_walk]. rewrite Hl2. cbn [cell_iface cell_next].
    destruct (Z.eqb_spec (unicast (cell_iface c)) a); [congruence|].
    exact IH.
Qed.

Lemma ip_iface_register_twice_witness :
  exists m2,
    ifaces_after [(true, 1%nat); (true, 1%nat)]
      {| cells := three_cells false; ifaces := Some 0%nat |} = Some m2
    /\ ifaces m2 = Some 1%nat
    /\ ip_iface_select 1000 33554442 m2 = Unfinished.
Proof.
  destruct (ip_iface_register_twice 1%nat
              (mk_iface_cell (ip_iface_alloc false "192.168.0.1"
                                "255.255.255.0") None)
              {| cells := three_cells false; ifaces := Some 0%nat |}
              eq_refl) as (m2 & Hrun & Hhead & _ & _ & Hloop).
  exists m2. split; [exact Hrun|]. split; [exact Hhead|].
  apply Hloop. vm_compute. discriminate.
Defined.
